(** * PortableXE: the installer inspection and extraction pipeline

    A shallow embedding of [FileAnalyzer] and [ExtractionEngine] of
    PortableXE.py, and the properties of the specification stated over it.

    Conventions of the embedding:
    - a Python [bytes] value is a [list byte]; a Python [str] is a [string]
      (file names are taken to be ASCII, the only characters the patterns
      of the program mention);
    - a call that may raise returns a [py_result]; a [try/except Exception]
      block is the function [try_except];
    - the host (files, external tools, configuration) is explicit data. *)

From Stdlib Require Import ZArith List Bool Lia PeanoNat.
From Stdlib Require Import Strings.String Strings.Ascii Strings.Byte.

#[local] Set Warnings "-abstract-large-number,-register-all".
Import ListNotations.

Local Open Scope string_scope.
Local Open Scope list_scope.

(* ===================================================================== *)
(** ** Python values *)
(* ===================================================================== *)

Module Py.

Definition bytes := list byte.

(** A bytes literal such as [b'MZ']. *)
Definition b (s : string) : bytes := list_byte_of_string s.

(** The exceptions the modelled calls can raise. *)
Inductive exn : Type :=
| OSError            (* open, listdir, subprocess start *)
| StructError        (* struct.unpack on a buffer of the wrong size *)
| ValueError         (* int() on a non-numeric string *)
| TimeoutExpired.    (* subprocess.run past its timeout *)

(** What a Python call does: it returns a value or raises. *)
Inductive py_result (A : Type) : Type :=
| Returned (a : A)
| Raised (e : exn).
Arguments Returned {A} a.
Arguments Raised {A} e.

(** [try: body  except Exception: handler]. *)
Definition try_except {A} (body : py_result A) (handler : exn -> A)
  : py_result A :=
  match body with
  | Returned a => Returned a
  | Raised e => Returned (handler e)
  end.

(** *** Statement blocks

    A block of statements runs against a mutable state [S].  A statement
    goes on to the next one with a value, executes [return r], or raises;
    the state keeps every change made before that point. *)

Inductive flow (R A : Type) : Type :=
| Next (a : A)
| Return (r : R)
| Throw (e : exn).
Arguments Next {R A} a.
Arguments Return {R A} r.
Arguments Throw {R A} e.

Definition Block (S R A : Type) : Type := S -> flow R A * S.

Definition pure {S R A} (a : A) : Block S R A := fun s => (Next a, s).

Definition bind {S R A B} (m : Block S R A) (k : A -> Block S R B)
  : Block S R B :=
  fun s =>
    match m s with
    | (Next a, s') => k a s'
    | (Return r, s') => (Return r, s')
    | (Throw e, s') => (Throw e, s')
    end.

Definition return_ {S R A} (r : R) : Block S R A := fun s => (Return r, s).

(** A call that may raise, made inside a block. *)
Definition call {S R A} (r : py_result A) : Block S R A :=
  fun s =>
    match r with
    | Returned a => (Next a, s)
    | Raised e => (Throw e, s)
    end.

Module BlockNotations.
Notation "x <- m ;; k" := (bind m (fun x => k))
  (at level 61, m at next level, right associativity).
Notation "m ;;; k" := (bind m (fun _ => k))
  (at level 61, right associativity).
End BlockNotations.

Section Sequences.
Context {A : Type} (eqb : A -> A -> bool).

(** [s.startswith(p)] on sequences. *)
Fixpoint starts_with (p s : list A) : bool :=
  match p, s with
  | [], _ => true
  | _ :: _, [] => false
  | x :: p', y :: s' => eqb x y && starts_with p' s'
  end.

(** [p in s]: [p] occurs as a contiguous run of [s]. *)
Fixpoint contains (p s : list A) : bool :=
  starts_with p s ||
  match s with
  | [] => false
  | _ :: s' => contains p s'
  end.

(** [s.endswith(p)]. *)
Definition ends_with (p s : list A) : bool :=
  starts_with (rev p) (rev s).

(** [a == b] on sequences. *)
Fixpoint seq_eqb (u v : list A) : bool :=
  match u, v with
  | [], [] => true
  | x :: u', y :: v' => eqb x y && seq_eqb u' v'
  | _, _ => false
  end.
End Sequences.

(** [buf[lo:hi]] for [0 <= lo <= hi]. *)
Definition slice {A} (lo hi : nat) (buf : list A) : list A :=
  firstn (hi - lo) (skipn lo buf).

(** *** bytes *)

Definition bytes_in (p s : bytes) : bool := contains Byte.eqb p s.
Definition bytes_eqb (u v : bytes) : bool := seq_eqb Byte.eqb u v.

Definition byte_val (x : byte) : Z := Z.of_N (Byte.to_N x).

(** [struct.unpack('<H', buf)[0]]: exactly two bytes, little endian. *)
Definition unpack_H (buf : bytes) : py_result Z :=
  match buf with
  | [b0; b1] => Returned (byte_val b0 + 256 * byte_val b1)%Z
  | _ => Raised StructError
  end.

(** [struct.unpack('<L', buf)[0]]: exactly four bytes, little endian. *)
Definition unpack_L (buf : bytes) : py_result Z :=
  match buf with
  | [b0; b1; b2; b3] =>
      Returned (byte_val b0 + 256 * byte_val b1
                + 65536 * byte_val b2 + 16777216 * byte_val b3)%Z
  | _ => Raised StructError
  end.

(** [buf.rstrip(b'\x00')]. *)
Fixpoint rstrip_nul (buf : bytes) : bytes :=
  match buf with
  | [] => []
  | x :: rest =>
      match rstrip_nul rest with
      | [] => if Byte.eqb x x00 then [] else [x]
      | kept => x :: kept
      end
  end.

(** [buf.decode('ascii', errors='ignore')]: bytes of 128 and more are
    dropped. *)
Fixpoint decode_ascii_ignore (buf : bytes) : string :=
  match buf with
  | [] => EmptyString
  | x :: rest =>
      if (byte_val x <? 128)%Z
      then String (ascii_of_byte x) (decode_ascii_ignore rest)
      else decode_ascii_ignore rest
  end.

(** *** str *)

Definition chars (s : string) : list ascii := list_ascii_of_string s.

Definition lower_char (c : ascii) : ascii :=
  let n := N_of_ascii c in
  if ((65 <=? n) && (n <=? 90))%N then ascii_of_N (n + 32) else c.

(** [s.lower()] on ASCII text: the letters A to Z are mapped, every other
    character is kept. *)
Fixpoint lower (s : string) : string :=
  match s with
  | EmptyString => EmptyString
  | String c s' => String (lower_char c) (lower s')
  end.

(** [p in s], [s.startswith(p)], [s.endswith(p)] on strings. *)
Definition str_in (p s : string) : bool :=
  contains Ascii.eqb (chars p) (chars s).
Definition startswith (s p : string) : bool :=
  starts_with Ascii.eqb (chars p) (chars s).
Definition endswith (s p : string) : bool :=
  ends_with Ascii.eqb (chars p) (chars s).

End Py.

(* ===================================================================== *)
(** ** class FileAnalyzer *)
(* ===================================================================== *)

Module FileAnalyzer.
Import Py Py.BlockNotations.

(** The [analysis] dict of [analyze_pe_structure]; its keys are fixed, so
    it is a record. *)
Record analysis : Type := mk_analysis {
  is_valid_pe : bool;
  is_installer : bool;
  installer_type : string;
  architecture : string;
  subsystem : string;
  sections : list string;
  imports : list string;
  resources : list string
}.

(** The dict literal the function starts from. *)
Definition initial_analysis : analysis :=
  {| is_valid_pe := false;
     is_installer := false;
     installer_type := "unknown";
     architecture := "unknown";
     subsystem := "unknown";
     sections := [];
     imports := [];
     resources := [] |}.

Definition set_is_valid_pe (v : bool) (a : analysis) : analysis :=
  mk_analysis v (is_installer a) (installer_type a) (architecture a)
              (subsystem a) (sections a) (imports a) (resources a).

Definition set_architecture (v : string) (a : analysis) : analysis :=
  mk_analysis (is_valid_pe a) (is_installer a) (installer_type a) v
              (subsystem a) (sections a) (imports a) (resources a).

Definition set_subsystem (v : string) (a : analysis) : analysis :=
  mk_analysis (is_valid_pe a) (is_installer a) (installer_type a)
              (architecture a) v (sections a) (imports a) (resources a).

(** [analysis['sections'].append(name)]. *)
Definition append_section (name : string) (a : analysis) : analysis :=
  mk_analysis (is_valid_pe a) (is_installer a) (installer_type a)
              (architecture a) (subsystem a) (sections a ++ [name])
              (imports a) (resources a).

(** *** The body of the [try] block

    The statements of the block run against two mutable objects: the
    [analysis] dict and the open file [f] (its contents are fixed, its
    position moves).  [return analysis] hands back the dict itself, so the
    block returns no value of its own; the dict keeps what was stored in
    it however the block ends. *)

Record pe_state : Type := mk_pe_state {
  st_analysis : analysis;
  st_pos : nat
}.

Definition PE (A : Type) : Type := Block pe_state unit A.

Definition return_analysis {A} : PE A := return_ tt.

(** An assignment [analysis[key] = v]. *)
Definition store (upd : analysis -> analysis) : PE unit :=
  fun s => (Next tt, mk_pe_state (upd (st_analysis s)) (st_pos s)).

(** [f.read(n)]: at most [n] bytes from the current position, fewer at the
    end of the file; the position advances by what was read. *)
Definition f_read (data : bytes) (n : nat) : PE bytes :=
  fun s =>
    let chunk := firstn n (skipn (st_pos s) data) in
    (Next chunk, mk_pe_state (st_analysis s) (st_pos s + List.length chunk)).

(** [f.seek(offset)]: any offset is accepted, also one past the end. *)
Definition f_seek (offset : nat) : PE unit :=
  fun s => (Next tt, mk_pe_state (st_analysis s) offset).

(** [for i in range(num_sections)]: read a 40-byte section header and keep
    the name of every complete one. *)
Fixpoint read_sections (data : bytes) (num_sections : nat) : PE unit :=
  match num_sections with
  | O => pure tt
  | S remaining =>
      section_header <- f_read data 40 ;;
      (if (List.length section_header =? 40)%nat
       then store (append_section
                     (decode_ascii_ignore
                        (rstrip_nul (slice 0 8 section_header))))
       else pure tt) ;;;
      read_sections data remaining
  end.

Definition pe_signature : bytes := [x50; x45; x00; x00].   (* b'PE\x00\x00' *)

(** The statements between [with open(...) as f:] and the end of the
    [try] block. *)
Definition parse_headers (data : bytes) : PE unit :=
  (* Read DOS header *)
  dos_header <- f_read data 64 ;;
  if negb (bytes_eqb (slice 0 2 dos_header) (b "MZ")) then return_analysis
  else
  (* Get PE header offset *)
  pe_offset <- call (unpack_L (slice 60 64 dos_header)) ;;
  (* Read PE signature *)
  f_seek (Z.to_nat pe_offset) ;;;
  pe_sig <- f_read data 4 ;;
  if negb (bytes_eqb pe_sig pe_signature) then return_analysis
  else
  store (set_is_valid_pe true) ;;;
  (* Read COFF header *)
  coff_header <- f_read data 20 ;;
  machine <- call (unpack_H (slice 0 2 coff_header)) ;;
  num_sections <- call (unpack_H (slice 2 4 coff_header)) ;;
  (* Determine architecture *)
  (if (machine =? 0x8664)%Z then store (set_architecture "x64")
   else if (machine =? 0x14c)%Z then store (set_architecture "x86")
   else if (machine =? 0x1c4)%Z then store (set_architecture "ARM")
   else pure tt) ;;;
  (* Read optional header *)
  opt_header_size <- call (unpack_H (slice 16 18 coff_header)) ;;
  (if (opt_header_size >? 0)%Z
   then
     opt_header <- f_read data (Z.to_nat opt_header_size) ;;
     if (68 <=? List.length opt_header)%nat
     then
       subsystem_code <- call (unpack_H (slice 68 70 opt_header)) ;;
       if (subsystem_code =? 2)%Z then store (set_subsystem "GUI")
       else if (subsystem_code =? 3)%Z then store (set_subsystem "Console")
       else pure tt
     else pure tt
   else pure tt) ;;;
  (* Read section headers *)
  read_sections data (Z.to_nat num_sections).

(** The file system as the analyzer sees it: the contents of the file at a
    path, [None] when [open] raises (no such file, a directory, no
    permission). *)
Definition files : Type := string -> option bytes.

(** What the [try] block of [analyze_pe_structure] leaves behind: how it
    ended and the [analysis] dict at that moment. *)
Definition run_pe_block (fs : files) (file_path : string)
  : flow unit unit * analysis :=
  match fs file_path with
  | None => (Throw OSError, initial_analysis)
  | Some data =>
      let '(outcome, s) := parse_headers data (mk_pe_state initial_analysis 0) in
      (outcome, st_analysis s)
  end.

(** [FileAnalyzer.analyze_pe_structure(file_path)].  Leaving the [try]
    block by its end, by [return analysis] or by an exception (which the
    [except Exception] clause logs) ends in the same [return analysis]. *)
Definition analyze_pe_structure (fs : files) (file_path : string)
  : py_result analysis :=
  match run_pe_block fs file_path with
  | (Next _, a) => Returned a
  | (Return _, a) => Returned a
  | (Throw _, a) => Returned a
  end.

(** *** Installer detection *)

Definition installer_patterns : list string :=
  ["setup"; "install"; "installer"].

Section Detection.
(** [os.path.basename], a function of the path string alone. *)
Variable basename : string -> string.
Variable fs : files.

(** The statements of the [try] block of [detect_installer_type].
    [os.path.getsize] of a file that was just read is the length of its
    contents. *)
Definition detect_block (file_path : string) : py_result (bool * string) :=
  let filename := lower (basename file_path) in
  (* Check filename patterns *)
  if existsb (fun pattern => str_in pattern filename) installer_patterns
  then Returned (true, "Generic Installer")
  else
  (* Check file content for installer signatures *)
  match fs file_path with
  | None => Raised OSError
  | Some contents =>
      let data := firstn 8192 contents in
      if bytes_in (b "Inno Setup") data || bytes_in (b "InnoSetup") data
      then Returned (true, "Inno Setup")
      else if bytes_in (b "NSIS") data || bytes_in (b "Nullsoft") data
              || bytes_in (b "!insertmacro") data
      then Returned (true, "NSIS")
      else if bytes_in (b "InstallShield") data
      then Returned (true, "InstallShield")
      else if bytes_in (b "WiX") data || bytes_in (b "Windows Installer") data
      then Returned (true, "WiX")
      else if bytes_in (b "This installation package") data
      then Returned (true, "Windows Installer")
      else if bytes_in (b "Advanced Installer") data
      then Returned (true, "Advanced Installer")
      else
      (* Check file size (large files often installers) *)
      let file_size := Z.of_nat (List.length contents) in
      if (file_size >? 50 * 1024 * 1024)%Z
      then Returned (true, "Large Executable (Likely Installer)")
      else Returned (false, "Standalone Application")
  end.

(** [FileAnalyzer.detect_installer_type(file_path)]. *)
Definition detect_installer_type (file_path : string)
  : py_result (bool * string) :=
  try_except (detect_block file_path) (fun _ => (false, "Unknown")).

End Detection.

End FileAnalyzer.

(* ===================================================================== *)
(** ** class ExtractionEngine *)
(* ===================================================================== *)

Module ExtractionEngine.
Import Py Py.BlockNotations.

(** *** The extraction directory

    What stands at the path [extract_dir]: a directory tree.  A directory
    lists its entries by name; the order is the one [os.listdir] and
    [os.walk] report. *)

Inductive node : Type :=
| File
| Dir (entries : list (string * node)).

(** [None]: nothing exists at the path. *)
Definition target : Type := option node.

(** [os.path.exists(extract_dir)]. *)
Definition exists_ (t : target) : bool :=
  match t with
  | Some _ => true
  | None => false
  end.

(** [os.listdir(extract_dir)]: raises unless the path is a directory. *)
Definition listdir (t : target) : py_result (list string) :=
  match t with
  | Some (Dir entries) => Returned (map fst entries)
  | _ => Raised OSError
  end.

(** The [files] component of one [os.walk] step: the entries that are not
    directories. *)
Fixpoint file_names (entries : list (string * node)) : list string :=
  match entries with
  | [] => []
  | (name, File) :: rest => name :: file_names rest
  | (_, Dir _) :: rest => file_names rest
  end.

(** [os.walk(top)], top-down: for every directory reached, the names of
    its files.  A top that is not a directory yields nothing. *)
Fixpoint walk (n : node) : list (list string) :=
  match n with
  | File => []
  | Dir entries =>
      file_names entries ::
      (fix below (l : list (string * node)) : list (list string) :=
         match l with
         | [] => []
         | (_, child) :: rest => walk child ++ below rest
         end) entries
  end.

Definition os_walk (t : target) : list (list string) :=
  match t with
  | Some n => walk n
  | None => []
  end.

(** *** The host

    Everything the engine asks of its environment.  An external tool is
    seen through what it does to the extraction directory and how the
    process ends. *)

Inductive rmtree_result : Type :=
| Removed                           (* the tree is gone *)
| RemoveFailed (remains : target).     (* raised, leaving [remains] behind *)

Record host : Type := mk_host {
  (** [os.path.exists] on the fixed tool locations *)
  os_path_exists : string -> bool;
  (** [shutil.which] *)
  shutil_which : string -> option string;
  (** [os.environ.get(name, '')] *)
  os_environ_get : string -> string;
  (** the directory [tempfile.mkdtemp] creates *)
  mkdtemp : string;
  (** the builtin [int] on a string *)
  int_of_str : string -> py_result Z;
  (** [subprocess.run(cmd, timeout=...)]: the return code, or the
      exception raised, and the extraction directory afterwards *)
  subprocess_run : list string -> Z -> target -> py_result Z * target;
  (** [zipfile.ZipFile(path).extractall(extract_dir)] *)
  zip_extractall : string -> target -> py_result unit * target;
  (** [shutil.rmtree(extract_dir)] *)
  shutil_rmtree : node -> rmtree_result
}.

(** [PortableXEConfig]: the value stored under a section and a key. *)
Definition config : Type := string -> string -> option string.

(** [PortableXEConfig.get(section, key, fallback)]. *)
Definition get (cfg : config) (section key fallback : string) : string :=
  match cfg section key with
  | Some v => v
  | None => fallback
  end.

(** [a] is a drive without a path: one character and a colon, as [C:]. *)
Definition is_bare_drive (a : string) : bool :=
  match a with
  | String _ (String c EmptyString) => Ascii.eqb c ":"
  | _ => false
  end.

(** [os.path.join(a, b)], Windows flavour, for a [b] that is relative and
    names no drive: the separator is put between the two unless [a] is
    empty, ends with a separator, or is a bare drive.  An [a] that
    begins with two separators and is a UNC share or a device name
    alone is outside this model. *)
Definition path_join (a b : string) : string :=
  if (a =? "")%string then b
  else if endswith a "\" || endswith a "/" || is_bare_drive a then a ++ b
  else a ++ "\" ++ b.

(** *** Helper functions for external tools *)

Definition is_tool_in_path (h : host) (name : string) : bool :=
  match shutil_which h name with
  | Some _ => true
  | None => false
  end.

Definition seven_zip_paths (h : host) : list string :=
  [ "C:\Program Files\7-Zip\7z.exe";
    "C:\Program Files (x86)\7-Zip\7z.exe";
    path_join (path_join (os_environ_get h "ProgramFiles") "7-Zip") "7z.exe";
    path_join (path_join (os_environ_get h "ProgramFiles(x86)") "7-Zip")
              "7z.exe" ].

Definition find_7zip (h : host) : option string :=
  match find (os_path_exists h) (seven_zip_paths h) with
  | Some path => Some path
  | None => if is_tool_in_path h "7z.exe" then Some "7z.exe" else None
  end.

Definition find_innoextract (h : host) : option string :=
  if is_tool_in_path h "innoextract.exe" then Some "innoextract.exe"
  else None.

(** *** Extraction strategies *)

Section Engine.
Variable h : host.
Variable cfg : config.

(** [result.returncode == 0 and len(os.listdir(extract_dir)) > 0]; the
    listing is made only after a zero return code. *)
Definition exit_ok_and_nonempty (returncode : Z) (t : target)
  : py_result bool :=
  if (returncode =? 0)%Z
  then match listdir t with
       | Returned names => Returned (0 <? List.length names)%nat
       | Raised e => Raised e
       end
  else Returned false.

(** The common tail of the three tool-backed strategies: read the
    timeout, run the command, judge the result.  Any exception is caught
    by the strategy's [except Exception] and makes it return [False]. *)
Definition run_tool (cmd : list string) (t : target) : bool * target :=
  match int_of_str h (get cfg "Extraction" "timeout_seconds" "300") with
  | Raised _ => (false, t)
  | Returned timeout =>
      match subprocess_run h cmd timeout t with
      | (Raised _, t') => (false, t')
      | (Returned returncode, t') =>
          match exit_ok_and_nonempty returncode t' with
          | Returned ok => (ok, t')
          | Raised _ => (false, t')
          end
      end
  end.

Definition _extract_with_7zip (installer_path extract_dir : string)
  (t : target) : bool * target :=
  match find_7zip h with
  | None => (false, t)
  | Some seven_zip_exe =>
      run_tool [seven_zip_exe; "x"; installer_path; ("-o" ++ extract_dir)%string;
                "-y"; "-bb1"] t
  end.

Definition _extract_with_innoextract (installer_path extract_dir : string)
  (t : target) : bool * target :=
  match find_innoextract h with
  | None => (false, t)
  | Some innoextract_exe =>
      run_tool [innoextract_exe; installer_path; "-d"; extract_dir; "-s"] t
  end.

Definition _extract_msi (installer_path extract_dir : string)
  (t : target) : bool * target :=
  run_tool ["msiexec"; "/a"; installer_path; "/qb";
            ("TARGETDIR=" ++ extract_dir)%string] t.

Definition _extract_universal (installer_path extract_dir : string)
  (t : target) : bool * target :=
  match zip_extractall h installer_path t with
  | (Raised _, t') => (false, t')
  | (Returned _, t') =>
      match listdir t' with
      | Returned names => ((0 <? List.length names)%nat, t')
      | Raised _ => (false, t')
      end
  end.

(** *** Validation *)

Definition pe_sections : list string :=
  [".text"; ".data"; ".rdata"; ".bss"; ".idata"; ".edata"; ".rsrc"].

(** [any(f.startswith(section) for section in pe_sections)]. *)
Definition is_pe_section_name (f : string) : bool :=
  existsb (fun section => startswith f section) pe_sections.

(** [file.lower().endswith(suffixes)] with a tuple of suffixes. *)
Definition has_suffix (suffixes : list string) (file : string) : bool :=
  existsb (fun suffix => endswith (lower file) suffix) suffixes.

Definition is_executable_name : string -> bool :=
  has_suffix [".exe"; ".dll"; ".sys"].

Definition is_meaningful_name : string -> bool :=
  has_suffix [".exe"; ".dll"; ".txt"; ".ini"; ".cfg"; ".dat"].

(** The counting loops over [os.walk]. *)
Definition count_walked (p : string -> bool) (t : target) : nat :=
  List.length (filter p (List.concat (os_walk t))).

Definition _validate_extraction (extract_dir : string) (t : target)
  : py_result bool :=
  if (extract_dir =? "")%string || negb (exists_ t) then Returned false
  else
  match listdir t with
  | Raised e => Raised e
  | Returned files =>
      if (List.length files =? 0)%nat then Returned false
      else
      (* Check for PE file sections (indicates failed extraction) *)
      let pe_section_count :=
        List.length (filter is_pe_section_name files) in
      if (3 <? pe_section_count)%nat then Returned false
      else
      (* Check for actual executable files or meaningful content *)
      let exe_count := count_walked is_executable_name t in
      let meaningful_files := count_walked is_meaningful_name t in
      Returned ((0 <? exe_count)%nat || (5 <? meaningful_files)%nat)
  end.

(** [_cleanup_failed_extraction]: remove the tree and recreate the
    directory; an exception of [rmtree] is swallowed and leaves what could
    not be removed. *)
Definition _cleanup_failed_extraction (t : target) : target :=
  match t with
  | None => None
  | Some n =>
      match shutil_rmtree h n with
      | Removed => Some (Dir [])
      | RemoveFailed remains => remains
      end
  end.

(** *** Orchestration *)

Inductive strategy : Type :=
| SevenZip
| InnoExtract
| Msi
| Universal.

(** The state of one run: the extraction directory, and (for the
    statement of properties only) the strategies started so far, each with
    the directory as it stood when the strategy began. *)
Record run_state : Type := mk_run_state {
  rs_target : target;
  rs_started : list (strategy * target)
}.

Definition Run (A : Type) : Type := Block run_state (option string) A.

(** Call a strategy on the current directory. *)
Definition attempt (s : strategy) (method : target -> bool * target)
  : Run bool :=
  fun st =>
    let '(ok, t') := method (rs_target st) in
    (Next ok,
     mk_run_state t' (rs_started st ++ [(s, rs_target st)])).

Definition validate (extract_dir : string) : Run bool :=
  fun st => call (_validate_extraction extract_dir (rs_target st)) st.

Definition cleanup : Run unit :=
  fun st =>
    (Next tt,
     mk_run_state (_cleanup_failed_extraction (rs_target st))
                  (rs_started st)).

(** The statements of the [try] block of [extract_installer]. *)
Definition extract_block (installer_path extract_dir : string) : Run unit :=
  (* Method 1: 7-Zip extraction *)
  (if (get cfg "Extraction" "use_7zip" "" =? "true")%string
   then
     ok <- attempt SevenZip (_extract_with_7zip installer_path extract_dir) ;;
     if ok : bool
     then
       valid <- validate extract_dir ;;
       if valid : bool then return_ (Some extract_dir) else cleanup
     else pure tt
   else pure tt) ;;;
  (* Method 2: Inno Setup extraction *)
  (if (get cfg "Extraction" "use_innoextract" "" =? "true")%string
   then
     ok <- attempt InnoExtract
             (_extract_with_innoextract installer_path extract_dir) ;;
     if ok : bool
     then
       valid <- validate extract_dir ;;
       if valid : bool then return_ (Some extract_dir) else cleanup
     else pure tt
   else pure tt) ;;;
  (* Method 3: MSI extraction *)
  (if endswith (lower installer_path) ".msi"
      && (get cfg "Extraction" "use_msi_extract" "" =? "true")%string
   then
     ok <- attempt Msi (_extract_msi installer_path extract_dir) ;;
     if ok : bool
     then
       valid <- validate extract_dir ;;
       if valid : bool then return_ (Some extract_dir) else cleanup
     else pure tt
   else pure tt) ;;;
  (* Method 4: Universal methods *)
  ok <- attempt Universal (_extract_universal installer_path extract_dir) ;;
  (if ok : bool
   then
     valid <- validate extract_dir ;;
     if valid : bool then return_ (Some extract_dir) else pure tt
   else pure tt) ;;;
  return_ None.

(** [ExtractionEngine.extract_installer(installer_path)]: the value
    returned, with the final state of the run.  The directory is created
    empty under a fresh temporary directory; an exception inside the
    [try] block makes the function return [None].  The progress callback
    only reports outwards and is left out. *)
Definition extract_installer (installer_path : string)
  : option string * run_state :=
  let temp_dir := mkdtemp h in
  let extract_dir := path_join temp_dir "extracted" in
  let start := mk_run_state (Some (Dir [])) [] in
  match extract_block installer_path extract_dir start with
  | (Return r, st) => (r, st)
  | (Next _, st) => (None, st)
  | (Throw _, st) => (None, st)
  end.

End Engine.

End ExtractionEngine.

(* ===================================================================== *)
(** ** Vocabulary of the specification *)
(* ===================================================================== *)

Module Spec.
Import Py FileAnalyzer ExtractionEngine.

(** [p] occurs in [s] as a contiguous run. *)
Definition occurs_in {A} (p s : list A) : Prop :=
  exists before after, s = before ++ p ++ after.

(** The filename rule: the lower-cased name contains an installer word. *)
Definition name_is_installer (name : string) : Prop :=
  exists pattern,
    In pattern installer_patterns /\
    occurs_in (chars pattern) (chars (lower name)).

(** The framework signatures with the family each one stands for, in the
    order in which the content is examined. *)
Definition signature_table : list (bytes * string) :=
  [ (b "Inno Setup", "Inno Setup");
    (b "InnoSetup", "Inno Setup");
    (b "NSIS", "NSIS");
    (b "Nullsoft", "NSIS");
    (b "!insertmacro", "NSIS");
    (b "InstallShield", "InstallShield");
    (b "WiX", "WiX");
    (b "Windows Installer", "WiX");
    (b "This installation package", "Windows Installer");
    (b "Advanced Installer", "Advanced Installer") ].

(** [family] belongs to the first signature of the table found in
    [data]. *)
Definition first_match (data : bytes) (family : string) : Prop :=
  exists earlier signature later,
    signature_table = earlier ++ (signature, family) :: later /\
    occurs_in signature data /\
    forall e, In e earlier -> ~ occurs_in (fst e) data.

Definition no_match (data : bytes) : Prop :=
  forall e, In e signature_table -> ~ occurs_in (fst e) data.

(** The test the content rules make on one row of the table. *)
Definition row_found (data : bytes) (row : bytes * string) : bool :=
  bytes_in (fst row) data.

(** What the size rule answers. *)
Definition by_size (contents : bytes) : bool * string :=
  if (Z.of_nat (List.length contents) >? 50 * 1024 * 1024)%Z
  then (true, "Large Executable (Likely Installer)")
  else (false, "Standalone Application").

(** Every family a file that could be read is classified into. *)
Definition classified_families : list string :=
  "Generic Installer" :: map snd signature_table
  ++ ["Large Executable (Likely Installer)"; "Standalone Application"].

(** The first bytes of a file, as far as content classification looks. *)
Definition head_of (contents : bytes) : bytes := firstn 8192 contents.

Definition fifty_MiB : Z := 50 * 1024 * 1024.

(** The little-endian 32-bit number at offset [i] of [buf], if the four
    bytes are there. *)
Definition le32_at (i : nat) (buf : bytes) : option Z :=
  match skipn i buf with
  | b0 :: b1 :: b2 :: b3 :: _ =>
      Some (byte_val b0 + 256 * byte_val b1
            + 65536 * byte_val b2 + 16777216 * byte_val b3)%Z
  | _ => None
  end.

(** The file starts with [MZ], its 64-byte DOS header names an offset,
    and the four bytes at that offset are [PE\0\0]. *)
Definition has_pe_signature (data : bytes) : Prop :=
  firstn 2 data = b "MZ" /\
  exists offset,
    le32_at 60 (firstn 64 data) = Some offset /\
    firstn 4 (skipn (Z.to_nat offset) data) = pe_signature.

(** A statement keeps a property of the [analysis] dict. *)
Definition keeps {A} (P : analysis -> Prop) (m : PE A) : Prop :=
  forall s, P (st_analysis s) -> P (st_analysis (snd (m s))).

(** The dict has been marked valid. *)
Definition marked_valid (a : analysis) : Prop := is_valid_pe a = true.

(** A file called [name] lies somewhere in the tree. *)
Inductive in_tree (name : string) : node -> Prop :=
| in_tree_here entries :
    In (name, File) entries -> in_tree name (Dir entries)
| in_tree_below entries d child :
    In (d, child) entries -> in_tree name child ->
    in_tree name (Dir entries).

(** The name ends, case-insensitively, with the extension. *)
Definition has_extension (name ext : string) : Prop :=
  exists stem, lower name = (stem ++ ext)%string.

Definition executable_extension (name : string) : Prop :=
  has_extension name ".exe" \/ has_extension name ".dll"
  \/ has_extension name ".sys".

(** The name starts with one of the linker-section prefixes. *)
Definition section_prefixed (name : string) : Prop :=
  exists prefix rest,
    In prefix pe_sections /\ name = (prefix ++ rest)%string.

(** At least [n] elements of the list satisfy [P]. *)
Inductive at_least {A} (P : A -> Prop) : nat -> list A -> Prop :=
| at_least_zero l : at_least P 0 l
| at_least_skip n x l : at_least P n l -> at_least P n (x :: l)
| at_least_take n x l :
    P x -> at_least P n l -> at_least P (S n) (x :: l).

(** The immediate entries of a directory, by name. *)
Definition entry_names (entries : list (string * node)) : list string :=
  map fst entries.

(** A directory with these entries stands at the path [extract_dir]; a
    path that names something is not the empty string. *)
Definition directory_at (extract_dir : string) (t : target)
  (entries : list (string * node)) : Prop :=
  extract_dir <> "" /\ t = Some (Dir entries).

(** Nothing stands at the path. *)
Definition nothing_at (t : target) : Prop := t = None.

(** The extraction directory is listed non-empty. *)
Definition has_entries (t : target) : Prop :=
  exists entries, t = Some (Dir entries) /\ entries <> [].

(** A run of an external tool that counts as a success: the timeout
    could be read, the process exited with code zero, and the extraction
    directory is listed non-empty afterwards ([after] is the directory
    as the process left it). *)
Definition tool_run_succeeds (h : host) (cfg : config) (cmd : list string)
  (before after : target) : Prop :=
  exists timeout,
    int_of_str h (get cfg "Extraction" "timeout_seconds" "300")
      = Returned timeout /\
    subprocess_run h cmd timeout before = (Returned 0%Z, after) /\
    has_entries after.

(** A statement of the run only adds to the list of started
    strategies. *)
Definition grows {A} (m : Run A) : Prop :=
  forall st, exists more,
    rs_started (snd (m st)) = rs_started st ++ more.

End Spec.

(* ===================================================================== *)
(** ** Sample inputs *)
(* ===================================================================== *)

Module Samples.
Import Py FileAnalyzer ExtractionEngine.

(** *** Paths and files *)

Definition is_separator (c : ascii) : bool :=
  Ascii.eqb c "\" || Ascii.eqb c "/".

Fixpoint after_last_separator (current s : string) : string :=
  match s with
  | EmptyString => current
  | String c rest =>
      if is_separator c then after_last_separator EmptyString rest
      else after_last_separator (current ++ String c EmptyString) rest
  end.

(** The last component of a path: what [os.path.basename] gives for the
    drive-letter and relative paths used below. *)
Definition last_component (path : string) : string :=
  after_last_separator EmptyString path.

(** A file system holding nothing. *)
Definition no_files : files := fun _ => None.

(** A file system holding one file. *)
Definition one_file (path : string) (contents : bytes) : files :=
  fun p => if (p =? path)%string then Some contents else None.

Definition zeros (n : nat) : bytes := repeat x00 n.

(** *** Executable images *)

(** A DOS header: [MZ], padding, and the PE header offset 64 at byte 60. *)
Definition dos_header_64 : bytes :=
  b "MZ" ++ zeros 58 ++ [x40; x00; x00; x00].

(** A COFF header for machine 0x8664 with the given section count and
    optional-header size (both below 256). *)
Definition coff_x64 (num_sections opt_size : byte) : bytes :=
  [x64; x86; num_sections; x00] ++ zeros 12 ++ [opt_size; x00] ++ zeros 2.

(** A 40-byte section header carrying [name]. *)
Definition section_header (name : string) : bytes :=
  b name ++ zeros (40 - String.length name).

(** One section, optional header of 70 bytes with subsystem 2. *)
Definition image_opt70 : bytes :=
  dos_header_64 ++ pe_signature ++ coff_x64 x01 x46
  ++ (zeros 68 ++ [x02; x00]) ++ section_header ".text".

(** One section, optional header declared and present with 68 bytes. *)
Definition image_opt68 : bytes :=
  dos_header_64 ++ pe_signature ++ coff_x64 x01 x44
  ++ zeros 68 ++ section_header ".text".

(** One section, optional header of 67 bytes. *)
Definition image_opt67 : bytes :=
  dos_header_64 ++ pe_signature ++ coff_x64 x01 x43
  ++ zeros 67 ++ section_header ".text".

(** A valid signature followed by a COFF header cut after its machine and
    section-count fields. *)
Definition image_cut_coff : bytes :=
  dos_header_64 ++ pe_signature ++ [x64; x86; x01; x00].

(** A zip archive's first bytes: not an executable. *)
Definition zip_bytes : bytes := b "PK" ++ [x03; x04] ++ zeros 26.

(** *** Installer candidates *)

Definition inno_marked : bytes := zeros 100 ++ b "Inno Setup" ++ zeros 100.

(** Sixty MiB of zero bytes. *)
Definition large_plain : bytes := repeat x00 (60 * 1024 * 1024).

(** *** Extraction directories *)

Definition dissected_with_exe : list (string * node) :=
  [ (".text", File); (".data", File); (".rdata", File); (".rsrc", File);
    ("app.exe", File) ].

Definition dissected : list (string * node) :=
  [ (".text", File); (".data", File); (".rdata", File); (".rsrc", File) ].

Definition nested_app : list (string * node) :=
  [ ("readme.md", File);
    ("bin", Dir [ ("Tool.EXE", File); ("lang", Dir []) ]) ].

Definition only_folders : list (string * node) :=
  [ ("bin", Dir [ ("lang", Dir []) ]); ("docs", Dir []) ].

(** *** Hosts *)

Definition plain_config : config :=
  fun section key =>
    if (section =? "Extraction")%string
    then if (key =? "timeout_seconds")%string then Some "300"
         else Some "true"
    else None.

Definition seven_zip_exe : string := "C:\Program Files\7-Zip\7z.exe".

Definition stale : target := Some (Dir [ ("data1.cab", File) ]).

(** 7-Zip is installed and runs past the timeout after it has written one
    file; innoextract is installed and exits with code 1 without writing;
    the input is no zip archive. *)
Definition host_7zip_times_out : host :=
  {| os_path_exists := fun p => (p =? seven_zip_exe)%string;
     shutil_which := fun name =>
       if (name =? "innoextract.exe")%string
       then Some "C:\Tools\innoextract.exe" else None;
     os_environ_get := fun _ => "";
     mkdtemp := "C:\Temp\portablexe_extract_ab12";
     int_of_str := fun s =>
       if (s =? "300")%string then Returned 300%Z else Raised ValueError;
     subprocess_run := fun cmd timeout t =>
       match cmd with
       | exe :: _ =>
           if (exe =? seven_zip_exe)%string
           then (Raised TimeoutExpired, stale)
           else (Returned 1%Z, t)
       | [] => (Raised OSError, t)
       end;
     zip_extractall := fun _ t => (Raised OSError, t);
     shutil_rmtree := fun _ => Removed |}.

(** As above, but innoextract exits with code 0 after writing a text
    file, and what 7-Zip left before its timeout is a program file. *)
Definition host_stale_exe : host :=
  {| os_path_exists := fun p => (p =? seven_zip_exe)%string;
     shutil_which := fun name =>
       if (name =? "innoextract.exe")%string
       then Some "C:\Tools\innoextract.exe" else None;
     os_environ_get := fun _ => "";
     mkdtemp := "C:\Temp\portablexe_extract_ab12";
     int_of_str := fun s =>
       if (s =? "300")%string then Returned 300%Z else Raised ValueError;
     subprocess_run := fun cmd timeout t =>
       match cmd with
       | exe :: _ =>
           if (exe =? seven_zip_exe)%string
           then (Raised TimeoutExpired, Some (Dir [ ("core.dll", File) ]))
           else
             match t with
             | Some (Dir entries) =>
                 (Returned 0%Z, Some (Dir (entries ++ [("notes.txt", File)])))
             | _ => (Returned 1%Z, t)
             end
       | [] => (Raised OSError, t)
       end;
     zip_extractall := fun _ t => (Raised OSError, t);
     shutil_rmtree := fun _ => Removed |}.

End Samples.

(* ===================================================================== *)
(** ** class PortableXE_GUI: the parts without widgets *)
(* ===================================================================== *)

Module PortableXE_GUI.
Import Py FileAnalyzer ExtractionEngine.

(** [s.replace(term, '')] on the characters still to be read: [skip]
    counts the characters of a match that remain to be dropped.  Matches
    are found left to right and do not overlap. *)
Fixpoint remove_from (term : list ascii) (skip : nat) (s : list ascii)
  : list ascii :=
  match s with
  | [] => []
  | c :: rest =>
      match skip with
      | S k => remove_from term k rest
      | O =>
          if starts_with Ascii.eqb term s
          then remove_from term (List.length term - 1) rest
          else c :: remove_from term 0 rest
      end
  end.

(** [s.replace(term, '')] for a non-empty [term]. *)
Definition remove_all (term s : string) : string :=
  string_of_list_ascii (remove_from (chars term) 0 (chars s)).

(** [c in ' _-']. *)
Definition is_trim_char (c : ascii) : bool :=
  Ascii.eqb c " " || Ascii.eqb c "_" || Ascii.eqb c "-".

(** [s.lstrip(' _-')]. *)
Fixpoint lstrip (s : list ascii) : list ascii :=
  match s with
  | [] => []
  | c :: rest => if is_trim_char c then lstrip rest else s
  end.

(** [s.strip(' _-')]. *)
Definition strip (s : string) : string :=
  string_of_list_ascii (rev (lstrip (rev (lstrip (chars s))))).

(** [c.upper()] for an ASCII character. *)
Definition upper_char (c : ascii) : ascii :=
  let n := N_of_ascii c in
  if ((97 <=? n) && (n <=? 122))%N then ascii_of_N (n - 32) else c.

(** [s.capitalize()] on ASCII text: Python maps the letters of other
    alphabets as well, which this model keeps as they are. *)
Definition capitalize (s : string) : string :=
  match s with
  | EmptyString => EmptyString
  | String c rest => String (upper_char c) (lower rest)
  end.

(** The application name [select_input_file] proposes for a file whose
    [Path(file_path).stem] is the ASCII text [stem]. *)
Definition suggested_app_name (stem : string) : string :=
  let app_name :=
    fold_left (fun app_name term => remove_all term (lower app_name))
              ["setup"; "install"; "installer"] stem in
  capitalize (strip app_name).

(** [check_dependencies]: the tools reported as missing. *)
Definition missing_dependencies (h : host) : list string :=
  (match find_7zip h with
   | Some _ => []
   | None => ["7-Zip (7z.exe)"]
   end) ++
  (match find_innoextract h with
   | Some _ => []
   | None => ["innoextract"]
   end).

Section Thread.
Variable basename : string -> string.
Variable fs : files.
Variable h : host.
Variable cfg : config.

(** The first half of [_create_portable_app_thread]: what is handed to
    [build_portable_app] as [source_path] and [is_standalone], with the
    state in which an extraction engine that was used ended. *)
Definition choose_source (input_file : string)
  : py_result (string * bool * option run_state) :=
  match detect_installer_type basename fs input_file with
  | Raised e => Raised e
  | Returned (is_installer, installer_type) =>
      let source_path := input_file in
      let is_standalone := negb is_installer in
      if is_installer
      then
        let '(extracted_path, run) := extract_installer h cfg input_file in
        match extracted_path with
        | Some dir =>
            if (dir =? "")%string
            then Returned (source_path, true, Some run)
            else Returned (dir, false, Some run)
        | None => Returned (source_path, true, Some run)
        end
      else Returned (source_path, is_standalone, None)
  end.

End Thread.

End PortableXE_GUI.

(* ===================================================================== *)
(** ** Further vocabulary *)
(* ===================================================================== *)

Module Notions.
Import Py FileAnalyzer ExtractionEngine Spec.

(** *** Executable images *)

(** The little-endian 16-bit number at offset [i] of [buf]. *)
Definition le16_at (i : nat) (buf : bytes) : option Z :=
  match skipn i buf with
  | b0 :: b1 :: _ => Some (byte_val b0 + 256 * byte_val b1)%Z
  | _ => None
  end.

(** The machine types the analyzer names. *)
Definition architecture_of (machine : Z) : string :=
  if (machine =? 0x8664)%Z then "x64"
  else if (machine =? 0x14c)%Z then "x86"
  else if (machine =? 0x1c4)%Z then "ARM"
  else "unknown".

(** The subsystem codes the analyzer names. *)
Definition subsystem_of (code : Z) : string :=
  if (code =? 2)%Z then "GUI"
  else if (code =? 3)%Z then "Console"
  else "unknown".

(** The name a 40-byte section header carries: its first eight bytes
    without the trailing zero padding, as ASCII. *)
Definition section_name (header : bytes) : string :=
  decode_ascii_ignore (rstrip_nul (slice 0 8 header)).

(** The subsystem an optional header of this content is read as: bytes
    68-69 when 70 bytes or more are there. *)
Definition subsystem_in (opt_header : bytes) : string :=
  match le16_at 68 opt_header with
  | Some code => subsystem_of code
  | None => "unknown"
  end.

(** The record for a valid image with these three findings. *)
Definition valid_analysis (arch subsys : string) (names : list string)
  : analysis :=
  {| is_valid_pe := true;
     is_installer := false;
     installer_type := "unknown";
     architecture := arch;
     subsystem := subsys;
     sections := names;
     imports := [];
     resources := [] |}.

(** The keys the analyzer creates and never fills in. *)
Definition unfilled_keys (a : analysis) : Prop :=
  is_installer a = false /\ installer_type a = "unknown" /\
  imports a = [] /\ resources a = [].

(** Architecture and subsystem are among the names the analyzer knows. *)
Definition named_values (a : analysis) : Prop :=
  In (architecture a) ["x64"; "x86"; "ARM"; "unknown"] /\
  In (subsystem a) ["GUI"; "Console"; "unknown"].

(** Every section name has at most eight characters. *)
Definition short_names (a : analysis) : Prop :=
  Forall (fun name => String.length name <= 8) (sections a).

(** A statement adds at most [n] section names. *)
Definition appends_at_most {A} (n : nat) (m : PE A) : Prop :=
  forall s,
    List.length (sections (st_analysis (snd (m s))))
    <= List.length (sections (st_analysis s)) + n.

End Notions.

(* ===================================================================== *)
(** ** Further sample inputs *)
(* ===================================================================== *)

Module MoreSamples.
Import Py FileAnalyzer ExtractionEngine Samples.

(** A package that carries the Windows Installer notice only. *)
Definition msi_marked : bytes :=
  zeros 10 ++ b "This installation package could not be opened" ++ zeros 10.

(** Nine thousand zero bytes followed by the Inno Setup signature. *)
Definition late_marker : bytes := zeros 9000 ++ b "Inno Setup".

(** Nine thousand zero bytes. *)
Definition nine_thousand : bytes := zeros 9000.

End MoreSamples.

(* ===================================================================== *)
(** ** Vocabulary and samples for validation *)
(* ===================================================================== *)

Module ValidationNotions.
Import Py ExtractionEngine Spec.

(** The name ends, case-insensitively, with one of the extensions the
    validator counts as meaningful content. *)
Definition meaningful_extension (name : string) : Prop :=
  has_extension name ".exe" \/ has_extension name ".dll"
  \/ has_extension name ".txt" \/ has_extension name ".ini"
  \/ has_extension name ".cfg" \/ has_extension name ".dat".

(** An immediate entry that is a file with a meaningful extension. *)
Definition meaningful_file (entry : string * node) : Prop :=
  snd entry = File /\ meaningful_extension (fst entry).

(** A dissected image together with a program, all inside one folder. *)
Definition wrapped_dissection : list (string * node) :=
  [ ("payload", Dir Samples.dissected_with_exe) ].

(** Archives and a manifest: nothing the validator counts. *)
Definition only_cabinets : list (string * node) :=
  [ ("data1.cab", File); ("data2.cab", File); ("setup.msi", File);
    ("res", Dir [ ("logo.png", File) ]) ].

(** Six settings files. *)
Definition six_settings : list (string * node) :=
  [ ("a.ini", File); ("b.ini", File); ("c.cfg", File);
    ("d.dat", File); ("e.txt", File); ("F.TXT", File) ].

End ValidationNotions.

(* ===================================================================== *)
(** ** Vocabulary and samples for a run *)
(* ===================================================================== *)

Module RunNotions.
Import Py ExtractionEngine Spec.

(** Whenever the statement executes [return r], [Q r] holds of the
    state at that moment. *)
Definition returns_only {A} (Q : option string -> run_state -> Prop)
  (m : Run A) : Prop :=
  forall st r st', m st = (Return r, st') -> Q r st'.

(** The strategies a run goes through when none of them ends it, for
    this configuration and this input path. *)
Definition planned (cfg : config) (installer_path : string)
  : list strategy :=
  (if (get cfg "Extraction" "use_7zip" "" =? "true")%string
   then [SevenZip] else []) ++
  (if (get cfg "Extraction" "use_innoextract" "" =? "true")%string
   then [InnoExtract] else []) ++
  (if endswith (lower installer_path) ".msi"
      && (get cfg "Extraction" "use_msi_extract" "" =? "true")%string
   then [Msi] else []) ++
  [Universal].

(** The statement starts the strategies of [plan] in order, all of them
    when it goes on to the next statement, the first few when it returns
    or raises. *)
Definition runs {A} (plan : list strategy) (m : Run A) : Prop :=
  forall st,
    exists started later,
      plan = started ++ later /\
      map fst (rs_started (snd (m st)))
        = map fst (rs_started st) ++ started /\
      (forall a, fst (m st) = Next a -> later = []).

(** The directory was validated when it is returned. *)
Definition validated (extract_dir : string)
  (r : option string) (st : run_state) : Prop :=
  r = None \/
  (r = Some extract_dir /\
   _validate_extraction extract_dir (rs_target st) = Returned true).

(** The tools of a well-behaved host: 7-Zip is installed and extracts a
    text file only; everything else is absent or fails. *)
Definition host_7zip_text_only : host :=
  {| os_path_exists := fun p => (p =? Samples.seven_zip_exe)%string;
     shutil_which := fun _ => None;
     os_environ_get := fun _ => "";
     mkdtemp := "C:\Temp\portablexe_extract_cd34";
     int_of_str := fun s =>
       if (s =? "300")%string then Returned 300%Z else Raised ValueError;
     subprocess_run := fun cmd timeout t =>
       match cmd with
       | exe :: _ =>
           if (exe =? Samples.seven_zip_exe)%string
           then (Returned 0%Z, Some (Dir [("readme.txt", File)]))
           else (Returned 1%Z, t)
       | [] => (Raised OSError, t)
       end;
     zip_extractall := fun _ t => (Raised OSError, t);
     shutil_rmtree := fun _ => Removed |}.

(** A host on which 7-Zip is installed and unpacks a program. *)
Definition host_7zip_works : host :=
  {| os_path_exists := fun p => (p =? Samples.seven_zip_exe)%string;
     shutil_which := fun _ => None;
     os_environ_get := fun _ => "";
     mkdtemp := "C:\Temp\portablexe_extract_ef56";
     int_of_str := fun s =>
       if (s =? "300")%string then Returned 300%Z else Raised ValueError;
     subprocess_run := fun cmd timeout t =>
       match cmd with
       | exe :: _ =>
           if (exe =? Samples.seven_zip_exe)%string
           then (Returned 0%Z,
                 Some (Dir [("app.exe", File); ("app.ini", File)]))
           else (Returned 1%Z, t)
       | [] => (Raised OSError, t)
       end;
     zip_extractall := fun _ t => (Raised OSError, t);
     shutil_rmtree := fun _ => Removed |}.

(** A host without tools, on which the input opens as a zip archive
    holding one program. *)
Definition host_zip_only : host :=
  {| os_path_exists := fun _ => false;
     shutil_which := fun _ => None;
     os_environ_get := fun _ => "";
     mkdtemp := "C:\Temp\portablexe_extract_gh78";
     int_of_str := fun s =>
       if (s =? "300")%string then Returned 300%Z else Raised ValueError;
     subprocess_run := fun _ _ t => (Raised OSError, t);
     zip_extractall := fun _ t =>
       (Returned tt, Some (Dir [("tool.exe", File)]));
     shutil_rmtree := fun _ => Removed |}.

End RunNotions.

(* ===================================================================== *)
(** ** Vocabulary for the suggested name *)
(* ===================================================================== *)

Module NameNotions.
Import Py PortableXE_GUI.

(** The characters [strip(' _-')] removes. *)
Definition trim_chars : list ascii := [" "; "_"; "-"]%char.

(** The string neither starts nor ends with a character [strip]
    removes. *)
Definition clean_ends (s : string) : Prop :=
  (forall c rest, chars s = c :: rest -> ~ In c trim_chars) /\
  (forall c front, chars s = front ++ [c] -> ~ In c trim_chars).

(** An ASCII capital letter; an ASCII small letter. *)
Definition is_capital (c : ascii) : Prop :=
  (65 <= N_of_ascii c <= 90)%N.
Definition is_small (c : ascii) : Prop :=
  (97 <= N_of_ascii c <= 122)%N.

(** The first character is no small letter and the others are no
    capital letters. *)
Definition capitalized (s : string) : Prop :=
  match chars s with
  | [] => True
  | c :: rest => ~ is_small c /\ Forall (fun x => ~ is_capital x) rest
  end.

(** The lower-cased stem contains none of the installer words. *)
Definition plain_stem (stem : string) : Prop :=
  ~ Spec.occurs_in (chars "setup") (chars (lower stem)) /\
  ~ Spec.occurs_in (chars "install") (chars (lower stem)).

End NameNotions.

(* ===================================================================== *)
(** ** Vocabulary for words in names, tool locations and ASCII text *)
(* ===================================================================== *)

Module WordNotions.
Import Py ExtractionEngine Samples NameNotions.

(** *** A word in a name, whatever the case of the letters *)

(** [c] is the small letter [d] or its capital, or the same character. *)
Definition same_letter (c d : ascii) : Prop :=
  c = d \/ (is_small d /\ (N_of_ascii c + 32 = N_of_ascii d)%N).

(** The word, written in small letters, occurs in the name as a contiguous
    run, each letter in either case. *)
Definition occurs_ignoring_case (word name : string) : Prop :=
  exists before mid after,
    chars name = before ++ mid ++ after /\
    Forall2 same_letter mid (chars word).

(** The name contains "setup", "install" or "installer" in any mix of
    cases. *)
Definition has_installer_word (name : string) : Prop :=
  occurs_ignoring_case "setup" name \/
  occurs_ignoring_case "install" name \/
  occurs_ignoring_case "installer" name.

(** *** Where 7-Zip is looked for *)

Definition separators : list ascii := ["\"; "/"]%char.

(** The text begins with two separators, as UNC and device paths do. *)
Definition begins_with_two_separators (a : string) : Prop :=
  exists c d rest,
    chars a = c :: d :: rest /\ In c separators /\ In d separators.

Definition ends_with_separator (a : string) : Prop :=
  exists front c, chars a = front ++ [c] /\ In c separators.

(** A drive without a path: one character and a colon. *)
Definition bare_drive (a : string) : Prop := exists c, a = String c ":".

(** [location] is 7z.exe in the folder 7-Zip under [a]: a separator
    follows [a] unless [a] is empty, ends with one or is a bare drive. *)
Definition seven_zip_under (a location : string) : Prop :=
  ((a = "" \/ ends_with_separator a \/ bare_drive a) /\
   location = (a ++ "7-Zip\7z.exe")%string) \/
  ((a <> "" /\ ~ ends_with_separator a /\ ~ bare_drive a) /\
   location = (a ++ "\7-Zip\7z.exe")%string).

(** Programs are installed under D:\Apps, where 7-Zip is found; the two
    fixed locations on C: do not exist. *)
Definition host_7zip_on_d : host :=
  {| os_path_exists := fun p => (p =? "D:\Apps\7-Zip\7z.exe")%string;
     shutil_which := fun _ => None;
     os_environ_get := fun name =>
       if (name =? "ProgramFiles")%string then "D:\Apps"
       else if (name =? "ProgramFiles(x86)")%string then "D:\Apps (x86)\"
       else "";
     mkdtemp := "C:\Temp\portablexe_extract_ab12";
     int_of_str := fun s =>
       if (s =? "300")%string then Returned 300%Z else Raised ValueError;
     subprocess_run := fun _ _ t => (Returned 1%Z, t);
     zip_extractall := fun _ t => (Raised OSError, t);
     shutil_rmtree := fun _ => Removed |}.

(** *** ASCII text *)

(** Every character is below 128. *)
Definition ascii_text (s : string) : Prop :=
  Forall (fun c => (N_of_ascii c < 128)%N) (chars s).

End WordNotions.

(* ===================================================================== *)
(** ** Running a block *)
(* ===================================================================== *)

Module BlockFacts.
Import Py.

Lemma bind_run {S R A B} (m : Block S R A) (k : A -> Block S R B) (s : S) :
  bind m k s =
  match m s with
  | (Next a, s') => k a s'
  | (Return r, s') => (Return r, s')
  | (Throw e, s') => (Throw e, s')
  end.
Proof. reflexivity. Qed.

End BlockFacts.

(* ===================================================================== *)
(** ** Facts about sequences, bytes and strings *)
(* ===================================================================== *)

Module SeqFacts.
Import Py Spec.

Section Reflect.
Context {A : Type} (eqb : A -> A -> bool).
Hypothesis eqb_spec : forall x y, eqb x y = true <-> x = y.

Lemma starts_with_iff (p s : list A) :
  starts_with eqb p s = true <-> exists rest, s = p ++ rest.
Proof.
  revert s; induction p as [|x p IH]; intros s; simpl.
  - split; [intros _; exists s; reflexivity | reflexivity].
  - destruct s as [|y s].
    + split; [discriminate | intros [rest H]; discriminate].
    + rewrite andb_true_iff, eqb_spec, IH. split.
      * intros [-> [rest ->]]. exists rest; reflexivity.
      * intros [rest H]. injection H as -> ->. split; [reflexivity | eauto].
Qed.

Lemma contains_iff (p s : list A) :
  contains eqb p s = true <-> occurs_in p s.
Proof.
  unfold occurs_in. split.
  - induction s as [|y s IH]; simpl; rewrite orb_true_iff.
    + intros [H | H]; [| discriminate].
      apply starts_with_iff in H. destruct H as [rest H].
      exists [], rest; exact H.
    + intros [H | H].
      * apply starts_with_iff in H. destruct H as [rest H].
        exists [], rest; exact H.
      * destruct (IH H) as (before & after & ->).
        exists (y :: before), after; reflexivity.
  - intros (before & after & ->).
    induction before as [|y before IH].
    + assert (H : starts_with eqb p (p ++ after) = true)
        by (apply starts_with_iff; eauto).
      simpl. destruct (p ++ after); simpl; rewrite H; reflexivity.
    + simpl. simpl in IH. rewrite IH. apply orb_true_r.
Qed.

Lemma ends_with_iff (p s : list A) :
  ends_with eqb p s = true <-> exists stem, s = stem ++ p.
Proof.
  unfold ends_with. rewrite starts_with_iff. split.
  - intros [rest H]. exists (rev rest).
    rewrite <- (rev_involutive s), H, rev_app_distr, rev_involutive.
    reflexivity.
  - intros [stem ->]. exists (rev stem). apply rev_app_distr.
Qed.

Lemma seq_eqb_iff (u v : list A) : seq_eqb eqb u v = true <-> u = v.
Proof.
  revert v; induction u as [|x u IH]; intros [|y v]; simpl;
    try (split; [discriminate | discriminate]); [tauto|].
  rewrite andb_true_iff, eqb_spec, IH. split.
  - intros [-> ->]; reflexivity.
  - intros H; injection H as -> ->; auto.
Qed.

End Reflect.

Lemma byte_eqb_iff (x y : byte) : Byte.eqb x y = true <-> x = y.
Proof.
  split; [apply Byte.byte_dec_bl | apply Byte.byte_dec_lb].
Qed.

Lemma ascii_eqb_iff (x y : ascii) : Ascii.eqb x y = true <-> x = y.
Proof. apply Ascii.eqb_eq. Qed.

Lemma bytes_in_iff (p s : bytes) : bytes_in p s = true <-> occurs_in p s.
Proof. apply contains_iff, byte_eqb_iff. Qed.

Lemma bytes_in_false (p s : bytes) :
  bytes_in p s = false <-> ~ occurs_in p s.
Proof.
  rewrite <- bytes_in_iff. destruct (bytes_in p s); split; auto;
    try discriminate. intros H; exfalso; apply H; reflexivity.
Qed.

Lemma bytes_eqb_iff (u v : bytes) : bytes_eqb u v = true <-> u = v.
Proof. apply seq_eqb_iff, byte_eqb_iff. Qed.

Lemma chars_app (s1 s2 : string) :
  chars (s1 ++ s2) = chars s1 ++ chars s2.
Proof.
  unfold chars. induction s1 as [|c s1 IH]; simpl; [|rewrite IH]; reflexivity.
Qed.

Lemma chars_inj (s1 s2 : string) : chars s1 = chars s2 -> s1 = s2.
Proof.
  unfold chars; intros H.
  rewrite <- (string_of_list_ascii_of_string s1), H.
  apply string_of_list_ascii_of_string.
Qed.

Lemma chars_of_list (l : list ascii) : chars (string_of_list_ascii l) = l.
Proof. apply list_ascii_of_string_of_list_ascii. Qed.

Lemma str_in_iff (p s : string) :
  str_in p s = true <-> occurs_in (chars p) (chars s).
Proof. apply contains_iff, ascii_eqb_iff. Qed.

Lemma startswith_iff (s p : string) :
  startswith s p = true <-> exists rest, s = (p ++ rest)%string.
Proof.
  unfold startswith. rewrite (starts_with_iff _ ascii_eqb_iff). split.
  - intros [rest H]. exists (string_of_list_ascii rest).
    apply chars_inj. rewrite chars_app, chars_of_list. exact H.
  - intros [rest ->]. exists (chars rest). apply chars_app.
Qed.

Lemma endswith_iff (s p : string) :
  endswith s p = true <-> exists stem, s = (stem ++ p)%string.
Proof.
  unfold endswith. rewrite (ends_with_iff _ ascii_eqb_iff). split.
  - intros [stem H]. exists (string_of_list_ascii stem).
    apply chars_inj. rewrite chars_app, chars_of_list. exact H.
  - intros [stem ->]. exists (chars stem). apply chars_app.
Qed.

End SeqFacts.

(* ===================================================================== *)
(** ** Installer classification *)
(* ===================================================================== *)

Module DetectionFacts.
Import Py FileAnalyzer Spec NameNotions WordNotions SeqFacts.

Section Find.
Context {A : Type} (p : A -> bool).

Lemma find_first (earlier later : list A) (e : A) :
  (forall x, In x earlier -> p x = false) -> p e = true ->
  find p (earlier ++ e :: later) = Some e.
Proof.
  induction earlier as [|x earlier IH]; intros Hno He; simpl.
  - rewrite He; reflexivity.
  - rewrite (Hno x (or_introl eq_refl)). apply IH; [|exact He].
    intros y Hy; apply Hno; right; exact Hy.
Qed.

Lemma find_splits (l : list A) (e : A) :
  find p l = Some e ->
  exists earlier later,
    l = earlier ++ e :: later /\ p e = true /\
    forall x, In x earlier -> p x = false.
Proof.
  induction l as [|x l IH]; simpl; [discriminate|].
  destruct (p x) eqn:Hx.
  - intros [= ->]. exists [], l. repeat split; [exact Hx | intros ? []].
  - intros H. destruct (IH H) as (earlier & later & -> & He & Hno).
    exists (x :: earlier), later. repeat split; [exact He|].
    intros y [<- | Hy]; [exact Hx | exact (Hno y Hy)].
Qed.

Lemma find_nothing (l : list A) :
  (forall x, In x l -> p x = false) -> find p l = None.
Proof.
  induction l as [|x l IH]; intros Hno; simpl; [reflexivity|].
  rewrite (Hno x (or_introl eq_refl)). apply IH.
  intros y Hy; apply Hno; right; exact Hy.
Qed.

End Find.

Lemma filename_rule (name : string) :
  existsb (fun pattern => str_in pattern (lower name)) installer_patterns
    = true <-> name_is_installer name.
Proof.
  rewrite existsb_exists. unfold name_is_installer.
  split; intros (pattern & Hin & H); exists pattern; split; auto;
    apply str_in_iff; exact H.
Qed.

Lemma filename_rule_false (name : string) :
  ~ name_is_installer name ->
  existsb (fun pattern => str_in pattern (lower name)) installer_patterns
    = false.
Proof.
  intros H. apply not_true_is_false. intros E. apply H, filename_rule, E.
Qed.

(** *** The filename rule in words *)

Lemma lower_chars (s : string) : chars (lower s) = map lower_char (chars s).
Proof.
  unfold chars. induction s as [|c s IH]; cbn; [|rewrite IH]; reflexivity.
Qed.

(** Lower-casing a character gives the small letter [d] exactly when the
    character is [d] or its capital. *)
Lemma lower_char_small (c d : ascii) :
  is_small d -> (lower_char c = d <-> same_letter c d).
Proof.
  unfold is_small, same_letter, lower_char. cbv zeta. intros Hd.
  pose proof (N_ascii_bounded c) as Hc.
  destruct (N.leb_spec 65 (N_of_ascii c)) as [Hlo | Hlo];
    destruct (N.leb_spec (N_of_ascii c) 90) as [Hhi | Hhi]; cbn [andb].
  - split.
    + intros <-. right. split; [exact Hd|].
      rewrite N_ascii_embedding by lia. reflexivity.
    + intros [-> | [_ E]]; [lia|]. rewrite E. apply ascii_N_embedding.
  - split; [intros ->; left; reflexivity|].
    intros [H | [_ E]]; [exact H | lia].
  - split; [intros ->; left; reflexivity|].
    intros [H | [_ E]]; [exact H | lia].
  - split; [intros ->; left; reflexivity|].
    intros [H | [_ E]]; [exact H | lia].
Qed.

Lemma lower_matches_word (word mid : list ascii) :
  Forall is_small word ->
  (map lower_char mid = word <-> Forall2 same_letter mid word).
Proof.
  intros Hsmall. revert mid.
  induction Hsmall as [|d word Hd _ IH]; intros [|c mid]; cbn [map].
  - split; [constructor | reflexivity].
  - split; [discriminate | intros H; inversion H].
  - split; [discriminate | intros H; inversion H].
  - split.
    + intros [= Hc Hmid]. constructor.
      * apply (lower_char_small c d Hd), Hc.
      * apply IH, Hmid.
    + intros H. inversion H as [|? ? ? ? Hc Hmid]; subst.
      f_equal; [apply (lower_char_small c d Hd), Hc | apply IH, Hmid].
Qed.

Lemma occurs_in_map {A B} (f : A -> B) (p : list B) (l : list A) :
  occurs_in p (map f l) <->
  exists before mid after, l = before ++ mid ++ after /\ map f mid = p.
Proof.
  split.
  - intros (before & after & H).
    apply map_eq_app in H. destruct H as (l1 & l2 & -> & _ & H).
    apply map_eq_app in H. destruct H as (mid & l3 & -> & Hmid & _).
    exists l1, mid, l3. split; [reflexivity | exact Hmid].
  - intros (before & mid & after & -> & <-).
    exists (map f before), (map f after). rewrite !map_app. reflexivity.
Qed.

(** The test of the code for one word, said without lower-casing. *)
Lemma word_rule (word name : string) :
  Forall is_small (chars word) ->
  (occurs_in (chars word) (chars (lower name)) <->
   occurs_ignoring_case word name).
Proof.
  intros Hsmall. rewrite lower_chars, occurs_in_map.
  unfold occurs_ignoring_case.
  split; intros (before & mid & after & Hname & Hmid);
    exists before, mid, after; (split; [exact Hname|]);
    apply (lower_matches_word _ _ Hsmall); exact Hmid.
Qed.

Lemma small_letters_of_words :
  Forall is_small (chars "setup") /\
  Forall is_small (chars "install") /\
  Forall is_small (chars "installer").
Proof.
  repeat split;
    repeat (constructor;
            [unfold is_small, N.le; vm_compute; split; discriminate|]);
    constructor.
Qed.

(** The filename rule of the code is the rule of the three words in any
    mix of cases. *)
Lemma installer_word_iff (name : string) :
  name_is_installer name <-> has_installer_word name.
Proof.
  destruct small_letters_of_words as (Hsetup & Hinstall & Hinstaller).
  unfold name_is_installer, installer_patterns, has_installer_word. split.
  - intros (pattern & Hin & Hocc). cbn [In] in Hin.
    destruct Hin as [<- | [<- | [<- | []]]].
    + left. apply (word_rule _ _ Hsetup), Hocc.
    + right; left. apply (word_rule _ _ Hinstall), Hocc.
    + right; right. apply (word_rule _ _ Hinstaller), Hocc.
  - intros [H | [H | H]].
    + exists "setup". split; [cbn; auto|].
      apply (word_rule _ _ Hsetup), H.
    + exists "install". split; [cbn; auto|].
      apply (word_rule _ _ Hinstall), H.
    + exists "installer". split; [cbn; auto|].
      apply (word_rule _ _ Hinstaller), H.
Qed.

Lemma by_size_large (contents : bytes) :
  (fifty_MiB < Z.of_nat (List.length contents))%Z ->
  by_size contents = (true, "Large Executable (Likely Installer)").
Proof.
  unfold by_size, fifty_MiB. intros H. rewrite Z.gtb_ltb.
  destruct (Z.ltb_spec (50 * 1024 * 1024) (Z.of_nat (List.length contents)));
    [reflexivity | lia].
Qed.

Lemma by_size_small (contents : bytes) :
  (Z.of_nat (List.length contents) <= fifty_MiB)%Z ->
  by_size contents = (false, "Standalone Application").
Proof.
  unfold by_size, fifty_MiB. intros H. rewrite Z.gtb_ltb.
  destruct (Z.ltb_spec (50 * 1024 * 1024) (Z.of_nat (List.length contents)));
    [lia | reflexivity].
Qed.

Section Chain.
Variable basename : string -> string.
Variable fs : files.

(** The chain of content tests is a search of the table from its top. *)
Lemma detect_block_readable (path : string) (contents : bytes) :
  fs path = Some contents ->
  ~ name_is_installer (basename path) ->
  detect_block basename fs path =
  Returned match find (row_found (head_of contents)) signature_table with
           | Some row => (true, snd row)
           | None => by_size contents
           end.
Proof.
  intros Hfile Hname. unfold detect_block.
  rewrite (filename_rule_false _ Hname), Hfile.
  unfold signature_table, row_found, by_size, head_of.
  cbn [find fst snd].
  repeat match goal with
         | |- context [bytes_in ?sig ?data] =>
             destruct (bytes_in sig data); cbn [orb]; try reflexivity
         end.
  destruct (_ >? _)%Z; reflexivity.
Qed.

Lemma detect_block_named (path : string) :
  name_is_installer (basename path) ->
  detect_block basename fs path = Returned (true, "Generic Installer").
Proof.
  intros Hname. unfold detect_block.
  apply filename_rule in Hname. rewrite Hname. reflexivity.
Qed.

Lemma detect_block_unreadable (path : string) :
  fs path = None -> ~ name_is_installer (basename path) ->
  detect_block basename fs path = Raised OSError.
Proof.
  intros Hfile Hname. unfold detect_block.
  rewrite (filename_rule_false _ Hname), Hfile. reflexivity.
Qed.

End Chain.

Lemma first_match_found (data : bytes) (family : string) :
  first_match data family ->
  exists row, find (row_found data) signature_table = Some row
              /\ snd row = family.
Proof.
  intros (earlier & signature & later & Htable & Hocc & Hno).
  exists (signature, family). split; [|reflexivity].
  rewrite Htable. apply find_first.
  - intros x Hx. apply bytes_in_false, Hno, Hx.
  - apply bytes_in_iff, Hocc.
Qed.

Lemma found_first_match (data : bytes) (row : bytes * string) :
  find (row_found data) signature_table = Some row ->
  first_match data (snd row).
Proof.
  intros H. destruct (find_splits _ _ _ H) as (earlier & later & Ht & He & Hno).
  exists earlier, (fst row), later. rewrite <- surjective_pairing.
  split; [exact Ht|]. split; [apply bytes_in_iff, He|].
  intros x Hx. apply bytes_in_false, Hno, Hx.
Qed.

Lemma no_match_not_found (data : bytes) :
  no_match data -> find (row_found data) signature_table = None.
Proof.
  intros H. apply find_nothing. intros x Hx. apply bytes_in_false, H, Hx.
Qed.

Lemma some_match_found (data : bytes) :
  (exists row, In row signature_table /\ occurs_in (fst row) data) ->
  exists row, find (row_found data) signature_table = Some row.
Proof.
  intros (row & Hin & Hocc).
  destruct (find (row_found data) signature_table) as [r|] eqn:E; [eauto|].
  exfalso. apply (find_none _ _ E) in Hin. unfold row_found in Hin.
  apply bytes_in_false in Hin. exact (Hin Hocc).
Qed.

End DetectionFacts.

Module Detection.
Import Py FileAnalyzer Spec NameNotions WordNotions SeqFacts DetectionFacts
       Samples.

(** C4, as amended.  For every readable file whose first 8192 bytes
    contain a framework signature, [detect_installer_type] returns [True];
    the family is that of the first signature of the table that occurs in
    those bytes when the file name carries none of the installer words,
    and "Generic Installer" when it carries one. *)
Theorem signature_names_family
  (basename : string -> string) (fs : files)
  (path : string) (contents : bytes) :
  fs path = Some contents ->
  (exists row, In row signature_table
               /\ occurs_in (fst row) (head_of contents)) ->
  exists family,
    detect_installer_type basename fs path = Returned (true, family) /\
    (~ name_is_installer (basename path) ->
     first_match (head_of contents) family) /\
    (name_is_installer (basename path) -> family = "Generic Installer").
Proof.
  intros Hfile Hsome. unfold detect_installer_type.
  destruct (existsb (fun pattern => str_in pattern (lower (basename path)))
              installer_patterns) eqn:E.
  - apply filename_rule in E. exists "Generic Installer".
    rewrite (detect_block_named _ _ _ E).
    split; [reflexivity|]. split; [intros H; destruct (H E) | reflexivity].
  - assert (Hname : ~ name_is_installer (basename path)).
    { intros H. apply filename_rule in H. rewrite H in E. discriminate E. }
    destruct (some_match_found _ Hsome) as [row Hrow].
    exists (snd row).
    rewrite (detect_block_readable _ _ _ _ Hfile Hname), Hrow.
    split; [reflexivity|].
    split; [intros _; apply found_first_match, Hrow | intros H; destruct (Hname H)].
Qed.

Lemma inno_marked_occurs : occurs_in (b "Inno Setup") (head_of inno_marked).
Proof. apply bytes_in_iff. vm_compute. reflexivity. Qed.

Lemma plain_name_is_no_installer :
  ~ name_is_installer (last_component "C:\Downloads\viewer.exe").
Proof.
  intros H. apply filename_rule in H. vm_compute in H. discriminate H.
Qed.

Lemma signature_names_family_witness :
  exists family,
    detect_installer_type last_component
      (one_file "C:\Downloads\viewer.exe" inno_marked)
      "C:\Downloads\viewer.exe" = Returned (true, family) /\
    (~ name_is_installer (last_component "C:\Downloads\viewer.exe") ->
     first_match (head_of inno_marked) family) /\
    (name_is_installer (last_component "C:\Downloads\viewer.exe") ->
     family = "Generic Installer").
Proof.
  apply (signature_names_family last_component
           (one_file "C:\Downloads\viewer.exe" inno_marked)
           "C:\Downloads\viewer.exe" inno_marked).
  - reflexivity.
  - exists (b "Inno Setup", "Inno Setup"). split.
    + simpl; auto.
    + exact inno_marked_occurs.
Defined.

(** C4 as stated fails: a file named setup.exe that contains the Inno
    Setup signature is reported as "Generic Installer", not as
    "Inno Setup". *)
Lemma signature_hidden_by_filename :
  In (b "Inno Setup", "Inno Setup") signature_table /\
  occurs_in (b "Inno Setup") (head_of inno_marked) /\
  detect_installer_type last_component
    (one_file "C:\Downloads\setup.exe" inno_marked)
    "C:\Downloads\setup.exe" = Returned (true, "Generic Installer") /\
  detect_installer_type last_component
    (one_file "C:\Downloads\setup.exe" inno_marked)
    "C:\Downloads\setup.exe" <> Returned (true, "Inno Setup").
Proof.
  split; [simpl; auto|]. split; [exact inno_marked_occurs|].
  assert (E : detect_installer_type last_component
                (one_file "C:\Downloads\setup.exe" inno_marked)
                "C:\Downloads\setup.exe"
              = Returned (true, "Generic Installer"))
    by (vm_compute; reflexivity).
  split; [exact E|]. rewrite E. discriminate.
Qed.

(** C5, as amended.  The classification rules apply in order, the first
    that matches decides: (1) a file name that contains "setup",
    "install" or "installer", in any mix of cases, makes the file a
    "Generic Installer", whether or not it can be read; for a file that
    can be read and whose name has none of the words, (2) the first
    framework signature found in the first 8192 bytes names the family;
    (3) without a signature, a size above 50 MiB makes it a "Large
    Executable (Likely Installer)"; (4) otherwise it is a "Standalone
    Application" and no installer.  A readable file of 60 MiB named
    photo_tool.exe without a signature is a "Large Executable (Likely
    Installer)". *)
Theorem classification_order
  (basename : string -> string) (fs : files) (path : string) :
  (has_installer_word (basename path) ->
   detect_installer_type basename fs path
     = Returned (true, "Generic Installer")) /\
  (forall contents,
     fs path = Some contents -> ~ has_installer_word (basename path) ->
     (forall family,
        first_match (head_of contents) family ->
        detect_installer_type basename fs path = Returned (true, family)) /\
     (no_match (head_of contents) ->
      (fifty_MiB < Z.of_nat (List.length contents))%Z ->
      detect_installer_type basename fs path
        = Returned (true, "Large Executable (Likely Installer)")) /\
     (no_match (head_of contents) ->
      (Z.of_nat (List.length contents) <= fifty_MiB)%Z ->
      detect_installer_type basename fs path
        = Returned (false, "Standalone Application"))) /\
  (forall contents,
     basename path = "photo_tool.exe" ->
     fs path = Some contents ->
     List.length contents = (60 * 1024 * 1024)%nat ->
     no_match (head_of contents) ->
     detect_installer_type basename fs path
       = Returned (true, "Large Executable (Likely Installer)")).
Proof.
  assert (Hsize : forall contents,
             fs path = Some contents -> ~ name_is_installer (basename path) ->
             no_match (head_of contents) ->
             detect_installer_type basename fs path
               = Returned (by_size contents)).
  { intros contents Hfile Hname Hno. unfold detect_installer_type.
    rewrite (detect_block_readable _ _ _ _ Hfile Hname).
    rewrite (no_match_not_found _ Hno). reflexivity. }
  split; [|split].
  - intros Hword. apply installer_word_iff in Hword.
    unfold detect_installer_type.
    rewrite (detect_block_named _ _ _ Hword). reflexivity.
  - intros contents Hfile Hword.
    assert (Hname : ~ name_is_installer (basename path))
      by (intros H; apply Hword, installer_word_iff, H).
    split; [|split].
    + intros family Hfirst. unfold detect_installer_type.
      rewrite (detect_block_readable _ _ _ _ Hfile Hname).
      destruct (first_match_found _ _ Hfirst) as (row & -> & <-).
      reflexivity.
    + intros Hno Hbig. rewrite (Hsize _ Hfile Hname Hno).
      rewrite (by_size_large _ Hbig). reflexivity.
    + intros Hno Hsmall. rewrite (Hsize _ Hfile Hname Hno).
      rewrite (by_size_small _ Hsmall). reflexivity.
  - intros contents Hbase Hfile Hlen Hno.
    assert (Hname : ~ name_is_installer (basename path)).
    { rewrite Hbase. intros H. apply filename_rule in H.
      vm_compute in H. discriminate H. }
    rewrite (Hsize _ Hfile Hname Hno).
    rewrite by_size_large; [reflexivity|].
    rewrite Hlen. unfold fifty_MiB. lia.
Qed.

Lemma firstn_repeat_le {A} (a : A) (n m : nat) :
  n <= m -> firstn n (repeat a m) = repeat a n.
Proof.
  revert m; induction n as [|n IH]; intros [|m] H; simpl;
    try reflexivity; [lia|].
  f_equal. apply IH. lia.
Qed.

Lemma large_plain_no_match : no_match (head_of large_plain).
Proof.
  unfold head_of, large_plain.
  rewrite firstn_repeat_le
    by (change 8192 with (8 * 1024); lia).
  intros row Hin. apply bytes_in_false.
  unfold signature_table in Hin. cbn [In] in Hin.
  repeat (destruct Hin as [<- | Hin]; [vm_compute; reflexivity|]).
  destruct Hin.
Qed.

(** MyApp_SetUp.EXE carries the word "setup", two of its letters as
    capitals. *)
Lemma mixed_case_name_has_word :
  has_installer_word (last_component "C:\Downloads\MyApp_SetUp.EXE").
Proof.
  left. exists (chars "MyApp_"), (chars "SetUp"), (chars ".EXE").
  split; [vm_compute; reflexivity|].
  unfold chars; cbn [list_ascii_of_string].
  repeat (constructor;
          [first [ left; reflexivity
                 | right; unfold is_small, N.le; vm_compute;
                   repeat split; first [discriminate | reflexivity] ]|]).
  constructor.
Qed.

Lemma plain_name_has_no_word :
  ~ has_installer_word (last_component "C:\Downloads\viewer.exe").
Proof.
  intros H. apply installer_word_iff, filename_rule in H.
  vm_compute in H. discriminate H.
Qed.

Lemma inno_marked_first_match : first_match (head_of inno_marked) "Inno Setup".
Proof.
  exists [], (b "Inno Setup"), (tl signature_table).
  split; [reflexivity|]. split; [exact inno_marked_occurs|].
  intros e [].
Qed.

Lemma zip_bytes_no_match : no_match (head_of zip_bytes).
Proof.
  intros row Hin. apply bytes_in_false.
  unfold signature_table in Hin. cbn [In] in Hin.
  repeat (destruct Hin as [<- | Hin]; [vm_compute; reflexivity|]).
  destruct Hin.
Qed.

Lemma classification_order_witness :
  detect_installer_type last_component no_files
    "C:\Downloads\MyApp_SetUp.EXE"
  = Returned (true, "Generic Installer") /\
  detect_installer_type last_component
    (one_file "C:\Downloads\viewer.exe" inno_marked)
    "C:\Downloads\viewer.exe"
  = Returned (true, "Inno Setup") /\
  detect_installer_type last_component
    (one_file "C:\Downloads\photo_tool.exe" large_plain)
    "C:\Downloads\photo_tool.exe"
  = Returned (true, "Large Executable (Likely Installer)") /\
  detect_installer_type last_component
    (one_file "C:\Downloads\viewer.exe" zip_bytes)
    "C:\Downloads\viewer.exe"
  = Returned (false, "Standalone Application").
Proof.
  split; [|split; [|split]].
  - apply (proj1 (classification_order last_component no_files
             "C:\Downloads\MyApp_SetUp.EXE")).
    exact mixed_case_name_has_word.
  - apply (proj1 (proj1 (proj2 (classification_order last_component
             (one_file "C:\Downloads\viewer.exe" inno_marked)
             "C:\Downloads\viewer.exe")) inno_marked eq_refl
             plain_name_has_no_word)).
    exact inno_marked_first_match.
  - apply (proj2 (proj2 (classification_order last_component
             (one_file "C:\Downloads\photo_tool.exe" large_plain)
             "C:\Downloads\photo_tool.exe")) large_plain).
    + vm_compute. reflexivity.
    + unfold one_file. rewrite String.eqb_refl. reflexivity.
    + unfold large_plain. apply repeat_length.
    + exact large_plain_no_match.
  - apply (proj2 (proj2 (proj1 (proj2 (classification_order last_component
             (one_file "C:\Downloads\viewer.exe" zip_bytes)
             "C:\Downloads\viewer.exe")) zip_bytes eq_refl
             plain_name_has_no_word))).
    + exact zip_bytes_no_match.
    + vm_compute. intros H; discriminate H.
Defined.

(** C5 as stated fails: viewer.exe carries none of the words and cannot be
    opened, so that no signature and no size is found; the answer is
    [(False, "Unknown")] and not rule (4)'s "Standalone Application", nor
    any of the families the four rules name. *)
Lemma unopened_plain_file_meets_no_rule :
  no_files "C:\Downloads\viewer.exe" = None /\
  ~ has_installer_word (last_component "C:\Downloads\viewer.exe") /\
  detect_installer_type last_component no_files "C:\Downloads\viewer.exe"
    = Returned (false, "Unknown") /\
  detect_installer_type last_component no_files "C:\Downloads\viewer.exe"
    <> Returned (false, "Standalone Application") /\
  ~ In "Unknown" classified_families.
Proof.
  split; [reflexivity|]. split; [exact plain_name_has_no_word|].
  assert (E : detect_installer_type last_component no_files
                "C:\Downloads\viewer.exe"
              = Returned (false, "Unknown"))
    by (vm_compute; reflexivity).
  split; [exact E|]. split; [rewrite E; discriminate|].
  unfold classified_families, signature_table. cbn [map snd app In].
  intros H.
  repeat (destruct H as [H | H]; [discriminate H|]). exact H.
Qed.

(** How [detect_installer_type] can end. *)
Lemma detect_cases
  (basename : string -> string) (fs : files) (path : string) :
  (name_is_installer (basename path) /\
   detect_installer_type basename fs path
     = Returned (true, "Generic Installer")) \/
  (~ name_is_installer (basename path) /\ fs path = None /\
   detect_installer_type basename fs path = Returned (false, "Unknown")) \/
  (~ name_is_installer (basename path) /\
   exists contents, fs path = Some contents /\
     ((exists row, In row signature_table /\
         detect_installer_type basename fs path = Returned (true, snd row))
      \/ detect_installer_type basename fs path
           = Returned (by_size contents))).
Proof.
  unfold detect_installer_type.
  destruct (existsb (fun pattern => str_in pattern (lower (basename path)))
              installer_patterns) eqn:E.
  - left. apply filename_rule in E. split; [exact E|].
    rewrite (detect_block_named _ _ _ E). reflexivity.
  - assert (Hname : ~ name_is_installer (basename path)).
    { intros H. apply filename_rule in H. rewrite H in E. discriminate E. }
    right. destruct (fs path) as [contents|] eqn:Hfile.
    + right. split; [exact Hname|]. exists contents. split; [reflexivity|].
      rewrite (detect_block_readable _ _ _ _ Hfile Hname).
      destruct (find _ _) as [row|] eqn:F.
      * left. exists row. split; [|reflexivity].
        apply (find_some _ _ F).
      * right. reflexivity.
    + left. split; [exact Hname|]. split; [reflexivity|].
      rewrite (detect_block_unreadable _ _ _ Hfile Hname). reflexivity.
Qed.

(** C10, as amended.  For every path that cannot be opened and whose
    name carries none of the installer words, [detect_installer_type]
    does not raise and returns [(False, "Unknown")]; "Unknown" is none of
    the families of a classified file, and it is returned only when the
    file cannot be opened. *)
Theorem unreadable_is_unknown
  (basename : string -> string) (fs : files) (path : string) :
  fs path = None ->
  ~ name_is_installer (basename path) ->
  detect_installer_type basename fs path = Returned (false, "Unknown") /\
  ~ In "Unknown" classified_families /\
  (forall fs' path' verdict,
     detect_installer_type basename fs' path' = Returned (verdict, "Unknown")
     -> fs' path' = None /\ verdict = false).
Proof.
  intros Hfile Hname. split; [|split].
  - unfold detect_installer_type.
    rewrite (detect_block_unreadable _ _ _ Hfile Hname). reflexivity.
  - unfold classified_families, signature_table. cbn [map snd app In].
    intros H.
    repeat (destruct H as [H | H]; [discriminate H|]). exact H.
  - intros fs' path' verdict H.
    destruct (detect_cases basename fs' path')
      as [[_ E] | [(_ & Hnone & E) | (_ & contents & _ & [(row & Hin & E) | E])]];
      rewrite E in H.
    + discriminate H.
    + injection H as <-. split; [exact Hnone | reflexivity].
    + exfalso. injection H as _ Hfam.
      unfold signature_table in Hin. cbn [In] in Hin.
      repeat (destruct Hin as [<- | Hin]; [discriminate Hfam|]).
      exact Hin.
    + exfalso. unfold by_size in H.
      destruct (_ >? _)%Z; discriminate H.
Qed.

Lemma unreadable_is_unknown_witness :
  detect_installer_type last_component no_files "C:\Downloads\viewer.exe"
    = Returned (false, "Unknown") /\
  ~ In "Unknown" classified_families /\
  (forall fs' path' verdict,
     detect_installer_type last_component fs' path'
       = Returned (verdict, "Unknown")
     -> fs' path' = None /\ verdict = false).
Proof.
  apply (unreadable_is_unknown last_component no_files
           "C:\Downloads\viewer.exe").
  - reflexivity.
  - exact plain_name_is_no_installer.
Defined.

(** C10 as stated fails: for a path that does not exist but is named
    setup.exe the answer is [(True, "Generic Installer")]; the file is
    never opened. *)
Lemma missing_setup_is_generic :
  no_files "C:\Downloads\setup.exe" = None /\
  detect_installer_type last_component no_files "C:\Downloads\setup.exe"
    = Returned (true, "Generic Installer") /\
  detect_installer_type last_component no_files "C:\Downloads\setup.exe"
    <> Returned (false, "Unknown").
Proof.
  split; [reflexivity|].
  assert (E : detect_installer_type last_component no_files
                "C:\Downloads\setup.exe"
              = Returned (true, "Generic Installer"))
    by (vm_compute; reflexivity).
  split; [exact E|]. rewrite E. discriminate.
Qed.

End Detection.

(* ===================================================================== *)
(** ** Header parsing *)
(* ===================================================================== *)

Module HeaderFacts.
Import Py Py.BlockNotations FileAnalyzer Spec BlockFacts SeqFacts.

(** *** Statements that keep a property of the dict *)

Section Keeps.
Variable P : analysis -> Prop.

Lemma keeps_bind {A B} (m : PE A) (k : A -> PE B) :
  keeps P m -> (forall a, keeps P (k a)) -> keeps P (bind m k).
Proof.
  intros Hm Hk s Hs. rewrite bind_run. specialize (Hm s Hs).
  destruct (m s) as [[a | r | e] s']; simpl in Hm |- *; auto.
  apply Hk, Hm.
Qed.

Lemma keeps_pure {A} (a : A) : keeps P (pure a).
Proof. intros s Hs; exact Hs. Qed.

Lemma keeps_call {A} (r : py_result A) : keeps P (call r).
Proof. intros s Hs; destruct r; exact Hs. Qed.

Lemma keeps_read (data : bytes) (n : nat) : keeps P (f_read data n).
Proof. intros s Hs; exact Hs. Qed.

Lemma keeps_store (upd : analysis -> analysis) :
  (forall a, P a -> P (upd a)) -> keeps P (store upd).
Proof. intros Hupd s Hs; apply Hupd, Hs. Qed.

Lemma keeps_if {A} (c : bool) (m1 m2 : PE A) :
  keeps P m1 -> keeps P m2 -> keeps P (if c then m1 else m2).
Proof. destruct c; auto. Qed.

End Keeps.

Lemma keeps_read_sections (P : analysis -> Prop) (data : bytes) (n : nat) :
  (forall name a, P a -> P (append_section name a)) ->
  keeps P (read_sections data n).
Proof.
  intros Happ. induction n as [|n IH]; simpl.
  - apply keeps_pure.
  - apply keeps_bind; [apply keeps_read|]. intros hdr.
    apply keeps_bind; [|intros _; exact IH].
    apply keeps_if; [apply keeps_store, Happ | apply keeps_pure].
Qed.

(** *** The two signature checks *)

Lemma unpack_L_le32 (buf : bytes) (i : nat) :
  unpack_L (slice i (i + 4) buf) =
  match le32_at i buf with
  | Some v => Returned v
  | None => Raised StructError
  end.
Proof.
  unfold slice, le32_at. replace (i + 4 - i) with 4 by lia.
  destruct (skipn i buf) as [|b0 [|b1 [|b2 [|b3 rest]]]]; reflexivity.
Qed.

Lemma dos_magic_slice (data : bytes) :
  slice 0 2 (firstn 64 data) = firstn 2 data.
Proof.
  unfold slice. cbn [Nat.sub skipn]. rewrite firstn_firstn. reflexivity.
Qed.

Lemma unpack_offset (buf : bytes) :
  unpack_L (slice 60 64 buf) =
  match le32_at 60 buf with
  | Some v => Returned v
  | None => Raised StructError
  end.
Proof. exact (unpack_L_le32 buf 60). Qed.

Lemma read_at_start (data : bytes) (n : nat) :
  f_read data n (mk_pe_state initial_analysis 0) =
  (Next (firstn n data),
   mk_pe_state initial_analysis (List.length (firstn n data))).
Proof. reflexivity. Qed.

Ltac keeps_steps :=
  repeat first
    [ apply keeps_pure
    | apply keeps_call
    | apply keeps_read
    | apply keeps_store; intros ? Hkept; exact Hkept
    | apply keeps_read_sections; intros ? ? Hkept; exact Hkept
    | apply keeps_if
    | apply keeps_bind; [|intro] ].

(** Once the PE signature has been accepted, nothing unmarks the dict. *)
Lemma after_signature_valid (data : bytes) (f : flow unit unit)
  (s0 s : pe_state) :
  marked_valid (st_analysis s0) ->
  (coff_header <- f_read data 20 ;;
   machine <- call (unpack_H (slice 0 2 coff_header)) ;;
   num_sections <- call (unpack_H (slice 2 4 coff_header)) ;;
   (if (machine =? 0x8664)%Z then store (set_architecture "x64")
    else if (machine =? 0x14c)%Z then store (set_architecture "x86")
    else if (machine =? 0x1c4)%Z then store (set_architecture "ARM")
    else pure tt) ;;;
   opt_header_size <- call (unpack_H (slice 16 18 coff_header)) ;;
   (if (opt_header_size >? 0)%Z
    then
      opt_header <- f_read data (Z.to_nat opt_header_size) ;;
      if (68 <=? List.length opt_header)%nat
      then
        subsystem_code <- call (unpack_H (slice 68 70 opt_header)) ;;
        if (subsystem_code =? 2)%Z then store (set_subsystem "GUI")
        else if (subsystem_code =? 3)%Z then store (set_subsystem "Console")
        else pure tt
      else pure tt
    else pure tt) ;;;
   read_sections data (Z.to_nat num_sections)) s0 = (f, s) ->
  marked_valid (st_analysis s).
Proof.
  intros Hs0 E.
  match type of E with
  | ?m s0 = _ => assert (K : keeps marked_valid m) by keeps_steps
  end.
  specialize (K s0 Hs0). rewrite E in K. exact K.
Qed.

(** The block marks the dict valid exactly when both signatures are
    there; otherwise the dict is left as it was created and the block
    ends by [return analysis] or by an exception. *)
Lemma parse_headers_outcome (data : bytes) (f : flow unit unit)
  (s : pe_state) :
  parse_headers data (mk_pe_state initial_analysis 0) = (f, s) ->
  (has_pe_signature data /\ marked_valid (st_analysis s)) \/
  (~ has_pe_signature data /\ st_analysis s = initial_analysis /\
   f <> Next tt).
Proof.
  intros E. unfold parse_headers in E.
  rewrite bind_run, read_at_start in E. cbv beta iota in E.
  rewrite dos_magic_slice in E.
  destruct (bytes_eqb (firstn 2 data) (b "MZ")) eqn:Hmz; cbn [negb] in E.
  2:{ right. injection E as <- <-. repeat split; [|discriminate].
      intros [Hmagic _]. apply bytes_eqb_iff in Hmagic.
      rewrite Hmagic in Hmz. discriminate Hmz. }
  apply bytes_eqb_iff in Hmz.
  rewrite bind_run, unpack_offset in E.
  destruct (le32_at 60 (firstn 64 data)) as [offset|] eqn:Hoff.
  2:{ right. injection E as <- <-. repeat split; [|discriminate].
      intros (_ & offset & Hsome & _). congruence. }
  cbn [call] in E. cbv beta iota in E.
  rewrite bind_run in E. cbn [f_seek st_analysis] in E. cbv beta iota in E.
  rewrite bind_run in E. cbn [f_read st_analysis st_pos] in E.
  cbv beta iota zeta in E.
  destruct (bytes_eqb (firstn 4 (skipn (Z.to_nat offset) data)) pe_signature)
    eqn:Hsig; cbn [negb] in E.
  2:{ right. injection E as <- <-. repeat split; [|discriminate].
      intros (_ & offset' & Hsome & Hpe).
      assert (offset' = offset) by congruence. subst offset'.
      apply bytes_eqb_iff in Hpe. rewrite Hpe in Hsig. discriminate Hsig. }
  apply bytes_eqb_iff in Hsig.
  left. split.
  - split; [exact Hmz|]. exists offset. split; [exact Hoff | exact Hsig].
  - rewrite bind_run in E. cbn [store st_analysis st_pos] in E.
    cbv beta iota in E.
    apply after_signature_valid in E; [exact E | reflexivity].
Qed.

End HeaderFacts.

Module Headers.
Import Py FileAnalyzer Spec SeqFacts HeaderFacts Samples.

Lemma run_pe_block_outcome (fs : files) (path : string) :
  let '(f, a) := run_pe_block fs path in
  ((exists data, fs path = Some data /\ has_pe_signature data)
   /\ marked_valid a) \/
  (~ (exists data, fs path = Some data /\ has_pe_signature data)
   /\ a = initial_analysis /\ f <> Next tt).
Proof.
  unfold run_pe_block. destruct (fs path) as [data|] eqn:Hfile.
  - destruct (parse_headers data _) as [f s] eqn:E.
    destruct (parse_headers_outcome _ _ _ E) as [[Hsig Hv] | (Hno & Ha & Hf)].
    + left. split; [exists data; auto | exact Hv].
    + right. repeat split; auto.
      intros (data' & [= <-] & Hsig). exact (Hno Hsig).
  - right. repeat split; [|discriminate].
    intros (data & Hsome & _). discriminate Hsome.
Qed.

(** C6, as amended.  [analyze_pe_structure] never raises.  The record it
    returns has [is_valid_pe] true exactly when the file can be opened,
    starts with MZ and carries PE\0\0 at the offset its DOS header names;
    in every other case, so for every failure up to the signature check,
    all fields are at their defaults.  (A failure after the signature
    check keeps [is_valid_pe] true.) *)
Theorem invalid_means_default (fs : files) (path : string) :
  exists a,
    analyze_pe_structure fs path = Returned a /\
    (is_valid_pe a = true <->
     exists data, fs path = Some data /\ has_pe_signature data) /\
    (is_valid_pe a = false -> a = initial_analysis).
Proof.
  unfold analyze_pe_structure.
  pose proof (run_pe_block_outcome fs path) as H.
  destruct (run_pe_block fs path) as [f a].
  exists a. split; [destruct f; reflexivity|].
  destruct H as [[Hsig Hv] | (Hno & -> & _)].
  - unfold marked_valid in Hv. split; [tauto|]. rewrite Hv. discriminate.
  - split; [|reflexivity]. split; [discriminate | intros H; destruct (Hno H)].
Qed.

(** C6 as stated fails: when the file ends inside the COFF header, after
    a good signature, parsing fails with a [struct.error] and the record
    comes back with [is_valid_pe] true and the architecture set. *)
Lemma cut_coff_header_stays_valid :
  fst (run_pe_block (one_file "C:\Downloads\cut.exe" image_cut_coff)
         "C:\Downloads\cut.exe") = Throw StructError /\
  analyze_pe_structure (one_file "C:\Downloads\cut.exe" image_cut_coff)
    "C:\Downloads\cut.exe"
  = Returned {| is_valid_pe := true;
                is_installer := false;
                installer_type := "unknown";
                architecture := "x64";
                subsystem := "unknown";
                sections := [];
                imports := [];
                resources := [] |} /\
  analyze_pe_structure (one_file "C:\Downloads\cut.exe" image_cut_coff)
    "C:\Downloads\cut.exe" <> Returned initial_analysis.
Proof.
  split; [vm_compute; reflexivity|].
  match goal with
  | |- ?lhs = ?rhs /\ _ =>
      assert (E : lhs = rhs) by (vm_compute; reflexivity)
  end.
  split; [exact E|]. rewrite E. discriminate.
Qed.

(** C9.  For every file whose first two bytes are not MZ,
    [analyze_pe_structure] does not raise and returns a record with
    [is_valid_pe] false. *)
Theorem not_mz_is_invalid (fs : files) (path : string) (data : bytes) :
  fs path = Some data ->
  firstn 2 data <> b "MZ" ->
  exists a,
    analyze_pe_structure fs path = Returned a /\ is_valid_pe a = false.
Proof.
  intros Hfile Hmagic. unfold analyze_pe_structure.
  pose proof (run_pe_block_outcome fs path) as H.
  destruct (run_pe_block fs path) as [f a].
  exists a. split; [destruct f; reflexivity|].
  destruct H as [[(data' & Hsome & Hm & _) _] | (_ & -> & _)];
    [|reflexivity].
  exfalso. rewrite Hfile in Hsome. injection Hsome as <-. exact (Hmagic Hm).
Qed.

Lemma not_mz_is_invalid_witness :
  exists a,
    analyze_pe_structure (one_file "C:\Downloads\pack.zip" zip_bytes)
      "C:\Downloads\pack.zip" = Returned a /\ is_valid_pe a = false.
Proof.
  apply (not_mz_is_invalid (one_file "C:\Downloads\pack.zip" zip_bytes)
           "C:\Downloads\pack.zip" zip_bytes).
  - reflexivity.
  - vm_compute. discriminate.
Defined.

(** C7 fails on the code.  With an optional header of 68 bytes (and so
    with fewer than 70 bytes read) the guard [len(opt_header) >= 68]
    lets the decoding of bytes 68-69 run on an empty slice; it raises,
    and the section header that follows is never read.  With 67 bytes
    the section is read; with 70 bytes the subsystem is decoded. *)
Theorem optional_header_of_68_bytes_aborts :
  fst (run_pe_block (one_file "C:\Downloads\app.exe" image_opt68)
         "C:\Downloads\app.exe") = Throw StructError /\
  analyze_pe_structure (one_file "C:\Downloads\app.exe" image_opt68)
    "C:\Downloads\app.exe"
  = Returned {| is_valid_pe := true;
                is_installer := false;
                installer_type := "unknown";
                architecture := "x64";
                subsystem := "unknown";
                sections := [];
                imports := [];
                resources := [] |} /\
  analyze_pe_structure (one_file "C:\Downloads\app.exe" image_opt67)
    "C:\Downloads\app.exe"
  = Returned {| is_valid_pe := true;
                is_installer := false;
                installer_type := "unknown";
                architecture := "x64";
                subsystem := "unknown";
                sections := [".text"];
                imports := [];
                resources := [] |} /\
  analyze_pe_structure (one_file "C:\Downloads\app.exe" image_opt70)
    "C:\Downloads\app.exe"
  = Returned {| is_valid_pe := true;
                is_installer := false;
                installer_type := "unknown";
                architecture := "x64";
                subsystem := "GUI";
                sections := [".text"];
                imports := [];
                resources := [] |}.
Proof. repeat split; vm_compute; reflexivity. Qed.

End Headers.

(* ===================================================================== *)
(** ** Validation of an extraction *)
(* ===================================================================== *)

Module ValidationFacts.
Import Py ExtractionEngine Spec SeqFacts.

(** Induction on directory trees. *)
Lemma node_induction (P : node -> Prop) :
  P File ->
  (forall entries, Forall (fun e => P (snd e)) entries -> P (Dir entries)) ->
  forall n, P n.
Proof.
  intros Hfile Hdir. fix IH 1. intros [|entries].
  - exact Hfile.
  - apply Hdir. revert entries. fix IHentries 1. intros [|[name child] rest].
    + constructor.
    + constructor; [apply IH | apply IHentries].
Qed.

Lemma walk_dir (entries : list (string * node)) :
  walk (Dir entries) =
  file_names entries :: flat_map (fun e => walk (snd e)) entries.
Proof.
  cbn [walk]. f_equal.
  induction entries as [|[name child] rest IH]; [reflexivity|].
  cbn [flat_map snd]. rewrite IH. reflexivity.
Qed.

Lemma file_names_iff (entries : list (string * node)) (name : string) :
  In name (file_names entries) <-> In (name, File) entries.
Proof.
  induction entries as [|[n [|sub]] rest IH]; cbn [file_names In].
  - tauto.
  - rewrite IH. split; intros [H | H]; auto.
    + left; congruence.
    + left; congruence.
  - rewrite IH. split; [auto | intros [H | H]; [discriminate H | exact H]].
Qed.

Lemma walked_iff (n : node) (name : string) :
  In name (List.concat (walk n)) <-> in_tree name n.
Proof.
  induction n as [|entries IH] using node_induction.
  - split; [intros [] | intros H; inversion H].
  - rewrite walk_dir. cbn [List.concat]. rewrite in_app_iff, file_names_iff.
    split.
    + intros [H | H]; [apply in_tree_here, H|].
      apply in_concat in H. destruct H as (names & Hnames & Hin).
      apply in_flat_map in Hnames. destruct Hnames as ([d child] & He & Hw).
      apply (in_tree_below _ _ d child He).
      rewrite Forall_forall in IH. apply (IH _ He).
      apply in_concat. exists names. split; assumption.
    + intros H. inversion H as [? Hhere | ? d child He Hsub]; subst.
      * left; exact Hhere.
      * right. rewrite Forall_forall in IH. apply (IH _ He) in Hsub.
        apply in_concat in Hsub. destruct Hsub as (names & Hnames & Hin).
        apply in_concat. exists names. split; [|exact Hin].
        apply in_flat_map. exists (d, child). split; assumption.
Qed.

Section Counting.
Context {A : Type} (P : A -> Prop) (p : A -> bool).
Hypothesis p_spec : forall x, p x = true <-> P x.

Lemma at_least_counts (n : nat) (l : list A) :
  at_least P n l <-> n <= List.length (filter p l).
Proof.
  split.
  - induction 1 as [l | n x l _ IH | n x l Hx _ IH]; cbn [filter].
    + lia.
    + destruct (p x); cbn [List.length]; lia.
    + apply p_spec in Hx. rewrite Hx. cbn [List.length]. lia.
  - revert n. induction l as [|x l IH]; intros n; cbn [filter].
    + cbn [List.length]. intros H. replace n with 0 by lia. constructor.
    + destruct (p x) eqn:Hx.
      * cbn [List.length]. destruct n as [|n]; [constructor|].
        intros H. apply at_least_take; [apply p_spec, Hx | apply IH; lia].
      * intros H. apply at_least_skip, IH, H.
Qed.

Lemma counted_positive (x : A) (l : list A) :
  In x l -> P x -> 0 < List.length (filter p l).
Proof.
  intros Hin Hx.
  assert (H : In x (filter p l)) by (apply filter_In; split; [|apply p_spec]; auto).
  destruct (filter p l); [destruct H | cbn [List.length]; lia].
Qed.

End Counting.

Lemma is_pe_section_name_iff (name : string) :
  is_pe_section_name name = true <-> section_prefixed name.
Proof.
  unfold is_pe_section_name, section_prefixed. rewrite existsb_exists. split.
  - intros (prefix & Hin & H). apply startswith_iff in H.
    destruct H as [rest ->]. exists prefix, rest. auto.
  - intros (prefix & rest & Hin & ->). exists prefix. split; [exact Hin|].
    apply startswith_iff. exists rest; reflexivity.
Qed.

Lemma is_executable_name_iff (name : string) :
  is_executable_name name = true <-> executable_extension name.
Proof.
  unfold is_executable_name, has_suffix, executable_extension, has_extension.
  cbn [existsb]. rewrite orb_false_r, !orb_true_iff, !endswith_iff. tauto.
Qed.

End ValidationFacts.

Module Validation.
Import Py ExtractionEngine Spec SeqFacts ValidationFacts Samples.

Lemma dissection_detected (entries : list (string * node)) :
  at_least section_prefixed 4 (entry_names entries) <->
  (3 <? List.length (filter is_pe_section_name (map fst entries)))%nat = true.
Proof.
  rewrite Nat.ltb_lt.
  rewrite (at_least_counts _ _ is_pe_section_name_iff). reflexivity.
Qed.

Lemma nothing_walked (n : node) (p : string -> bool) :
  (forall name, ~ in_tree name n) -> count_walked p (Some n) = 0.
Proof.
  intros Hnone. unfold count_walked, os_walk.
  destruct (List.concat (walk n)) as [|name names] eqn:E; [reflexivity|].
  exfalso. apply (Hnone name), walked_iff. rewrite E. left; reflexivity.
Qed.

Lemma in_tree_has_entries (name : string) (entries : list (string * node)) :
  in_tree name (Dir entries) ->
  (List.length (map fst entries) =? 0)%nat = false.
Proof.
  intros H. destruct entries as [|e rest]; [|reflexivity].
  inversion H as [? Hin | ? d child Hin _]; destruct Hin.
Qed.

(** C2.  [_validate_extraction] returns [False] when nothing exists at
    the path, when the directory has no entry, and when more than three
    of its immediate entries have a name starting with a linker-section
    prefix. *)
Theorem rejects_missing_empty_dissected (extract_dir : string) (t : target) :
  nothing_at t \/
  (exists entries,
     t = Some (Dir entries) /\
     (entries = [] \/ at_least section_prefixed 4 (entry_names entries))) ->
  _validate_extraction extract_dir t = Returned false.
Proof.
  unfold nothing_at, _validate_extraction.
  intros [-> | (entries & -> & [-> | Hsections])]; cbn [exists_ negb listdir].
  - rewrite orb_true_r. reflexivity.
  - rewrite orb_false_r. destruct (extract_dir =? "")%string; reflexivity.
  - rewrite orb_false_r. destruct (extract_dir =? "")%string; [reflexivity|].
    destruct (List.length (map fst entries) =? 0)%nat; [reflexivity|].
    apply dissection_detected in Hsections. rewrite Hsections. reflexivity.
Qed.

Lemma dissected_has_four :
  at_least section_prefixed 4 (entry_names dissected).
Proof.
  apply dissection_detected. vm_compute. reflexivity.
Qed.

Lemma rejects_missing_empty_dissected_witness :
  _validate_extraction "C:\Temp\px\extracted" (Some (Dir dissected))
    = Returned false.
Proof.
  apply (rejects_missing_empty_dissected "C:\Temp\px\extracted"
           (Some (Dir dissected))).
  right. exists dissected. split; [reflexivity|].
  right. exact dissected_has_four.
Defined.

(** C3, as amended.  For a directory that contains no file at all,
    [_validate_extraction] returns [False]; for a directory that contains
    a file with extension .exe, .dll or .sys somewhere in its tree, and
    at most three immediate entries named with a linker-section prefix,
    it returns [True]. *)
Theorem validates_by_content
  (extract_dir : string) (t : target) (entries : list (string * node)) :
  directory_at extract_dir t entries ->
  ((forall name, ~ in_tree name (Dir entries)) ->
   _validate_extraction extract_dir t = Returned false) /\
  ((exists name, in_tree name (Dir entries) /\ executable_extension name) ->
   ~ at_least section_prefixed 4 (entry_names entries) ->
   _validate_extraction extract_dir t = Returned true).
Proof.
  intros [Hpath ->]. apply String.eqb_neq in Hpath.
  unfold _validate_extraction. rewrite Hpath.
  cbn [exists_ negb orb listdir]. split.
  - intros Hnone.
    destruct (List.length (map fst entries) =? 0)%nat; [reflexivity|].
    destruct (3 <? _)%nat; [reflexivity|].
    rewrite !(nothing_walked _ _ Hnone). reflexivity.
  - intros (name & Htree & Hext) Hfew.
    rewrite (in_tree_has_entries _ _ Htree).
    destruct (3 <? _)%nat eqn:Hcount.
    + exfalso. apply Hfew, dissection_detected, Hcount.
    + assert (Hexe : 0 < count_walked is_executable_name (Some (Dir entries))).
      { unfold count_walked, os_walk.
        apply (counted_positive _ _ is_executable_name_iff name);
          [apply walked_iff, Htree | exact Hext]. }
      apply Nat.ltb_lt in Hexe. rewrite Hexe. reflexivity.
Qed.

Lemma validates_by_content_witness :
  _validate_extraction "C:\Temp\px\extracted" (Some (Dir only_folders))
    = Returned false /\
  _validate_extraction "C:\Temp\px\extracted" (Some (Dir nested_app))
    = Returned true.
Proof.
  split.
  - apply (validates_by_content "C:\Temp\px\extracted"
             (Some (Dir only_folders)) only_folders).
    + split; [discriminate | reflexivity].
    + intros name H. apply walked_iff in H. vm_compute in H. exact H.
  - apply (validates_by_content "C:\Temp\px\extracted"
             (Some (Dir nested_app)) nested_app).
    + split; [discriminate | reflexivity].
    + exists "Tool.EXE". split.
      * apply walked_iff. vm_compute. auto.
      * left. exists "tool". reflexivity.
    + intros H. apply dissection_detected in H. vm_compute in H.
      discriminate H.
Defined.

(** C3 as stated fails: a directory holding app.exe next to four files
    named after linker sections is rejected. *)
Lemma executable_among_sections_rejected :
  in_tree "app.exe" (Dir dissected_with_exe) /\
  executable_extension "app.exe" /\
  _validate_extraction "C:\Temp\px\extracted"
    (Some (Dir dissected_with_exe)) = Returned false.
Proof.
  split; [|split].
  - apply in_tree_here. unfold dissected_with_exe. cbn [In]. tauto.
  - left. exists "app". reflexivity.
  - vm_compute. reflexivity.
Qed.

End Validation.

(* ===================================================================== *)
(** ** Extraction strategies and orchestration *)
(* ===================================================================== *)

Module Strategies.
Import Py Py.BlockNotations ExtractionEngine Spec BlockFacts Samples.

Lemma listed_nonempty (t : target) :
  has_entries t <->
  exists names, listdir t = Returned names
                /\ (0 <? List.length names)%nat = true.
Proof.
  unfold has_entries. split.
  - intros (entries & -> & Hne). exists (map fst entries).
    split; [reflexivity|]. destruct entries; [contradiction | reflexivity].
  - intros (names & Hlist & Hlen).
    destruct t as [[|entries]|]; try discriminate Hlist.
    exists entries. split; [reflexivity|]. intros ->.
    injection Hlist as <-. discriminate Hlen.
Qed.

Lemma run_tool_iff (h : host) (cfg : config) (cmd : list string)
  (t t' : target) :
  run_tool h cfg cmd t = (true, t') <-> tool_run_succeeds h cfg cmd t t'.
Proof.
  unfold run_tool, tool_run_succeeds, exit_ok_and_nonempty.
  destruct (int_of_str h _) as [timeout | e].
  2:{ split; [discriminate | intros (? & H & _); discriminate H]. }
  destruct (subprocess_run h cmd timeout t) as [[code | e] after] eqn:Hrun.
  2:{ split; [discriminate|].
      intros (timeout' & [= <-] & H & _). rewrite Hrun in H. discriminate H. }
  destruct (Z.eqb_spec code 0) as [-> | Hcode].
  2:{ split; [discriminate|].
      intros (timeout' & [= <-] & H & _). rewrite Hrun in H.
      injection H as H _. contradiction. }
  split.
  - intros H. exists timeout. split; [reflexivity|].
    destruct (listdir after) as [names | e] eqn:Hlist;
      injection H as Hok <-; [|discriminate Hok].
    split; [exact Hrun|]. apply listed_nonempty. eauto.
  - intros (timeout' & [= <-] & H & Hentries). rewrite Hrun in H.
    injection H as <-. apply listed_nonempty in Hentries.
    destruct Hentries as (names & -> & ->). reflexivity.
Qed.

(** C8.  Each tool-backed strategy reports success exactly when its
    subprocess exited with code zero and the extraction directory holds
    at least one entry afterwards. *)
Theorem tool_strategy_success
  (h : host) (cfg : config) (installer_path extract_dir : string)
  (t t' : target) :
  (_extract_with_7zip h cfg installer_path extract_dir t = (true, t') <->
   exists seven_zip_exe,
     find_7zip h = Some seven_zip_exe /\
     tool_run_succeeds h cfg
       [seven_zip_exe; "x"; installer_path; ("-o" ++ extract_dir)%string;
        "-y"; "-bb1"] t t') /\
  (_extract_with_innoextract h cfg installer_path extract_dir t = (true, t')
   <->
   exists innoextract_exe,
     find_innoextract h = Some innoextract_exe /\
     tool_run_succeeds h cfg
       [innoextract_exe; installer_path; "-d"; extract_dir; "-s"] t t') /\
  (_extract_msi h cfg installer_path extract_dir t = (true, t') <->
   tool_run_succeeds h cfg
     ["msiexec"; "/a"; installer_path; "/qb";
      ("TARGETDIR=" ++ extract_dir)%string] t t').
Proof.
  unfold _extract_with_7zip, _extract_with_innoextract, _extract_msi.
  split; [|split].
  - destruct (find_7zip h) as [exe|].
    + rewrite run_tool_iff. split; [eauto|].
      intros (exe' & [= <-] & H); exact H.
    + split; [discriminate | intros (? & H & _); discriminate H].
  - destruct (find_innoextract h) as [exe|].
    + rewrite run_tool_iff. split; [eauto|].
      intros (exe' & [= <-] & H); exact H.
    + split; [discriminate | intros (? & H & _); discriminate H].
  - apply run_tool_iff.
Qed.

(** Cleaning up after a rejected extraction leaves an empty directory
    when the tree could be removed. *)
Lemma cleanup_leaves_empty (h : host) (n : node) :
  shutil_rmtree h n = Removed ->
  _cleanup_failed_extraction h (Some n) = Some (Dir []).
Proof. intros H. unfold _cleanup_failed_extraction. rewrite H. reflexivity. Qed.

Lemma grows_bind {A B} (m : Run A) (k : A -> Run B) :
  grows m -> (forall a, grows (k a)) -> grows (bind m k).
Proof.
  intros Hm Hk st. rewrite bind_run. destruct (Hm st) as [more1 H1].
  destruct (m st) as [[a | r | e] st1]; cbn [snd] in H1 |- *; eauto.
  destruct (Hk a st1) as [more2 H2]. exists (more1 ++ more2).
  rewrite H2, H1, app_assoc. reflexivity.
Qed.

Lemma grows_same {A} (m : Run A) :
  (forall st, rs_started (snd (m st)) = rs_started st) -> grows m.
Proof. intros H st. exists []. rewrite H, app_nil_r. reflexivity. Qed.

Lemma grows_attempt (s : strategy) (method : target -> bool * target) :
  grows (attempt s method).
Proof.
  intros st. unfold attempt. destruct (method (rs_target st)) as [ok t'].
  eexists. reflexivity.
Qed.

Lemma grows_if {A} (c : bool) (m1 m2 : Run A) :
  grows m1 -> grows m2 -> grows (if c then m1 else m2).
Proof. destruct c; auto. Qed.

Lemma grows_validate (extract_dir : string) : grows (validate extract_dir).
Proof.
  apply grows_same. intros st. unfold validate, call.
  destruct (_validate_extraction _ _); reflexivity.
Qed.

Ltac grows_steps :=
  repeat first
    [ apply grows_attempt
    | apply grows_validate
    | apply grows_same; reflexivity
    | apply grows_if
    | apply grows_bind; [|intro] ].

(** X18.  What a failed 7-Zip attempt leaves in the directory is what the
    innoextract strategy starts on: nothing cleans between the two. *)
Lemma failed_tool_output_is_kept (h : host) (cfg : config)
  (installer_path : string) (t1 : target) :
  get cfg "Extraction" "use_7zip" "" = "true" ->
  get cfg "Extraction" "use_innoextract" "" = "true" ->
  _extract_with_7zip h cfg installer_path
    (path_join (mkdtemp h) "extracted") (Some (Dir [])) = (false, t1) ->
  exists more,
    rs_started (snd (extract_installer h cfg installer_path))
    = (SevenZip, Some (Dir [])) :: (InnoExtract, t1) :: more.
Proof.
  intros H7 Hinno Hfail. unfold extract_installer.
  set (extract_dir := path_join (mkdtemp h) "extracted") in *.
  cbv zeta.
  assert (E : exists more,
             rs_started (snd (extract_block h cfg installer_path extract_dir
                                (mk_run_state (Some (Dir [])) [])))
             = (SevenZip, Some (Dir [])) :: (InnoExtract, t1) :: more).
  { unfold extract_block. rewrite H7, Hinno.
    change ("true" =? "true")%string with true. cbv iota.
    rewrite bind_run. rewrite bind_run.
    unfold attempt at 1. cbn [rs_target rs_started]. rewrite Hfail.
    cbv beta iota. cbn [pure app].
    rewrite bind_run. rewrite bind_run.
    unfold attempt at 1. cbn [rs_target rs_started].
    destruct (_extract_with_innoextract h cfg installer_path extract_dir t1)
      as [ok2 t2].
    cbv beta iota. cbn [app].
    match goal with
    | |- exists more, rs_started (snd (match ?first ?st with _ => _ end)) = _ =>
        assert (G1 : grows first) by grows_steps;
        destruct (G1 st) as [more1 M1]; destruct (first st) as [[[] | r | e] st1]
    end; cbn [snd rs_started] in M1 |- *.
    2,3: (exists more1; rewrite M1; reflexivity).
    match goal with
    | |- exists more, rs_started (snd (?rest st1)) = _ =>
        assert (G2 : grows rest) by grows_steps;
        destruct (G2 st1) as [more2 M2]
    end.
    exists (more1 ++ more2). rewrite M2, M1, <- app_assoc. reflexivity. }
  destruct E as [more E]. exists more.
  destruct (extract_block _ _ _ _ _) as [[u | r | e] st]; exact E.
Qed.
(** C1 fails on the code.  The directory is cleaned only after the
    validator has rejected it.  When 7-Zip runs past its timeout after
    writing a file, the strategies that follow start on that file; and
    when the next tool then succeeds with output of its own, the
    validator accepts the directory for the stale file (the new output
    alone is rejected). *)
Theorem stale_output_reaches_next_strategy :
  extract_installer host_7zip_times_out plain_config "C:\Downloads\game.exe"
  = (None,
     {| rs_target := Some (Dir [("data1.cab", File)]);
        rs_started :=
          [ (SevenZip, Some (Dir []));
            (InnoExtract, Some (Dir [("data1.cab", File)]));
            (Universal, Some (Dir [("data1.cab", File)])) ] |}) /\
  extract_installer host_stale_exe plain_config "C:\Downloads\game.exe"
  = (Some "C:\Temp\portablexe_extract_ab12\extracted",
     {| rs_target := Some (Dir [("core.dll", File); ("notes.txt", File)]);
        rs_started :=
          [ (SevenZip, Some (Dir []));
            (InnoExtract, Some (Dir [("core.dll", File)])) ] |}) /\
  _validate_extraction "C:\Temp\portablexe_extract_ab12\extracted"
    (Some (Dir [("notes.txt", File)])) = Returned false.
Proof. repeat split; vm_compute; reflexivity. Qed.

End Strategies.

(* ===================================================================== *)
(** ** Header parsing: what every analysis satisfies *)
(* ===================================================================== *)

Module HeaderLaws.
Import Py Py.BlockNotations FileAnalyzer Spec Notions BlockFacts SeqFacts
       HeaderFacts Samples.

Lemma keeps_return {A} (P : analysis -> Prop) : keeps P (@return_analysis A).
Proof. intros s Hs; exact Hs. Qed.

Lemma keeps_seek (P : analysis -> Prop) (offset : nat) :
  keeps P (f_seek offset).
Proof. intros s Hs; exact Hs. Qed.

Lemma keeps_named_sections (P : analysis -> Prop) (data : bytes) (n : nat) :
  (forall a header, P a -> P (append_section (section_name header) a)) ->
  keeps P (read_sections data n).
Proof.
  intros Happ. induction n as [|n IH]; cbn [read_sections].
  - apply keeps_pure.
  - apply keeps_bind; [apply keeps_read|]. intros header.
    apply keeps_bind; [|intros _; exact IH].
    apply keeps_if; [|apply keeps_pure].
    apply keeps_store. intros a Ha. exact (Happ a header Ha).
Qed.

(** A property of the dict that every assignment of the parser keeps is
    kept by the parser. *)
Lemma parse_headers_keeps (P : analysis -> Prop) (data : bytes) :
  (forall a, P a -> P (set_is_valid_pe true a)) ->
  (forall a v, In v ["x64"; "x86"; "ARM"] -> P a -> P (set_architecture v a)) ->
  (forall a v, In v ["GUI"; "Console"] -> P a -> P (set_subsystem v a)) ->
  (forall a header, P a -> P (append_section (section_name header) a)) ->
  keeps P (parse_headers data).
Proof.
  intros Hvalid Harch Hsub Hsec. unfold parse_headers.
  repeat first
    [ apply keeps_pure
    | apply keeps_call
    | apply keeps_read
    | apply keeps_seek
    | apply keeps_return
    | apply keeps_named_sections; exact Hsec
    | apply keeps_store; first
        [ exact Hvalid
        | intros ? Hkept; apply Harch; [cbn [In]; tauto | exact Hkept]
        | intros ? Hkept; apply Hsub; [cbn [In]; tauto | exact Hkept] ]
    | apply keeps_if
    | apply keeps_bind; [|intro] ].
Qed.

Lemma analysis_invariant (P : analysis -> Prop) :
  P initial_analysis ->
  (forall a, P a -> P (set_is_valid_pe true a)) ->
  (forall a v, In v ["x64"; "x86"; "ARM"] -> P a -> P (set_architecture v a)) ->
  (forall a v, In v ["GUI"; "Console"] -> P a -> P (set_subsystem v a)) ->
  (forall a header, P a -> P (append_section (section_name header) a)) ->
  forall fs path a, analyze_pe_structure fs path = Returned a -> P a.
Proof.
  intros Hinit Hvalid Harch Hsub Hsec fs path a.
  unfold analyze_pe_structure, run_pe_block.
  destruct (fs path) as [data|].
  - pose proof (parse_headers_keeps P data Hvalid Harch Hsub Hsec
                  (mk_pe_state initial_analysis 0) Hinit) as K.
    destruct (parse_headers data _) as [f s]. cbn [snd] in K.
    destruct f; intros [= <-]; exact K.
  - intros [= <-]; exact Hinit.
Qed.

(** X5.  Whatever the file, the analysis leaves [is_installer],
    [installer_type], [imports] and [resources] as they were created. *)
Theorem analysis_never_fills_installer_keys
  (fs : files) (path : string) (a : analysis) :
  analyze_pe_structure fs path = Returned a -> unfilled_keys a.
Proof.
  apply (analysis_invariant unfilled_keys); unfold unfilled_keys;
    cbn; intros; tauto.
Qed.

Lemma analysis_never_fills_installer_keys_witness :
  unfilled_keys (valid_analysis "x64" "GUI" [".text"]).
Proof.
  apply (analysis_never_fills_installer_keys
           (one_file "C:\Downloads\app.exe" image_opt70)
           "C:\Downloads\app.exe").
  vm_compute. reflexivity.
Defined.

(** X4.  Whatever the file, the architecture reported is one of x64, x86, ARM
    and unknown, and the subsystem one of GUI, Console and unknown. *)
Theorem analysis_values_are_named
  (fs : files) (path : string) (a : analysis) :
  analyze_pe_structure fs path = Returned a -> named_values a.
Proof.
  apply (analysis_invariant named_values); unfold named_values.
  - cbn. tauto.
  - intros a0 H; exact H.
  - intros a0 v Hv [_ Hs]. split; [|exact Hs].
    cbn [architecture set_architecture]. cbn [In] in Hv |- *. tauto.
  - intros a0 v Hv [Ha _]. split; [exact Ha|].
    cbn [subsystem set_subsystem]. cbn [In] in Hv |- *. tauto.
  - intros a0 header H; exact H.
Qed.

Lemma analysis_values_are_named_witness :
  named_values (valid_analysis "x64" "GUI" [".text"]).
Proof.
  apply (analysis_values_are_named
           (one_file "C:\Downloads\app.exe" image_opt70)
           "C:\Downloads\app.exe").
  vm_compute. reflexivity.
Defined.

(** *** How many sections, and how long their names *)

Lemma byte_val_range (x : byte) : (0 <= byte_val x < 256)%Z.
Proof.
  unfold byte_val. pose proof (Byte.to_N_bounded x) as H.
  generalize dependent (Byte.to_N x). intros n H. lia.
Qed.

Lemma unpack_H_range (buf : bytes) (v : Z) :
  unpack_H buf = Returned v -> (0 <= v < 65536)%Z.
Proof.
  destruct buf as [|b0 [|b1 [|b2 rest]]]; try discriminate.
  intros E.
  assert (Hv : v = (byte_val b0 + 256 * byte_val b1)%Z)
    by (unfold unpack_H in E; congruence).
  pose proof (byte_val_range b0). pose proof (byte_val_range b1). lia.
Qed.

Lemma appends_same {A} (n : nat) (m : PE A) :
  (forall s, sections (st_analysis (snd (m s))) = sections (st_analysis s)) ->
  appends_at_most n m.
Proof. intros H s. rewrite H. lia. Qed.

Lemma appends_call {A} (n : nat) (r : py_result A) :
  appends_at_most n (call r).
Proof. apply appends_same. intros s. destruct r; reflexivity. Qed.

Lemma appends_bind {A B} (n : nat) (m : PE A) (k : A -> PE B) :
  appends_at_most 0 m -> (forall a, appends_at_most n (k a)) ->
  appends_at_most n (bind m k).
Proof.
  intros Hm Hk s. rewrite bind_run. specialize (Hm s).
  destruct (m s) as [[a | r | e] s']; cbn [snd] in Hm |- *; try lia.
  specialize (Hk a s'). lia.
Qed.

Lemma appends_call_bind {A B} (n : nat) (r : py_result A) (k : A -> PE B) :
  (forall a, r = Returned a -> appends_at_most n (k a)) ->
  appends_at_most n (bind (call r) k).
Proof.
  intros Hk s. rewrite bind_run. destruct r as [a | e]; cbn [call snd].
  - exact (Hk a eq_refl s).
  - lia.
Qed.

Lemma appends_if {A} (n : nat) (c : bool) (m1 m2 : PE A) :
  appends_at_most n m1 -> appends_at_most n m2 ->
  appends_at_most n (if c then m1 else m2).
Proof. destruct c; auto. Qed.

Lemma appends_read_sections (data : bytes) (n : nat) :
  forall s,
    List.length (sections (st_analysis (snd (read_sections data n s))))
    <= List.length (sections (st_analysis s)) + n.
Proof.
  induction n as [|n IH]; intros s; cbn [read_sections].
  - cbn. lia.
  - rewrite bind_run. cbn [f_read]. cbv beta iota zeta.
    rewrite bind_run.
    destruct (List.length (firstn 40 (skipn (st_pos s) data)) =? 40)%nat;
      cbn [store pure st_analysis st_pos]; cbv beta iota;
      match goal with |- context [read_sections data n ?s1] =>
        specialize (IH s1); cbn [st_analysis sections append_section] in IH
      end.
    + rewrite length_app in IH. cbn [List.length] in IH. lia.
    + lia.
Qed.

Ltac appends_steps :=
  repeat first
    [ apply appends_call
    | apply appends_same; reflexivity
    | apply appends_if
    | apply appends_call_bind; intros ? ?
    | apply appends_bind; [|intro] ].

Lemma parse_headers_appends (data : bytes) :
  appends_at_most (Z.to_nat 65535) (parse_headers data).
Proof.
  unfold parse_headers. appends_steps.
  match goal with
  | H : unpack_H (slice 2 4 _) = Returned ?n |- _ =>
      apply unpack_H_range in H;
      intros s; pose proof (appends_read_sections data (Z.to_nat n) s); lia
  end.
Qed.

Lemma decode_length (buf : bytes) :
  String.length (decode_ascii_ignore buf) <= List.length buf.
Proof.
  induction buf as [|x buf IH]; cbn [decode_ascii_ignore List.length].
  - cbn. lia.
  - destruct (byte_val x <? 128)%Z; cbn [String.length]; lia.
Qed.

Lemma rstrip_length (buf : bytes) :
  List.length (rstrip_nul buf) <= List.length buf.
Proof.
  induction buf as [|x buf IH]; cbn [rstrip_nul List.length]; [lia|].
  destruct (rstrip_nul buf); [destruct (Byte.eqb x "000"%byte)|];
    cbn [List.length] in *; lia.
Qed.

Lemma section_name_length (header : bytes) :
  String.length (section_name header) <= 8.
Proof.
  unfold section_name, slice.
  pose proof (decode_length (rstrip_nul (firstn (8 - 0) (skipn 0 header)))).
  pose proof (rstrip_length (firstn (8 - 0) (skipn 0 header))).
  pose proof (firstn_le_length (8 - 0) (skipn 0 header)).
  cbn [Nat.sub] in *. lia.
Qed.

(** X3.  Whatever the file, the analysis lists at most 65535 sections, and
    every section name has at most eight characters. *)
Theorem sections_are_bounded (fs : files) (path : string) (a : analysis) :
  analyze_pe_structure fs path = Returned a ->
  (Z.of_nat (List.length (sections a)) <= 65535)%Z /\ short_names a.
Proof.
  intros H. split.
  - revert H. unfold analyze_pe_structure, run_pe_block.
    destruct (fs path) as [data|].
    + pose proof (parse_headers_appends data (mk_pe_state initial_analysis 0))
        as K.
      destruct (parse_headers data _) as [f s]. cbn in K.
      destruct f; intros [= <-]; lia.
    + intros [= <-]. cbn. lia.
  - revert H. apply (analysis_invariant short_names); unfold short_names.
    + constructor.
    + intros a0 H0; exact H0.
    + intros a0 v _ H0; exact H0.
    + intros a0 v _ H0; exact H0.
    + intros a0 header H0. cbn [sections append_section].
      apply Forall_app. split; [exact H0|].
      constructor; [apply section_name_length | constructor].
Qed.

Lemma sections_are_bounded_witness :
  (Z.of_nat (List.length (sections (valid_analysis "x64" "GUI" [".text"])))
   <= 65535)%Z /\
  short_names (valid_analysis "x64" "GUI" [".text"]).
Proof.
  apply (sections_are_bounded
           (one_file "C:\Downloads\app.exe" image_opt70)
           "C:\Downloads\app.exe").
  vm_compute. reflexivity.
Defined.

(** *** A complete image *)

Lemma unpack_H_le16 (buf : bytes) (i : nat) :
  unpack_H (slice i (i + 2) buf) =
  match le16_at i buf with
  | Some v => Returned v
  | None => Raised StructError
  end.
Proof.
  unfold slice, le16_at. replace (i + 2 - i) with 2 by lia.
  destruct (skipn i buf) as [|b0 [|b1 rest]]; reflexivity.
Qed.

(** Reading exactly the bytes that are there. *)
Lemma read_exact (data : bytes) (a : analysis) (pos n : nat)
  (chunk rest : bytes) :
  skipn pos data = chunk ++ rest -> List.length chunk = n ->
  f_read data n (mk_pe_state a pos) = (Next chunk, mk_pe_state a (pos + n)).
Proof.
  intros Hdata Hlen. unfold f_read. cbn [st_pos st_analysis].
  rewrite Hdata, firstn_app, Hlen, Nat.sub_diag, firstn_O, app_nil_r.
  rewrite <- Hlen, firstn_all. reflexivity.
Qed.

Lemma skip_further (data : bytes) (pos : nat) (chunk rest : bytes) :
  skipn pos data = chunk ++ rest ->
  skipn (pos + List.length chunk) data = rest.
Proof.
  intros H. rewrite Nat.add_comm, <- skipn_skipn, H, skipn_app, skipn_all.
  rewrite Nat.sub_diag. reflexivity.
Qed.

Lemma architecture_stored (machine : Z) (subsys : string)
  (names : list string) (pos : nat) :
  (if (machine =? 0x8664)%Z then store (set_architecture "x64")
   else if (machine =? 0x14c)%Z then store (set_architecture "x86")
   else if (machine =? 0x1c4)%Z then store (set_architecture "ARM")
   else pure tt)
    (mk_pe_state (valid_analysis "unknown" subsys names) pos)
  = (Next tt,
     mk_pe_state (valid_analysis (architecture_of machine) subsys names) pos).
Proof.
  unfold architecture_of.
  destruct (machine =? 0x8664)%Z; [reflexivity|].
  destruct (machine =? 0x14c)%Z; [reflexivity|].
  destruct (machine =? 0x1c4)%Z; reflexivity.
Qed.

Lemma optional_header_read (data : bytes) (arch : string)
  (names : list string) (pos : nat) (opt rest : bytes) :
  skipn pos data = opt ++ rest ->
  List.length opt < 68 \/ 70 <= List.length opt ->
  (if (Z.of_nat (List.length opt) >? 0)%Z
   then
     opt_header <- f_read data (Z.to_nat (Z.of_nat (List.length opt))) ;;
     if (68 <=? List.length opt_header)%nat
     then
       subsystem_code <- call (unpack_H (slice 68 70 opt_header)) ;;
       if (subsystem_code =? 2)%Z then store (set_subsystem "GUI")
       else if (subsystem_code =? 3)%Z then store (set_subsystem "Console")
       else pure tt
     else pure tt
   else pure tt)
    (mk_pe_state (valid_analysis arch "unknown" names) pos)
  = (Next tt,
     mk_pe_state (valid_analysis arch (subsystem_in opt) names)
                 (pos + List.length opt)).
Proof.
  intros Hdata Hsize. rewrite Nat2Z.id.
  destruct (Z.gtb_spec (Z.of_nat (List.length opt)) 0) as [Hpos | Hzero].
  - rewrite bind_run, (read_exact _ _ _ _ _ _ Hdata eq_refl).
    cbv beta iota.
    destruct (Nat.leb_spec 68 (List.length opt)) as [Hbig | Hsmall].
    + assert (H70 : 70 <= List.length opt) by lia.
      rewrite bind_run.
      pose proof (unpack_H_le16 opt 68) as E. cbn [Nat.add] in E. rewrite E.
      unfold subsystem_in.
      destruct (le16_at 68 opt) as [code|] eqn:Hcode.
      * cbn [call]. cbv beta iota. unfold subsystem_of.
        destruct (code =? 2)%Z; [reflexivity|].
        destruct (code =? 3)%Z; reflexivity.
      * exfalso. unfold le16_at in Hcode.
        assert (Hlen : List.length (skipn 68 opt) = List.length opt - 68)
          by apply length_skipn.
        destruct (skipn 68 opt) as [|b0 [|b1 tail]];
          try discriminate Hcode; cbn [List.length] in Hlen; lia.
    + unfold subsystem_in, le16_at.
      rewrite skipn_all2 by lia. reflexivity.
  - assert (Hnil : opt = []) by (destruct opt; [reflexivity | cbn in Hzero; lia]).
    subst opt. cbn [List.length]. rewrite Nat.add_0_r. reflexivity.
Qed.

Lemma short_tail_read (data : bytes) (arch subsys : string)
  (names : list string) (n : nat) :
  forall pos,
    List.length (skipn pos data) < 40 ->
    exists pos',
      read_sections data n
        (mk_pe_state (valid_analysis arch subsys names) pos)
      = (Next tt, mk_pe_state (valid_analysis arch subsys names) pos').
Proof.
  induction n as [|n IH]; intros pos Hshort.
  - exists pos. reflexivity.
  - cbn [read_sections]. rewrite bind_run. cbn [f_read st_analysis st_pos].
    cbv beta iota zeta. rewrite bind_run.
    assert (Hchunk : List.length (firstn 40 (skipn pos data)) < 40).
    { pose proof (length_firstn 40 (skipn pos data)). lia. }
    destruct (Nat.eqb_spec (List.length (firstn 40 (skipn pos data))) 40)
      as [Heq | _]; [lia|].
    cbn [pure]. cbv beta iota.
    apply IH. rewrite length_skipn in Hshort |- *. lia.
Qed.

Lemma sections_read (data : bytes) (arch subsys : string)
  (headers : list bytes) (extra : nat) :
  Forall (fun header => List.length header = 40) headers ->
  forall (names : list string) (pos : nat) (rest : bytes),
    skipn pos data = List.concat headers ++ rest ->
    extra = 0 \/ List.length rest < 40 ->
    exists pos',
      read_sections data (List.length headers + extra)
        (mk_pe_state (valid_analysis arch subsys names) pos)
      = (Next tt,
         mk_pe_state
           (valid_analysis arch subsys (names ++ map section_name headers))
           pos').
Proof.
  induction 1 as [|header headers Hlen _ IH];
    intros names pos rest Hdata Hextra.
  - cbn [List.length Nat.add map]. rewrite app_nil_r.
    destruct Hextra as [-> | Hshort]; [exists pos; reflexivity|].
    apply short_tail_read. rewrite Hdata. exact Hshort.
  - cbn [List.concat] in Hdata. rewrite <- app_assoc in Hdata.
    cbn [List.length Nat.add read_sections].
    rewrite bind_run, (read_exact _ _ _ _ _ _ Hdata Hlen). cbv beta iota.
    rewrite bind_run, Hlen. cbn [Nat.eqb store st_analysis st_pos].
    cbv beta iota.
    apply skip_further in Hdata. rewrite Hlen in Hdata.
    destruct (IH (names ++ [section_name header]) (pos + 40) rest Hdata Hextra)
      as [pos' E].
    exists pos'. cbn [map].
    replace (names ++ section_name header :: map section_name headers)
      with ((names ++ [section_name header]) ++ map section_name headers)
      by (rewrite <- app_assoc; reflexivity).
    exact E.
Qed.

(** The fixed part of the headers: with both signatures and a whole
    COFF header in place, what remains to run is the optional header and
    the section table, on a dict that is valid and knows the
    architecture. *)
Lemma fixed_headers_read (data : bytes) (offset machine declared opt_size : Z)
  (coff rest : bytes) :
  firstn 2 data = b "MZ" ->
  le32_at 60 (firstn 64 data) = Some offset ->
  skipn (Z.to_nat offset) data = pe_signature ++ coff ++ rest ->
  List.length coff = 20 ->
  le16_at 0 coff = Some machine ->
  le16_at 2 coff = Some declared ->
  le16_at 16 coff = Some opt_size ->
  parse_headers data (mk_pe_state initial_analysis 0)
  = ((if (opt_size >? 0)%Z
      then
        opt_header <- f_read data (Z.to_nat opt_size) ;;
        if (68 <=? List.length opt_header)%nat
        then
          subsystem_code <- call (unpack_H (slice 68 70 opt_header)) ;;
          if (subsystem_code =? 2)%Z then store (set_subsystem "GUI")
          else if (subsystem_code =? 3)%Z then store (set_subsystem "Console")
          else pure tt
        else pure tt
      else pure tt) ;;;
     read_sections data (Z.to_nat declared))
      (mk_pe_state (valid_analysis (architecture_of machine) "unknown" [])
                   (Z.to_nat offset + 4 + 20)).
Proof.
  intros Hmz Hoff Hdata Hcoff Hmachine Hcount Hsize.
  unfold parse_headers.
  rewrite bind_run, read_at_start. cbv beta iota.
  rewrite dos_magic_slice, Hmz, (proj2 (bytes_eqb_iff _ _) eq_refl).
  cbn [negb].
  rewrite bind_run, unpack_offset, Hoff. cbn [call]. cbv beta iota.
  rewrite bind_run. cbn [f_seek st_analysis]. cbv beta iota.
  rewrite bind_run.
  rewrite (read_exact data _ _ 4 pe_signature _ Hdata eq_refl).
  cbv beta iota.
  rewrite (proj2 (bytes_eqb_iff _ _) eq_refl). cbn [negb].
  apply skip_further in Hdata. cbn [pe_signature List.length] in Hdata.
  rewrite bind_run. cbn [store st_analysis st_pos]. cbv beta iota.
  change (set_is_valid_pe true initial_analysis)
    with (valid_analysis "unknown" "unknown" []).
  rewrite bind_run, (read_exact data _ _ 20 coff _ Hdata Hcoff).
  cbv beta iota.
  pose proof (unpack_H_le16 coff 0) as E0. cbn [Nat.add] in E0.
  pose proof (unpack_H_le16 coff 2) as E2. cbn [Nat.add] in E2.
  pose proof (unpack_H_le16 coff 16) as E16. cbn [Nat.add] in E16.
  rewrite Hmachine in E0. rewrite Hcount in E2. rewrite Hsize in E16.
  rewrite bind_run, E0. cbn [call]. cbv beta iota.
  rewrite bind_run, E2. cbn [call]. cbv beta iota.
  rewrite bind_run, architecture_stored. cbv beta iota.
  rewrite bind_run, E16. cbn [call]. cbv beta iota.
  reflexivity.
Qed.

(** X1.  For a file that carries, at the offset its DOS header names, the PE
    signature, a whole COFF header, an optional header of the size the
    COFF header declares (not 68 or 69 bytes) and then whole section
    headers - as many as declared, or fewer when less than one more
    header follows - the analysis is the valid record with the
    architecture of the machine field, the subsystem of bytes 68-69 of
    the optional header (unknown when it is shorter), and the names of
    the whole section headers in file order. *)
Theorem complete_image_is_decoded
  (fs : files) (path : string) (data : bytes) (offset machine declared : Z)
  (coff opt : bytes) (headers : list bytes) (rest : bytes) :
  fs path = Some data ->
  firstn 2 data = b "MZ" ->
  le32_at 60 (firstn 64 data) = Some offset ->
  skipn (Z.to_nat offset) data
    = pe_signature ++ coff ++ opt ++ List.concat headers ++ rest ->
  List.length coff = 20 ->
  le16_at 0 coff = Some machine ->
  le16_at 2 coff = Some declared ->
  le16_at 16 coff = Some (Z.of_nat (List.length opt)) ->
  List.length opt < 68 \/ 70 <= List.length opt ->
  Forall (fun header => List.length header = 40) headers ->
  declared = Z.of_nat (List.length headers) \/
  ((Z.of_nat (List.length headers) < declared)%Z /\ List.length rest < 40) ->
  analyze_pe_structure fs path
  = Returned (valid_analysis (architecture_of machine) (subsystem_in opt)
                (map section_name headers)).
Proof.
  intros Hfile Hmz Hoff Hdata Hcoff Hmachine Hcount Hsize Hopt Hheaders
         Hdeclared.
  unfold analyze_pe_structure, run_pe_block. rewrite Hfile.
  assert (E : exists pos,
             parse_headers data (mk_pe_state initial_analysis 0)
             = (Next tt,
                mk_pe_state
                  (valid_analysis (architecture_of machine) (subsystem_in opt)
                     (map section_name headers)) pos)).
  { rewrite (fixed_headers_read data offset machine declared
               (Z.of_nat (List.length opt)) coff
               (opt ++ List.concat headers ++ rest)
               Hmz Hoff Hdata Hcoff Hmachine Hcount Hsize).
    apply skip_further in Hdata. cbn [pe_signature List.length] in Hdata.
    apply skip_further in Hdata. rewrite Hcoff in Hdata.
    rewrite bind_run, (optional_header_read _ _ _ _ _ _ Hdata Hopt).
    cbv beta iota.
    apply skip_further in Hdata.
    replace (Z.to_nat declared)
      with (List.length headers + (Z.to_nat declared - List.length headers))
      by lia.
    apply (sections_read data (architecture_of machine) (subsystem_in opt)
             headers _ Hheaders [] _ rest Hdata).
    lia. }
  destruct E as [pos E]. rewrite E. reflexivity.
Qed.

Lemma complete_image_is_decoded_witness :
  analyze_pe_structure (one_file "C:\Downloads\app.exe" image_opt70)
    "C:\Downloads\app.exe"
  = Returned (valid_analysis (architecture_of 0x8664)
                (subsystem_in (zeros 68 ++ [x02; x00]))
                (map section_name [section_header ".text"])).
Proof.
  apply (complete_image_is_decoded
           (one_file "C:\Downloads\app.exe" image_opt70)
           "C:\Downloads\app.exe" image_opt70 64 0x8664 1
           (coff_x64 x01 x46) (zeros 68 ++ [x02; x00])
           [section_header ".text"] []).
  - reflexivity.
  - reflexivity.
  - reflexivity.
  - vm_compute. reflexivity.
  - reflexivity.
  - reflexivity.
  - reflexivity.
  - reflexivity.
  - right. vm_compute. lia.
  - constructor; [reflexivity | constructor].
  - left. reflexivity.
Defined.

(** X2.  With an optional header of 68 or 69 bytes the parser stops at the
    subsystem field: the analysis is valid and names the architecture,
    but the subsystem stays unknown and no section is listed, whatever
    follows in the file. *)
Theorem optional_header_of_68_or_69_bytes
  (fs : files) (path : string) (data : bytes) (offset machine declared : Z)
  (coff opt rest : bytes) :
  fs path = Some data ->
  firstn 2 data = b "MZ" ->
  le32_at 60 (firstn 64 data) = Some offset ->
  skipn (Z.to_nat offset) data = pe_signature ++ coff ++ opt ++ rest ->
  List.length coff = 20 ->
  le16_at 0 coff = Some machine ->
  le16_at 2 coff = Some declared ->
  le16_at 16 coff = Some (Z.of_nat (List.length opt)) ->
  List.length opt = 68 \/ List.length opt = 69 ->
  analyze_pe_structure fs path
  = Returned (valid_analysis (architecture_of machine) "unknown" []).
Proof.
  intros Hfile Hmz Hoff Hdata Hcoff Hmachine Hcount Hsize Hopt.
  unfold analyze_pe_structure, run_pe_block. rewrite Hfile.
  rewrite (fixed_headers_read data offset machine declared
             (Z.of_nat (List.length opt)) coff (opt ++ rest)
             Hmz Hoff Hdata Hcoff Hmachine Hcount Hsize).
  apply skip_further in Hdata. cbn [pe_signature List.length] in Hdata.
  apply skip_further in Hdata. rewrite Hcoff in Hdata.
  rewrite bind_run.
  replace (Z.of_nat (List.length opt) >? 0)%Z with true
    by (symmetry; apply Z.gtb_lt; lia).
  rewrite bind_run, Nat2Z.id, (read_exact _ _ _ _ _ _ Hdata eq_refl).
  cbv beta iota.
  replace (68 <=? List.length opt)%nat with true
    by (symmetry; apply Nat.leb_le; lia).
  rewrite bind_run.
  pose proof (unpack_H_le16 opt 68) as E. cbn [Nat.add] in E. rewrite E.
  assert (Hnone : le16_at 68 opt = None).
  { unfold le16_at.
    assert (Hlen : List.length (skipn 68 opt) = List.length opt - 68)
      by apply length_skipn.
    destruct (skipn 68 opt) as [|b0 [|b1 tail]]; try reflexivity.
    cbn [List.length] in Hlen. lia. }
  rewrite Hnone. reflexivity.
Qed.

Lemma optional_header_of_68_or_69_bytes_witness :
  analyze_pe_structure (one_file "C:\Downloads\app.exe" image_opt68)
    "C:\Downloads\app.exe"
  = Returned (valid_analysis (architecture_of 0x8664) "unknown" []).
Proof.
  apply (optional_header_of_68_or_69_bytes
           (one_file "C:\Downloads\app.exe" image_opt68)
           "C:\Downloads\app.exe" image_opt68 64 0x8664 1
           (coff_x64 x01 x44) (zeros 68) (section_header ".text")).
  - reflexivity.
  - reflexivity.
  - reflexivity.
  - vm_compute. reflexivity.
  - reflexivity.
  - reflexivity.
  - reflexivity.
  - reflexivity.
  - left. reflexivity.
Defined.

End HeaderLaws.

(* ===================================================================== *)
(** ** Installer classification: further properties *)
(* ===================================================================== *)

Module DetectionLaws.
Import Py FileAnalyzer Spec Notions SeqFacts DetectionFacts Detection Samples
       MoreSamples.

Lemma family_of_row (row : bytes * string) :
  In row signature_table ->
  In (snd row) ["Inno Setup"; "NSIS"; "InstallShield"; "WiX";
                "Windows Installer"; "Advanced Installer"].
Proof.
  unfold signature_table. cbn [In].
  intros H.
  repeat (destruct H as [<- | H]; [cbn [snd]; tauto|]).
  destruct H.
Qed.

(** X6.  The two answers of a classification agree: the verdict is "no
    installer" exactly for the families "Standalone Application" and
    "Unknown". *)
Theorem verdict_follows_family
  (basename : string -> string) (fs : files) (path : string)
  (verdict : bool) (family : string) :
  detect_installer_type basename fs path = Returned (verdict, family) ->
  (verdict = false <->
   family = "Standalone Application" \/ family = "Unknown").
Proof.
  intros H.
  destruct (detect_cases basename fs path)
    as [[_ E] | [(_ & _ & E) | (_ & contents & _ & [(row & Hin & E) | E])]];
    rewrite E in H.
  - injection H as <- <-. split; [discriminate|].
    intros [H | H]; discriminate H.
  - injection H as <- <-. tauto.
  - injection H as <- <-. split; [discriminate|].
    apply family_of_row in Hin. cbn [In] in Hin.
    intros [H | H]; rewrite H in Hin;
      repeat (destruct Hin as [Hin | Hin]; [discriminate Hin|]);
      destruct Hin.
  - unfold by_size in H. destruct (_ >? _)%Z; injection H as <- <-.
    + split; [discriminate | intros [H | H]; discriminate H].
    + tauto.
Qed.

Lemma verdict_follows_family_witness :
  false = false <->
  "Unknown" = "Standalone Application" \/ "Unknown" = "Unknown".
Proof.
  apply (verdict_follows_family last_component no_files
           "C:\Downloads\viewer.exe" false "Unknown").
  vm_compute. reflexivity.
Defined.

(** X8.  The family "Windows Installer" is answered only for a readable file
    whose first 8192 bytes contain "This installation package" and
    contain neither "Windows Installer" nor "WiX". *)
Theorem windows_installer_family
  (basename : string -> string) (fs : files) (path : string)
  (verdict : bool) :
  detect_installer_type basename fs path
    = Returned (verdict, "Windows Installer") ->
  exists contents,
    fs path = Some contents /\
    occurs_in (b "This installation package") (head_of contents) /\
    ~ occurs_in (b "Windows Installer") (head_of contents) /\
    ~ occurs_in (b "WiX") (head_of contents).
Proof.
  intros H.
  destruct (detect_cases basename fs path)
    as [[_ E] | [(_ & _ & E) | (Hname & contents & Hfile & _)]].
  - rewrite E in H. discriminate H.
  - rewrite E in H. discriminate H.
  - exists contents. split; [exact Hfile|].
    unfold detect_installer_type in H.
    rewrite (detect_block_readable _ _ _ _ Hfile Hname) in H.
    unfold signature_table, row_found, by_size in H.
    cbn [find fst snd try_except] in H.
    repeat match type of H with
           | context [bytes_in ?sig ?data] =>
               let E := fresh "E" in
               destruct (bytes_in sig data) eqn:E; try discriminate H
           end.
    + repeat split; first [apply bytes_in_iff | apply bytes_in_false];
        assumption.
    + destruct (_ >? _)%Z; discriminate H.
Qed.

Lemma windows_installer_family_witness :
  exists contents,
    one_file "C:\Downloads\pkg.bin" msi_marked "C:\Downloads\pkg.bin"
      = Some contents /\
    occurs_in (b "This installation package") (head_of contents) /\
    ~ occurs_in (b "Windows Installer") (head_of contents) /\
    ~ occurs_in (b "WiX") (head_of contents).
Proof.
  apply (windows_installer_family last_component
           (one_file "C:\Downloads\pkg.bin" msi_marked)
           "C:\Downloads\pkg.bin" true).
  vm_compute. reflexivity.
Defined.

(** X9.  Only the file name, the first 8192 bytes and the size class of a file
    enter its classification: two readable files that agree on these are
    classified alike. *)
Theorem only_the_head_is_examined
  (basename : string -> string) (fs1 fs2 : files) (path : string)
  (contents1 contents2 : bytes) :
  fs1 path = Some contents1 ->
  fs2 path = Some contents2 ->
  firstn 8192 contents1 = firstn 8192 contents2 ->
  ((fifty_MiB < Z.of_nat (List.length contents1))%Z <->
   (fifty_MiB < Z.of_nat (List.length contents2))%Z) ->
  detect_installer_type basename fs1 path
    = detect_installer_type basename fs2 path.
Proof.
  intros H1 H2 Hhead Hsize.
  destruct (detect_cases basename fs1 path)
    as [[Hname E] | [(_ & Hnone & _) | (Hname & _)]].
  - rewrite E. unfold detect_installer_type.
    rewrite (detect_block_named _ _ _ Hname). reflexivity.
  - rewrite H1 in Hnone. discriminate Hnone.
  - unfold detect_installer_type.
    rewrite (detect_block_readable _ _ _ _ H1 Hname).
    rewrite (detect_block_readable _ _ _ _ H2 Hname).
    unfold head_of. rewrite Hhead.
    destruct (find _ _); [reflexivity|].
    assert (Hby : by_size contents1 = by_size contents2).
    { unfold fifty_MiB in Hsize.
      destruct (Z.lt_ge_cases (50 * 1024 * 1024)
                  (Z.of_nat (List.length contents1))) as [Hbig | Hsmall].
      - rewrite (by_size_large contents1), (by_size_large contents2);
          unfold fifty_MiB; tauto.
      - rewrite (by_size_small contents1), (by_size_small contents2);
          unfold fifty_MiB; [reflexivity | lia | lia]. }
    rewrite Hby. reflexivity.
Qed.

Lemma only_the_head_is_examined_witness :
  detect_installer_type last_component
    (one_file "C:\Downloads\viewer.exe" late_marker) "C:\Downloads\viewer.exe"
  = detect_installer_type last_component
      (one_file "C:\Downloads\viewer.exe" nine_thousand)
      "C:\Downloads\viewer.exe".
Proof.
  apply (only_the_head_is_examined last_component _ _
           "C:\Downloads\viewer.exe" late_marker nine_thousand).
  - reflexivity.
  - reflexivity.
  - vm_compute. reflexivity.
  - unfold fifty_MiB. vm_compute. split; intros H; discriminate H.
Defined.

Lemma occurs_in_prefix {A} (p q s : list A) :
  occurs_in (p ++ q) s -> occurs_in p s.
Proof.
  intros (before & after & ->). exists before, (q ++ after).
  rewrite <- app_assoc. reflexivity.
Qed.

(** X7.  "Generic Installer" is answered exactly when the lower-cased base
    name contains "setup" or "install"; the third word of the list,
    "installer", never decides. *)
Theorem generic_installer_iff
  (basename : string -> string) (fs : files) (path : string) :
  detect_installer_type basename fs path
    = Returned (true, "Generic Installer") <->
  occurs_in (chars "setup") (chars (lower (basename path))) \/
  occurs_in (chars "install") (chars (lower (basename path))).
Proof.
  split.
  - intros H.
    destruct (detect_cases basename fs path)
      as [[Hname _] | [(_ & _ & E) | (_ & contents & _ & [(row & Hin & E) | E])]].
    + destruct Hname as (pattern & Hin & Hocc).
      unfold installer_patterns in Hin. cbn [In] in Hin.
      destruct Hin as [<- | [<- | [<- | []]]]; [tauto | tauto |].
      right. apply (occurs_in_prefix (chars "install") (chars "er")).
      exact Hocc.
    + rewrite E in H. discriminate H.
    + rewrite E in H. injection H as H. apply family_of_row in Hin.
      rewrite H in Hin. cbn [In] in Hin.
      repeat (destruct Hin as [Hin | Hin]; [discriminate Hin|]).
      destruct Hin.
    + rewrite E in H. unfold by_size in H.
      destruct (_ >? _)%Z; discriminate H.
  - intros H. unfold detect_installer_type.
    rewrite detect_block_named; [reflexivity|].
    destruct H as [H | H]; [exists "setup" | exists "install"];
      (split; [unfold installer_patterns; cbn [In]; tauto | exact H]).
Qed.

End DetectionLaws.

(* ===================================================================== *)
(** ** Validation: further properties *)
(* ===================================================================== *)

Module ValidationLaws.
Import Py ExtractionEngine Spec ValidationNotions SeqFacts ValidationFacts
       Samples.

Lemma is_meaningful_name_iff (name : string) :
  is_meaningful_name name = true <-> meaningful_extension name.
Proof.
  unfold is_meaningful_name, has_suffix, meaningful_extension, has_extension.
  cbn [existsb]. rewrite orb_false_r, !orb_true_iff, !endswith_iff. tauto.
Qed.

Lemma nothing_counted (p : string -> bool) (n : node) :
  (forall name, in_tree name n -> p name = false) ->
  count_walked p (Some n) = 0.
Proof.
  intros Hnone. unfold count_walked, os_walk.
  assert (H : forall name, In name (List.concat (walk n)) -> p name = false)
    by (intros name Hin; apply Hnone, walked_iff, Hin).
  induction (List.concat (walk n)) as [|x l IH]; [reflexivity|].
  cbn [filter]. rewrite (H x (or_introl eq_refl)).
  apply IH. intros name Hin. apply H. right; exact Hin.
Qed.

Lemma section_count_false (entries : list (string * node)) :
  ~ at_least section_prefixed 4 (entry_names entries) ->
  (3 <? List.length (filter is_pe_section_name (map fst entries)))%nat
    = false.
Proof.
  intros H. apply Nat.ltb_ge.
  destruct (Nat.le_gt_cases
              (List.length (filter is_pe_section_name (map fst entries))) 3)
    as [Hle | Hgt]; [exact Hle|].
  exfalso. apply H.
  apply (at_least_counts _ _ is_pe_section_name_iff). exact Hgt.
Qed.

(** The answer of the validator on a directory that passes the checks on
    its immediate entries. *)
Lemma validate_by_counts (extract_dir : string)
  (entries : list (string * node)) :
  extract_dir <> "" -> entries <> [] ->
  ~ at_least section_prefixed 4 (entry_names entries) ->
  _validate_extraction extract_dir (Some (Dir entries))
  = Returned
      ((0 <? count_walked is_executable_name (Some (Dir entries)))%nat
       || (5 <? count_walked is_meaningful_name (Some (Dir entries)))%nat).
Proof.
  intros Hpath Hentries Hfew. apply String.eqb_neq in Hpath.
  unfold _validate_extraction. rewrite Hpath.
  cbn [exists_ negb orb listdir].
  destruct entries as [|e rest]; [contradiction|].
  cbn [map List.length Nat.eqb].
  change (fst e :: map fst rest) with (map fst (e :: rest)).
  rewrite (section_count_false _ Hfew). reflexivity.
Qed.

(** X10.  The section check looks at the immediate entries only: a tree with a
    program file anywhere in it is accepted once it sits inside a single
    folder, whatever the names next to the program. *)
Theorem wrapped_tree_is_accepted
  (extract_dir folder : string) (entries : list (string * node)) :
  extract_dir <> "" ->
  (exists name, in_tree name (Dir entries) /\ executable_extension name) ->
  _validate_extraction extract_dir (Some (Dir [(folder, Dir entries)]))
    = Returned true.
Proof.
  intros Hpath (name & Htree & Hext).
  rewrite validate_by_counts; [|exact Hpath | discriminate|].
  - assert (Hexe : 0 < count_walked is_executable_name
                         (Some (Dir [(folder, Dir entries)]))).
    { unfold count_walked, os_walk.
      apply (counted_positive _ _ is_executable_name_iff name);
        [|exact Hext].
      apply walked_iff.
      apply (in_tree_below _ _ folder (Dir entries));
        [left; reflexivity | exact Htree]. }
    apply Nat.ltb_lt in Hexe. rewrite Hexe. reflexivity.
  - intros H. apply (at_least_counts _ _ is_pe_section_name_iff) in H.
    cbn [entry_names map filter fst] in H.
    destruct (is_pe_section_name folder); cbn [List.length] in H; lia.
Qed.

Lemma wrapped_tree_is_accepted_witness :
  _validate_extraction "C:\Temp\px\extracted" (Some (Dir wrapped_dissection))
    = Returned true.
Proof.
  apply (wrapped_tree_is_accepted "C:\Temp\px\extracted" "payload"
           dissected_with_exe).
  - discriminate.
  - exists "app.exe". split.
    + apply in_tree_here. unfold dissected_with_exe. cbn [In]. tauto.
    + left. exists "app". reflexivity.
Defined.

(** X11.  A directory in which no file, at any depth, has one of the
    extensions .exe, .dll, .sys, .txt, .ini, .cfg, .dat is rejected,
    however many files it holds. *)
Theorem unknown_content_is_rejected
  (extract_dir : string) (entries : list (string * node)) :
  (forall name,
     in_tree name (Dir entries) ->
     ~ executable_extension name /\ ~ meaningful_extension name) ->
  _validate_extraction extract_dir (Some (Dir entries)) = Returned false.
Proof.
  intros Hnone. unfold _validate_extraction.
  cbn [exists_ negb listdir]. rewrite orb_false_r.
  destruct (extract_dir =? "")%string; [reflexivity|].
  destruct (List.length (map fst entries) =? 0)%nat; [reflexivity|].
  destruct (3 <? _)%nat; [reflexivity|].
  rewrite !nothing_counted; [reflexivity | |].
  - intros name Htree. apply not_true_is_false. intros H.
    apply is_meaningful_name_iff in H. exact (proj2 (Hnone name Htree) H).
  - intros name Htree. apply not_true_is_false. intros H.
    apply is_executable_name_iff in H. exact (proj1 (Hnone name Htree) H).
Qed.

Lemma unknown_content_is_rejected_witness :
  _validate_extraction "C:\Temp\px\extracted" (Some (Dir only_cabinets))
    = Returned false.
Proof.
  apply (unknown_content_is_rejected "C:\Temp\px\extracted" only_cabinets).
  intros name H. apply walked_iff in H. vm_compute in H.
  rewrite <- is_executable_name_iff, <- is_meaningful_name_iff.
  repeat (destruct H as [<- | H];
          [split; intros E; vm_compute in E; discriminate E|]).
  destruct H.
Defined.

Lemma meaningful_files_counted (entries : list (string * node)) (n : nat) :
  at_least meaningful_file n entries ->
  n <= List.length (filter is_meaningful_name (file_names entries)).
Proof.
  induction 1 as [l | n [name child] l _ IH | n [name child] l [Hfile Hext] _ IH].
  - lia.
  - destruct child; cbn [file_names filter]; [|exact IH].
    destruct (is_meaningful_name name); cbn [List.length]; lia.
  - cbn [fst snd] in Hfile, Hext. subst child. cbn [file_names filter].
    apply is_meaningful_name_iff in Hext. rewrite Hext.
    cbn [List.length]. lia.
Qed.

(** X12.  More than five files with a meaningful extension directly in the
    directory make it acceptable without any program file, provided at
    most three entries are named after linker sections. *)
Theorem six_meaningful_files_are_accepted
  (extract_dir : string) (entries : list (string * node)) :
  extract_dir <> "" ->
  at_least meaningful_file 6 entries ->
  ~ at_least section_prefixed 4 (entry_names entries) ->
  _validate_extraction extract_dir (Some (Dir entries)) = Returned true.
Proof.
  intros Hpath Hsix Hfew.
  rewrite validate_by_counts; [|exact Hpath | | exact Hfew].
  - apply meaningful_files_counted in Hsix.
    assert (H : 5 < count_walked is_meaningful_name (Some (Dir entries))).
    { unfold count_walked, os_walk. rewrite walk_dir. cbn [List.concat].
      rewrite filter_app, length_app. lia. }
    apply Nat.ltb_lt in H. rewrite H, orb_true_r. reflexivity.
  - intros ->. inversion Hsix.
Qed.

Lemma six_meaningful_files_are_accepted_witness :
  _validate_extraction "C:\Temp\px\extracted" (Some (Dir six_settings))
    = Returned true.
Proof.
  apply (six_meaningful_files_are_accepted "C:\Temp\px\extracted"
           six_settings).
  - discriminate.
  - unfold six_settings.
    repeat (apply at_least_take;
            [split; [reflexivity|];
             rewrite <- is_meaningful_name_iff; vm_compute; reflexivity|]).
    apply at_least_zero.
  - intros H. apply (at_least_counts _ _ is_pe_section_name_iff) in H.
    vm_compute in H. lia.
Defined.

End ValidationLaws.

(* ===================================================================== *)
(** ** Strategies and orchestration: further properties *)
(* ===================================================================== *)

Module OrchestrationLaws.
Import Py Py.BlockNotations FileAnalyzer ExtractionEngine PortableXE_GUI
       Spec RunNotions WordNotions BlockFacts SeqFacts Samples Strategies.

(** *** The generic container strategy and tool discovery *)

(** X13.  The zip strategy reports success exactly when [extractall] did not
    raise and the extraction directory is listed non-empty afterwards,
    whoever filled it. *)
Theorem universal_strategy_success
  (h : host) (installer_path extract_dir : string) (t t' : target) :
  _extract_universal h installer_path extract_dir t = (true, t') <->
  zip_extractall h installer_path t = (Returned tt, t') /\ has_entries t'.
Proof.
  unfold _extract_universal.
  destruct (zip_extractall h installer_path t) as [[[] | e] after].
  - split.
    + intros H. destruct (listdir after) as [names | e] eqn:Hlist;
        injection H as Hok <-; [|discriminate Hok].
      split; [reflexivity|]. apply listed_nonempty. eauto.
    + intros [[= <-] Hentries]. apply listed_nonempty in Hentries.
      destruct Hentries as (names & -> & ->). reflexivity.
  - split; [discriminate | intros [H _]; discriminate H].
Qed.

Lemma string_app_assoc (a b c : string) :
  ((a ++ b) ++ c)%string = (a ++ (b ++ c))%string.
Proof. apply chars_inj. rewrite !chars_app. symmetry. apply app_assoc. Qed.

Lemma is_bare_drive_iff (a : string) : is_bare_drive a = true <-> bare_drive a.
Proof.
  unfold bare_drive. destruct a as [|c [|d [|e rest]]]; cbn [is_bare_drive].
  - split; [discriminate | intros [x H]; discriminate H].
  - split; [discriminate | intros [x H]; discriminate H].
  - rewrite Ascii.eqb_eq. split.
    + intros ->. exists c. reflexivity.
    + intros [x H]. injection H as _ Hd. exact Hd.
  - split; [discriminate | intros [x H]; discriminate H].
Qed.

Lemma ends_with_separator_iff (a : string) :
  endswith a "\" || endswith a "/" = true <-> ends_with_separator a.
Proof.
  unfold ends_with_separator, separators, endswith.
  rewrite orb_true_iff, !(ends_with_iff _ ascii_eqb_iff). split.
  - intros [[stem H] | [stem H]]; exists stem;
      [exists "\"%char | exists "/"%char]; (split; [exact H | cbn; auto]).
  - intros (front & c & H & [<- | [<- | []]]); [left | right];
      exists front; exact H.
Qed.

(** The two ways [os.path.join] glues a folder and a relative name. *)
Lemma path_join_glued (a b : string) :
  a = "" \/ ends_with_separator a \/ bare_drive a ->
  path_join a b = (a ++ b)%string.
Proof.
  unfold path_join. intros [-> | H]; [reflexivity|].
  destruct (a =? "")%string eqn:E.
  - apply String.eqb_eq in E. subst a. reflexivity.
  - destruct H as [H | H].
    + apply ends_with_separator_iff in H. rewrite H. reflexivity.
    + apply is_bare_drive_iff in H. rewrite H, orb_true_r. reflexivity.
Qed.

Lemma path_join_separated (a b : string) :
  a <> "" -> ~ ends_with_separator a -> ~ bare_drive a ->
  path_join a b = (a ++ "\" ++ b)%string.
Proof.
  unfold path_join. intros Hne Hsep Hdrive.
  destruct (String.eqb_spec a "") as [E | _]; [destruct (Hne E)|].
  destruct (endswith a "\" || endswith a "/") eqn:E1.
  - apply ends_with_separator_iff in E1. destruct (Hsep E1).
  - destruct (is_bare_drive a) eqn:E2; [|reflexivity].
    apply is_bare_drive_iff in E2. destruct (Hdrive E2).
Qed.

Lemma join_after_folder (r : string) :
  path_join (r ++ "7-Zip") "7z.exe" = (r ++ "7-Zip\7z.exe")%string.
Proof.
  unfold path_join.
  assert (Hne : ((r ++ "7-Zip") =? "")%string = false)
    by (destruct r; reflexivity).
  assert (Hsep : forall c, Ascii.eqb c "p" = false ->
                   endswith (r ++ "7-Zip") (String c "") = false).
  { intros c Hc. unfold endswith, ends_with.
    rewrite chars_app, rev_app_distr.
    unfold chars; cbn [list_ascii_of_string rev app starts_with].
    rewrite Hc. reflexivity. }
  assert (Hdrive : is_bare_drive (r ++ "7-Zip") = false)
    by (destruct r as [|c [|d [|e r]]]; reflexivity).
  rewrite Hne, (Hsep "\"%char eq_refl), (Hsep "/"%char eq_refl), Hdrive.
  cbn [orb]. rewrite string_app_assoc. reflexivity.
Qed.

(** The location the code probes under a folder [a] taken from the
    environment. *)
Lemma join_under (a : string) :
  seven_zip_under a (path_join (path_join a "7-Zip") "7z.exe").
Proof.
  unfold seven_zip_under.
  destruct (String.eqb_spec a "") as [-> | Hne].
  - left. split; [left; reflexivity | vm_compute; reflexivity].
  - destruct (endswith a "\" || endswith a "/") eqn:E1.
    + apply ends_with_separator_iff in E1. left.
      split; [right; left; exact E1|].
      rewrite (path_join_glued a "7-Zip") by (right; left; exact E1).
      apply join_after_folder.
    + assert (Hsep : ~ ends_with_separator a).
      { intros H. apply ends_with_separator_iff in H.
        rewrite H in E1. discriminate E1. }
      destruct (is_bare_drive a) eqn:E2.
      * apply is_bare_drive_iff in E2. left.
        split; [right; right; exact E2|].
        rewrite (path_join_glued a "7-Zip") by (right; right; exact E2).
        apply join_after_folder.
      * assert (Hdrive : ~ bare_drive a).
        { intros H. apply is_bare_drive_iff in H.
          rewrite H in E2. discriminate E2. }
        right. split; [auto|].
        rewrite (path_join_separated a "7-Zip" Hne Hsep Hdrive).
        rewrite <- string_app_assoc, join_after_folder, string_app_assoc.
        reflexivity.
Qed.

(** X14.  On a host whose ProgramFiles and ProgramFiles(x86) values do not
    begin with two separators, [find_7zip] probes four locations in this
    order: C:\Program Files\7-Zip\7z.exe, C:\Program Files
    (x86)\7-Zip\7z.exe, and 7-Zip\7z.exe under each of the two values.
    It answers with the first location that exists; with "7z.exe" when
    none exists and the search path has it; and with nothing exactly when
    none exists and the search path has it not. *)
Theorem find_7zip_result (h : host) :
  ~ begins_with_two_separators (os_environ_get h "ProgramFiles") ->
  ~ begins_with_two_separators (os_environ_get h "ProgramFiles(x86)") ->
  exists third fourth,
    seven_zip_under (os_environ_get h "ProgramFiles") third /\
    seven_zip_under (os_environ_get h "ProgramFiles(x86)") fourth /\
    let locations :=
      [ "C:\Program Files\7-Zip\7z.exe";
        "C:\Program Files (x86)\7-Zip\7z.exe";
        third; fourth ] in
    match find_7zip h with
    | Some path =>
        (exists earlier later,
           locations = earlier ++ path :: later /\
           os_path_exists h path = true /\
           forall p, In p earlier -> os_path_exists h p = false) \/
        (path = "7z.exe" /\
         (forall p, In p locations -> os_path_exists h p = false) /\
         shutil_which h "7z.exe" <> None)
    | None =>
        (forall p, In p locations -> os_path_exists h p = false) /\
        shutil_which h "7z.exe" = None
    end.
Proof.
  intros _ _.
  exists (path_join (path_join (os_environ_get h "ProgramFiles") "7-Zip")
                    "7z.exe"),
         (path_join (path_join (os_environ_get h "ProgramFiles(x86)") "7-Zip")
                    "7z.exe").
  split; [apply join_under|]. split; [apply join_under|].
  cbv zeta. change [_; _; _; _] with (seven_zip_paths h).
  unfold find_7zip, is_tool_in_path.
  destruct (find (os_path_exists h) (seven_zip_paths h)) as [path|] eqn:F.
  - left. apply DetectionFacts.find_splits in F. exact F.
  - pose proof (find_none _ _ F) as Hnone.
    destruct (shutil_which h "7z.exe") as [found|].
    + right. repeat split; [exact Hnone | discriminate].
    + split; [exact Hnone | reflexivity].
Qed.

Lemma drive_path_is_no_share (c d : ascii) (rest : string) :
  ~ In c separators -> ~ begins_with_two_separators (String c (String d rest)).
Proof.
  intros Hc (c' & d' & rest' & H & Hc' & _).
  unfold chars in H. cbn [list_ascii_of_string] in H.
  injection H as -> _ _. exact (Hc Hc').
Qed.

Lemma find_7zip_result_witness :
  find_7zip host_7zip_on_d = Some "D:\Apps\7-Zip\7z.exe" /\
  exists third fourth,
    seven_zip_under "D:\Apps" third /\
    seven_zip_under "D:\Apps (x86)\" fourth /\
    let locations :=
      [ "C:\Program Files\7-Zip\7z.exe";
        "C:\Program Files (x86)\7-Zip\7z.exe";
        third; fourth ] in
    match find_7zip host_7zip_on_d with
    | Some path =>
        (exists earlier later,
           locations = earlier ++ path :: later /\
           os_path_exists host_7zip_on_d path = true /\
           forall p, In p earlier -> os_path_exists host_7zip_on_d p = false)
        \/
        (path = "7z.exe" /\
         (forall p, In p locations ->
                    os_path_exists host_7zip_on_d p = false) /\
         shutil_which host_7zip_on_d "7z.exe" <> None)
    | None =>
        (forall p, In p locations -> os_path_exists host_7zip_on_d p = false)
        /\ shutil_which host_7zip_on_d "7z.exe" = None
    end.
Proof.
  split; [vm_compute; reflexivity|].
  apply (find_7zip_result host_7zip_on_d).
  - apply drive_path_is_no_share.
    intros [H | [H | []]]; discriminate H.
  - apply drive_path_is_no_share.
    intros [H | [H | []]]; discriminate H.
Defined.

(** *** What a returned directory satisfies *)

Section Returns.
Variable Q : option string -> run_state -> Prop.

Lemma returns_bind {A B} (m : Run A) (k : A -> Run B) :
  returns_only Q m -> (forall a, returns_only Q (k a)) ->
  returns_only Q (bind m k).
Proof.
  intros Hm Hk st r st' H. rewrite bind_run in H.
  destruct (m st) as [[a | r0 | e] st1] eqn:E.
  - exact (Hk a st1 r st' H).
  - injection H as <- <-. exact (Hm st r0 st1 E).
  - discriminate H.
Qed.

Lemma returns_never {A} (m : Run A) :
  (forall st r st', m st <> (Return r, st')) -> returns_only Q m.
Proof. intros H st r st' E. destruct (H st r st' E). Qed.

Lemma returns_attempt (s : strategy) (method : target -> bool * target) :
  returns_only Q (attempt s method).
Proof.
  apply returns_never. intros st r st'. unfold attempt.
  destruct (method (rs_target st)); discriminate.
Qed.

Lemma returns_pure {A} (a : A) : returns_only Q (pure a : Run A).
Proof. apply returns_never. intros st r st'. discriminate. Qed.

Lemma returns_cleanup (h : host) : returns_only Q (cleanup h).
Proof. apply returns_never. intros st r st'. discriminate. Qed.

Lemma returns_if {A} (c : bool) (m1 m2 : Run A) :
  returns_only Q m1 -> returns_only Q m2 ->
  returns_only Q (if c then m1 else m2).
Proof. destruct c; auto. Qed.

End Returns.

Lemma returns_validated (extract_dir : string) (rest : Run unit) :
  returns_only (validated extract_dir) rest ->
  returns_only (validated extract_dir)
    (valid <- validate extract_dir ;;
     if valid : bool then return_ (Some extract_dir) else rest).
Proof.
  intros Hrest st r st' H. rewrite bind_run in H.
  unfold validate, call in H.
  destruct (_validate_extraction extract_dir (rs_target st))
    as [[|] | e] eqn:V.
  - injection H as <- <-. right. split; [reflexivity | exact V].
  - exact (Hrest st r st' H).
  - discriminate H.
Qed.

Ltac returns_steps :=
  repeat first
    [ apply returns_attempt
    | apply returns_pure
    | apply returns_cleanup
    | apply returns_validated
    | apply returns_if
    | apply returns_bind; [|intro] ].

Lemma extract_block_returns (h : host) (cfg : config)
  (installer_path extract_dir : string) :
  returns_only (validated extract_dir)
    (extract_block h cfg installer_path extract_dir).
Proof.
  unfold extract_block. returns_steps.
  intros st r st' [= <- <-]. left; reflexivity.
Qed.

Lemma validated_has_entries (extract_dir : string) (t : target) :
  _validate_extraction extract_dir t = Returned true -> has_entries t.
Proof.
  unfold _validate_extraction.
  destruct (extract_dir =? "")%string; [discriminate|].
  destruct t as [[|entries]|]; cbn [exists_ negb orb listdir];
    try discriminate.
  destruct entries as [|e rest]; [discriminate|].
  intros _. exists (e :: rest). split; [reflexivity | discriminate].
Qed.

Lemma returned_directory (h : host) (cfg : config)
  (installer_path dir : string) (st : run_state) :
  extract_installer h cfg installer_path = (Some dir, st) ->
  dir = path_join (mkdtemp h) "extracted" /\
  _validate_extraction dir (rs_target st) = Returned true.
Proof.
  unfold extract_installer. cbv zeta.
  pose proof (extract_block_returns h cfg installer_path
                (path_join (mkdtemp h) "extracted")
                (mk_run_state (Some (Dir [])) [])) as R.
  destruct (extract_block h cfg installer_path _ _) as [[u | r | e] st1];
    intros H; try discriminate H.
  injection H as -> ->.
  destruct (R (Some dir) st eq_refl) as [H | [[= <-] V]];
    [discriminate H | split; [reflexivity | exact V]].
Qed.

(** X15.  Whenever [extract_installer] returns a path, it is the directory
    "extracted" under the temporary directory of the run, and at the
    moment of the return that directory passes [_validate_extraction]:
    it exists and lists at least one entry. *)
Theorem returned_directory_is_validated
  (h : host) (cfg : config) (installer_path dir : string)
  (st : run_state) :
  extract_installer h cfg installer_path = (Some dir, st) ->
  dir = path_join (mkdtemp h) "extracted" /\
  _validate_extraction dir (rs_target st) = Returned true /\
  has_entries (rs_target st).
Proof.
  intros H. apply returned_directory in H. destruct H as [Hdir V].
  repeat split; [exact Hdir | exact V|].
  exact (validated_has_entries _ _ V).
Qed.

Lemma returned_directory_is_validated_witness :
  "C:\Temp\portablexe_extract_ef56\extracted"
    = path_join (mkdtemp host_7zip_works) "extracted" /\
  _validate_extraction "C:\Temp\portablexe_extract_ef56\extracted"
    (Some (Dir [("app.exe", File); ("app.ini", File)])) = Returned true /\
  has_entries (Some (Dir [("app.exe", File); ("app.ini", File)])).
Proof.
  apply (returned_directory_is_validated host_7zip_works plain_config
           "C:\Downloads\game.exe"
           "C:\Temp\portablexe_extract_ef56\extracted"
           (mk_run_state (Some (Dir [("app.exe", File); ("app.ini", File)]))
                         [(SevenZip, Some (Dir []))])).
  vm_compute. reflexivity.
Defined.

(** *** The order of the strategies *)

Lemma runs_bind {A B} (p1 p2 : list strategy) (m : Run A) (k : A -> Run B) :
  runs p1 m -> (forall a, runs p2 (k a)) -> runs (p1 ++ p2) (bind m k).
Proof.
  intros Hm Hk st. rewrite bind_run.
  destruct (Hm st) as (s1 & l1 & Hp1 & Hs1 & Hnext1).
  destruct (m st) as [[a | r | e] st1]; cbn [fst snd] in *.
  - rewrite (Hnext1 a eq_refl), app_nil_r in Hp1. subst p1.
    destruct (Hk a st1) as (s2 & l2 & Hp2 & Hs2 & Hnext2).
    exists (s1 ++ s2), l2. repeat split.
    + rewrite Hp2, app_assoc. reflexivity.
    + rewrite Hs2, Hs1, app_assoc. reflexivity.
    + exact Hnext2.
  - exists s1, (l1 ++ p2). repeat split.
    + rewrite Hp1, app_assoc. reflexivity.
    + exact Hs1.
    + discriminate.
  - exists s1, (l1 ++ p2). repeat split.
    + rewrite Hp1, app_assoc. reflexivity.
    + exact Hs1.
    + discriminate.
Qed.

Lemma runs_nothing {A} (m : Run A) :
  (forall st, rs_started (snd (m st)) = rs_started st) -> runs [] m.
Proof.
  intros H st. exists [], [].
  split; [reflexivity|]. split; [|reflexivity].
  rewrite H, app_nil_r. reflexivity.
Qed.

Lemma runs_attempt (s : strategy) (method : target -> bool * target) :
  runs [s] (attempt s method).
Proof.
  intros st. exists [s], []. unfold attempt.
  destruct (method (rs_target st)) as [ok t']. cbn [fst snd rs_started].
  rewrite map_app. split; [reflexivity|]. split; reflexivity.
Qed.

Lemma runs_validate (extract_dir : string) : runs [] (validate extract_dir).
Proof.
  apply runs_nothing. intros st. unfold validate, call.
  destruct (_validate_extraction _ _); reflexivity.
Qed.

Lemma runs_if {A} (p : list strategy) (c : bool) (m1 m2 : Run A) :
  runs p m1 -> runs p m2 -> runs p (if c then m1 else m2).
Proof. destruct c; auto. Qed.

Lemma runs_guarded {A} (p : list strategy) (c : bool) (m1 m2 : Run A) :
  runs p m1 -> runs [] m2 ->
  runs (if c then p else []) (if c then m1 else m2).
Proof. destruct c; auto. Qed.

Lemma runs_checked (extract_dir : string) (r : option string)
  (rest : Run unit) :
  runs [] rest ->
  runs [] (valid <- validate extract_dir ;;
           if valid : bool then return_ r else rest).
Proof.
  intros Hrest. apply (runs_bind [] []); [apply runs_validate|].
  intros valid. apply runs_if; [|exact Hrest].
  apply runs_nothing. reflexivity.
Qed.

Lemma runs_strategy (s : strategy) (method : target -> bool * target)
  (extract_dir : string) (r : option string) (rest : Run unit) :
  runs [] rest ->
  runs [s] (ok <- attempt s method ;;
            if ok : bool
            then (valid <- validate extract_dir ;;
                  if valid : bool then return_ r else rest)
            else pure tt).
Proof.
  intros Hrest. apply (runs_bind [s] []); [apply runs_attempt|].
  intros ok. apply runs_if; [apply runs_checked, Hrest|].
  apply runs_nothing. reflexivity.
Qed.

Lemma extract_block_runs (h : host) (cfg : config)
  (installer_path extract_dir : string) :
  runs (planned cfg installer_path)
       (extract_block h cfg installer_path extract_dir).
Proof.
  assert (Hclean : runs [] (cleanup h)) by (apply runs_nothing; reflexivity).
  assert (Hpure : runs [] (pure tt : Run unit))
    by (apply runs_nothing; reflexivity).
  unfold planned, extract_block.
  apply runs_bind;
    [apply runs_guarded; [apply runs_strategy, Hclean | exact Hpure]|].
  intros _. apply runs_bind;
    [apply runs_guarded; [apply runs_strategy, Hclean | exact Hpure]|].
  intros _. apply runs_bind;
    [apply runs_guarded; [apply runs_strategy, Hclean | exact Hpure]|].
  intros _. apply (runs_bind [Universal] []); [apply runs_attempt|].
  intros ok. apply (runs_bind [] []).
  - apply runs_if; [apply runs_checked, Hpure | exact Hpure].
  - intros _. apply runs_nothing. reflexivity.
Qed.

(** X16.  The strategy methods a run calls are, in this order, the first few
    of: 7-Zip when enabled, innoextract when enabled, msiexec when the
    path ends in .msi and it is enabled, and the zip strategy.  No
    strategy is called twice, none out of order, none that is disabled. *)
Theorem strategies_follow_the_plan
  (h : host) (cfg : config) (installer_path : string) :
  exists later,
    planned cfg installer_path
    = map fst (rs_started (snd (extract_installer h cfg installer_path)))
      ++ later.
Proof.
  unfold extract_installer. cbv zeta.
  destruct (extract_block_runs h cfg installer_path
              (path_join (mkdtemp h) "extracted")
              (mk_run_state (Some (Dir [])) []))
    as (started & later & Hplan & Hstarted & _).
  exists later. cbn [rs_started map app] in Hstarted.
  destruct (extract_block h cfg installer_path _ _) as [[u | r | e] st];
    cbn [fst snd] in *; rewrite Hstarted; exact Hplan.
Qed.

(** *** Cleaning between strategies *)

Lemma failed_tool_output_is_kept_witness :
  exists more,
    rs_started (snd (extract_installer host_7zip_times_out plain_config
                       "C:\Downloads\game.exe"))
    = (SevenZip, Some (Dir [])) :: (InnoExtract, stale) :: more.
Proof.
  apply (failed_tool_output_is_kept host_7zip_times_out plain_config
           "C:\Downloads\game.exe" stale).
  - reflexivity.
  - reflexivity.
  - vm_compute. reflexivity.
Defined.

(** X17.  When 7-Zip reports success, the validator rejects what it wrote and
    the tree can be removed, innoextract starts on an empty directory. *)
Theorem rejected_output_is_cleared
  (h : host) (cfg : config) (installer_path : string) (n : node) :
  get cfg "Extraction" "use_7zip" "" = "true" ->
  get cfg "Extraction" "use_innoextract" "" = "true" ->
  _extract_with_7zip h cfg installer_path
    (path_join (mkdtemp h) "extracted") (Some (Dir [])) = (true, Some n) ->
  _validate_extraction (path_join (mkdtemp h) "extracted") (Some n)
    = Returned false ->
  shutil_rmtree h n = Removed ->
  exists more,
    rs_started (snd (extract_installer h cfg installer_path))
    = (SevenZip, Some (Dir [])) :: (InnoExtract, Some (Dir [])) :: more.
Proof.
  intros H7 Hinno Hok Hrejected Hremoved. unfold extract_installer.
  set (extract_dir := path_join (mkdtemp h) "extracted") in *.
  cbv zeta.
  assert (E : exists more,
             rs_started (snd (extract_block h cfg installer_path extract_dir
                                (mk_run_state (Some (Dir [])) [])))
             = (SevenZip, Some (Dir [])) :: (InnoExtract, Some (Dir []))
               :: more).
  { unfold extract_block. rewrite H7, Hinno.
    change ("true" =? "true")%string with true. cbv iota.
    rewrite bind_run. rewrite bind_run.
    unfold attempt at 1. cbn [rs_target rs_started]. rewrite Hok.
    cbv beta iota. cbn [app].
    rewrite bind_run. unfold validate at 1, call. cbn [rs_target].
    rewrite Hrejected. cbv beta iota.
    unfold cleanup at 1. cbn [rs_target rs_started].
    unfold _cleanup_failed_extraction. rewrite Hremoved.
    rewrite bind_run. rewrite bind_run.
    unfold attempt at 1. cbn [rs_target rs_started].
    destruct (_extract_with_innoextract h cfg installer_path extract_dir
                (Some (Dir []))) as [ok2 t2].
    cbv beta iota. cbn [app].
    match goal with
    | |- exists more, rs_started (snd (match ?first ?st with _ => _ end)) = _ =>
        assert (G1 : grows first) by grows_steps;
        destruct (G1 st) as [more1 M1]; destruct (first st) as [[[] | r | e] st1]
    end; cbn [snd rs_started] in M1 |- *.
    2,3: (exists more1; rewrite M1; reflexivity).
    match goal with
    | |- exists more, rs_started (snd (?rest st1)) = _ =>
        assert (G2 : grows rest) by grows_steps;
        destruct (G2 st1) as [more2 M2]
    end.
    exists (more1 ++ more2). rewrite M2, M1, <- app_assoc. reflexivity. }
  destruct E as [more E]. exists more.
  destruct (extract_block _ _ _ _ _) as [[u | r | e] st]; exact E.
Qed.

Lemma rejected_output_is_cleared_witness :
  exists more,
    rs_started (snd (extract_installer host_7zip_text_only plain_config
                       "C:\Downloads\game.exe"))
    = (SevenZip, Some (Dir [])) :: (InnoExtract, Some (Dir [])) :: more.
Proof.
  apply (rejected_output_is_cleared host_7zip_text_only plain_config
           "C:\Downloads\game.exe" (Dir [("readme.txt", File)])).
  - reflexivity.
  - reflexivity.
  - vm_compute. reflexivity.
  - vm_compute. reflexivity.
  - reflexivity.
Defined.

(** *** What the build is given *)

(** X21.  What [_create_portable_app_thread] hands to the builder: either the
    input file itself, marked standalone; or, marked not standalone, the
    extraction directory of a run on a file classified as an installer,
    which passed validation. *)
Theorem build_source_is_input_or_validated
  (basename : string -> string) (fs : files) (h : host) (cfg : config)
  (input_file source_path : string) (is_standalone : bool)
  (run : option run_state) :
  choose_source basename fs h cfg input_file
    = Returned (source_path, is_standalone, run) ->
  (is_standalone = true /\ source_path = input_file) \/
  (is_standalone = false /\
   source_path = path_join (mkdtemp h) "extracted" /\
   (exists family,
      detect_installer_type basename fs input_file = Returned (true, family))
   /\
   exists st,
     run = Some st /\
     _validate_extraction source_path (rs_target st) = Returned true).
Proof.
  unfold choose_source.
  destruct (detect_installer_type basename fs input_file)
    as [[[|] family] | e]; [| |discriminate].
  - destruct (extract_installer h cfg input_file) as [[dir|] st] eqn:E.
    + destruct (dir =? "")%string.
      * intros [= <- <- <-]. left. split; reflexivity.
      * intros [= <- <- <-]. right.
        apply returned_directory in E. destruct E as [Hdir V].
        split; [reflexivity|]. split; [exact Hdir|].
        split; [exists family; reflexivity|].
        exists st. split; [reflexivity | exact V].
    + intros [= <- <- <-]. left. split; reflexivity.
  - intros [= <- <- <-]. left. split; reflexivity.
Qed.

Lemma build_source_is_input_or_validated_witness :
  (false = true /\
   "C:\Temp\portablexe_extract_ef56\extracted" = "C:\Downloads\setup.exe") \/
  (false = false /\
   "C:\Temp\portablexe_extract_ef56\extracted"
     = path_join (mkdtemp host_7zip_works) "extracted" /\
   (exists family,
      detect_installer_type last_component
        (one_file "C:\Downloads\setup.exe" inno_marked)
        "C:\Downloads\setup.exe" = Returned (true, family)) /\
   exists st,
     Some (mk_run_state (Some (Dir [("app.exe", File); ("app.ini", File)]))
                        [(SevenZip, Some (Dir []))]) = Some st /\
     _validate_extraction "C:\Temp\portablexe_extract_ef56\extracted"
       (rs_target st) = Returned true).
Proof.
  apply (build_source_is_input_or_validated last_component
           (one_file "C:\Downloads\setup.exe" inno_marked)
           host_7zip_works plain_config "C:\Downloads\setup.exe").
  vm_compute. reflexivity.
Defined.

(** *** When the tools cannot run *)

(** X20.  A tool that [check_dependencies] reports as missing makes its
    strategy fail at once, whatever the input, and leaves the extraction
    directory as it was. *)
Theorem missing_tool_is_skipped (h : host) :
  (In "7-Zip (7z.exe)" (missing_dependencies h) ->
   forall cfg installer_path extract_dir t,
     _extract_with_7zip h cfg installer_path extract_dir t = (false, t)) /\
  (In "innoextract" (missing_dependencies h) ->
   forall cfg installer_path extract_dir t,
     _extract_with_innoextract h cfg installer_path extract_dir t
       = (false, t)).
Proof.
  unfold missing_dependencies, _extract_with_7zip, _extract_with_innoextract.
  destruct (find_7zip h) as [exe7|]; destruct (find_innoextract h) as [exei|];
    cbn [app In]; split; intros H; try reflexivity;
    exfalso; repeat (destruct H as [H | H]; [discriminate H|]); exact H.
Qed.

Lemma missing_tool_is_skipped_witness :
  _extract_with_7zip host_zip_only plain_config "C:\Downloads\game.exe"
    "C:\Temp\portablexe_extract_gh78\extracted" (Some (Dir []))
  = (false, Some (Dir [])).
Proof.
  apply (proj1 (missing_tool_is_skipped host_zip_only)).
  vm_compute. left. reflexivity.
Defined.

Lemma failing_strategy_block (h : host) (s : strategy)
  (method : target -> bool * target) (extract_dir : string)
  (c : bool) (st : run_state) :
  method (rs_target st) = (false, rs_target st) ->
  exists started,
    (if c
     then
       ok <- attempt s method ;;
       if ok : bool
       then
         valid <- validate extract_dir ;;
         if valid : bool then return_ (Some extract_dir) else cleanup h
       else pure tt
     else pure tt) st
    = (Next tt, mk_run_state (rs_target st) started).
Proof.
  intros Hfail. destruct c.
  - rewrite bind_run. unfold attempt. rewrite Hfail. cbv beta iota.
    eexists. reflexivity.
  - exists (rs_started st). destruct st; reflexivity.
Qed.

(** X19.  When each of the three tool strategies fails on the empty directory
    without touching it (its tool is missing, the timeout cannot be
    read, the process cannot start), the outcome of the run is that of
    the zip strategy alone: its directory when it reports success and
    the validator accepts, nothing otherwise. *)
Theorem only_zip_when_tools_fail
  (h : host) (cfg : config) (installer_path : string) :
  let extract_dir := path_join (mkdtemp h) "extracted" in
  _extract_with_7zip h cfg installer_path extract_dir (Some (Dir []))
    = (false, Some (Dir [])) ->
  _extract_with_innoextract h cfg installer_path extract_dir (Some (Dir []))
    = (false, Some (Dir [])) ->
  _extract_msi h cfg installer_path extract_dir (Some (Dir []))
    = (false, Some (Dir [])) ->
  fst (extract_installer h cfg installer_path) =
  match _extract_universal h installer_path extract_dir (Some (Dir [])) with
  | (true, after) =>
      match _validate_extraction extract_dir after with
      | Returned true => Some extract_dir
      | _ => None
      end
  | (false, _) => None
  end.
Proof.
  intros extract_dir H7 Hinno Hmsi. unfold extract_installer.
  fold extract_dir. cbv zeta. unfold extract_block.
  rewrite bind_run.
  destruct (failing_strategy_block h SevenZip
              (_extract_with_7zip h cfg installer_path extract_dir)
              extract_dir
              (get cfg "Extraction" "use_7zip" "" =? "true")%string
              (mk_run_state (Some (Dir [])) []) H7) as [s1 ->].
  cbv beta iota. cbn [rs_target]. rewrite bind_run.
  destruct (failing_strategy_block h InnoExtract
              (_extract_with_innoextract h cfg installer_path extract_dir)
              extract_dir
              (get cfg "Extraction" "use_innoextract" "" =? "true")%string
              (mk_run_state (Some (Dir [])) s1) Hinno) as [s2 ->].
  cbv beta iota. cbn [rs_target]. rewrite bind_run.
  destruct (failing_strategy_block h Msi
              (_extract_msi h cfg installer_path extract_dir)
              extract_dir
              (endswith (lower installer_path) ".msi"
               && (get cfg "Extraction" "use_msi_extract" "" =? "true")%string)
              (mk_run_state (Some (Dir [])) s2) Hmsi) as [s3 ->].
  cbv beta iota. cbn [rs_target]. rewrite bind_run. unfold attempt.
  cbn [rs_target rs_started].
  destruct (_extract_universal h installer_path extract_dir (Some (Dir [])))
    as [[|] after]; cbv beta iota.
  - rewrite bind_run, bind_run. unfold validate, call. cbn [rs_target].
    destruct (_validate_extraction extract_dir after) as [[|] | e];
      reflexivity.
  - reflexivity.
Qed.

Lemma only_zip_when_tools_fail_witness :
  fst (extract_installer host_zip_only plain_config "C:\Downloads\game.msi")
  = Some "C:\Temp\portablexe_extract_gh78\extracted".
Proof.
  apply (only_zip_when_tools_fail host_zip_only plain_config
           "C:\Downloads\game.msi");
    vm_compute; reflexivity.
Defined.

End OrchestrationLaws.

(* ===================================================================== *)
(** ** The suggested application name *)
(* ===================================================================== *)

Module NameLaws.
Import Py PortableXE_GUI Spec NameNotions WordNotions SeqFacts.

Lemma is_trim_char_iff (c : ascii) :
  is_trim_char c = true <-> In c trim_chars.
Proof.
  unfold is_trim_char, trim_chars. cbn [In].
  rewrite !orb_true_iff, !Ascii.eqb_eq. intuition congruence.
Qed.

Lemma lstrip_head (s : list ascii) (c : ascii) (rest : list ascii) :
  lstrip s = c :: rest -> is_trim_char c = false.
Proof.
  induction s as [|x s IH]; cbn [lstrip]; [discriminate|].
  destruct (is_trim_char x) eqn:E; [exact IH|].
  intros [= <- _]. exact E.
Qed.

Lemma lstrip_suffix (s : list ascii) : exists dropped, s = dropped ++ lstrip s.
Proof.
  induction s as [|x s [dropped IH]]; cbn [lstrip].
  - exists []. reflexivity.
  - destruct (is_trim_char x).
    + exists (x :: dropped). cbn [app]. rewrite <- IH. reflexivity.
    + exists []. reflexivity.
Qed.

(** [strip] on character lists. *)
Lemma stripped_ends (s : list ascii) :
  let t := rev (lstrip (rev (lstrip s))) in
  (forall c rest, t = c :: rest -> is_trim_char c = false) /\
  (forall c front, t = front ++ [c] -> is_trim_char c = false).
Proof.
  cbv zeta. split.
  - intros c rest H.
    destruct (lstrip_suffix (rev (lstrip s))) as [dropped Hd].
    assert (Hl : lstrip s = rev (lstrip (rev (lstrip s))) ++ rev dropped).
    { rewrite <- rev_app_distr, <- Hd, rev_involutive. reflexivity. }
    rewrite H in Hl. cbn [app] in Hl. exact (lstrip_head _ _ _ Hl).
  - intros c front H.
    assert (Hr : lstrip (rev (lstrip s)) = c :: rev front).
    { rewrite <- (rev_involutive (lstrip (rev (lstrip s)))), H.
      rewrite rev_app_distr. reflexivity. }
    exact (lstrip_head _ _ _ Hr).
Qed.

Lemma upper_char_trim (c : ascii) :
  is_trim_char (upper_char c) = is_trim_char c.
Proof.
  destruct c as [[|] [|] [|] [|] [|] [|] [|] [|]]; vm_compute; reflexivity.
Qed.

Lemma lower_char_trim (c : ascii) :
  is_trim_char (lower_char c) = is_trim_char c.
Proof.
  destruct c as [[|] [|] [|] [|] [|] [|] [|] [|]]; vm_compute; reflexivity.
Qed.

Lemma chars_lower (s : string) : chars (lower s) = map lower_char (chars s).
Proof.
  unfold chars. induction s as [|c s IH]; cbn; [|rewrite IH]; reflexivity.
Qed.

Lemma chars_capitalize (s : string) :
  chars (capitalize s) =
  match chars s with
  | [] => []
  | c :: rest => upper_char c :: map lower_char rest
  end.
Proof.
  destruct s as [|c s]; [reflexivity|].
  cbn [capitalize]. unfold chars at 1 2. cbn [list_ascii_of_string].
  f_equal. exact (chars_lower s).
Qed.

Lemma upper_char_not_small (c : ascii) : ~ is_small (upper_char c).
Proof.
  unfold is_small, N.le.
  destruct c as [[|] [|] [|] [|] [|] [|] [|] [|]]; vm_compute;
    intuition congruence.
Qed.

Lemma lower_char_not_capital (c : ascii) : ~ is_capital (lower_char c).
Proof.
  unfold is_capital, N.le.
  destruct c as [[|] [|] [|] [|] [|] [|] [|] [|]]; vm_compute;
    intuition congruence.
Qed.

Lemma lower_char_twice (c : ascii) : lower_char (lower_char c) = lower_char c.
Proof.
  destruct c as [[|] [|] [|] [|] [|] [|] [|] [|]]; vm_compute; reflexivity.
Qed.

Lemma lower_twice (s : string) : lower (lower s) = lower s.
Proof.
  induction s as [|c s IH]; cbn [lower]; [reflexivity|].
  rewrite lower_char_twice, IH. reflexivity.
Qed.

Lemma not_trim (c : ascii) : is_trim_char c = false -> ~ In c trim_chars.
Proof.
  intros H Hin. apply is_trim_char_iff in Hin. rewrite Hin in H.
  discriminate H.
Qed.

Lemma lower_char_ascii (c : ascii) :
  (N_of_ascii c < 128)%N -> (N_of_ascii (lower_char c) < 128)%N.
Proof.
  unfold lower_char. cbv zeta. intros H.
  destruct ((65 <=? N_of_ascii c) && (N_of_ascii c <=? 90))%N eqn:E;
    [|exact H].
  apply andb_true_iff in E. destruct E as [_ E]. apply N.leb_le in E.
  rewrite N_ascii_embedding; lia.
Qed.

Lemma upper_char_ascii (c : ascii) :
  (N_of_ascii c < 128)%N -> (N_of_ascii (upper_char c) < 128)%N.
Proof.
  unfold upper_char. cbv zeta. intros H.
  destruct ((97 <=? N_of_ascii c) && (N_of_ascii c <=? 122))%N;
    [|exact H].
  rewrite N_ascii_embedding; lia.
Qed.

Lemma remove_from_keeps (term : list ascii) (skip : nat) (s : list ascii)
  (x : ascii) :
  In x (remove_from term skip s) -> In x s.
Proof.
  revert skip. induction s as [|c rest IH]; intros skip;
    cbn [remove_from]; [auto|].
  destruct skip as [|k].
  - destruct (starts_with Ascii.eqb term (c :: rest)).
    + intros H. right. exact (IH _ H).
    + intros [<- | H]; [left; reflexivity | right; exact (IH _ H)].
  - intros H. right. exact (IH _ H).
Qed.

Lemma lstrip_keeps (s : list ascii) (x : ascii) :
  In x (lstrip s) -> In x s.
Proof.
  destruct (lstrip_suffix s) as [dropped E]. intros H.
  rewrite E. apply in_or_app. right. exact H.
Qed.

Lemma ascii_text_lower (s : string) : ascii_text s -> ascii_text (lower s).
Proof.
  unfold ascii_text. rewrite chars_lower. intros H.
  apply Forall_forall. intros x Hx. apply in_map_iff in Hx.
  destruct Hx as (y & <- & Hy). apply lower_char_ascii.
  exact (proj1 (Forall_forall _ _) H y Hy).
Qed.

Lemma ascii_text_remove_all (term s : string) :
  ascii_text s -> ascii_text (remove_all term s).
Proof.
  unfold ascii_text, remove_all. rewrite chars_of_list. intros H.
  apply Forall_forall. intros x Hx. apply remove_from_keeps in Hx.
  exact (proj1 (Forall_forall _ _) H x Hx).
Qed.

Lemma ascii_text_strip (s : string) : ascii_text s -> ascii_text (strip s).
Proof.
  unfold ascii_text, strip. rewrite chars_of_list. intros H.
  apply Forall_forall. intros x Hx.
  apply in_rev, lstrip_keeps, in_rev, lstrip_keeps in Hx.
  exact (proj1 (Forall_forall _ _) H x Hx).
Qed.

Lemma ascii_text_capitalize (s : string) :
  ascii_text s -> ascii_text (capitalize s).
Proof.
  unfold ascii_text. rewrite chars_capitalize.
  destruct (chars s) as [|c rest]; [constructor|].
  intros H. inversion H as [|? ? Hc Hrest]; subst. constructor.
  - apply upper_char_ascii, Hc.
  - apply Forall_forall. intros x Hx. apply in_map_iff in Hx.
    destruct Hx as (y & <- & Hy). apply lower_char_ascii.
    exact (proj1 (Forall_forall _ _) Hrest y Hy).
Qed.

(** X22.  For an ASCII stem the suggested name is ASCII text again; it
    neither starts nor ends with a space, an underscore or a hyphen; its
    first character is no small letter and no later character is a
    capital letter. *)
Theorem suggested_name_is_tidy (stem : string) :
  ascii_text stem ->
  ascii_text (suggested_app_name stem) /\
  clean_ends (suggested_app_name stem) /\
  capitalized (suggested_app_name stem).
Proof.
  intros Htext. split.
  { unfold suggested_app_name. cbn [fold_left].
    apply ascii_text_capitalize, ascii_text_strip.
    repeat (apply ascii_text_remove_all, ascii_text_lower).
    exact Htext. }
  unfold suggested_app_name.
  set (app_name := fold_left _ _ stem).
  unfold clean_ends, capitalized. rewrite chars_capitalize.
  unfold strip. rewrite chars_of_list.
  destruct (stripped_ends (chars app_name)) as [Hfirst Hlast].
  destruct (rev (lstrip (rev (lstrip (chars app_name))))) as [|c rest].
  - split; [split|exact I].
    + intros c rest H; discriminate H.
    + intros c [|x front] H; discriminate H.
  - split; [split|split].
    + intros x tail [= <- _]. apply not_trim.
      rewrite upper_char_trim. exact (Hfirst c rest eq_refl).
    + intros x front H. apply not_trim.
      destruct (exists_last (l := c :: rest)) as (tfront & y & Ht);
        [discriminate|].
      pose proof (Hlast y tfront Ht) as Hy.
      destruct tfront as [|c' tfront'].
      * cbn [app] in Ht. injection Ht as -> ->.
        cbn [map] in H. destruct front as [|z [|z' front']];
          cbn [app] in H; try discriminate H.
        injection H as <-. rewrite upper_char_trim. exact Hy.
      * cbn [app] in Ht. injection Ht as <- ->.
        rewrite map_app in H. cbn [map] in H.
        change (upper_char c :: map lower_char tfront' ++ [lower_char y])
          with ((upper_char c :: map lower_char tfront') ++ [lower_char y])
          in H.
        apply app_inj_tail in H. destruct H as [_ <-].
        rewrite lower_char_trim. exact Hy.
    + apply upper_char_not_small.
    + apply Forall_forall. intros x Hx. apply in_map_iff in Hx.
      destruct Hx as (y & <- & _). apply lower_char_not_capital.
Qed.

Lemma suggested_name_is_tidy_witness :
  suggested_app_name "MyApp_Setup-v2 " = "Myapp_-v2" /\
  ascii_text (suggested_app_name "MyApp_Setup-v2 ") /\
  clean_ends (suggested_app_name "MyApp_Setup-v2 ") /\
  capitalized (suggested_app_name "MyApp_Setup-v2 ").
Proof.
  split; [vm_compute; reflexivity|].
  apply (suggested_name_is_tidy "MyApp_Setup-v2 ").
  unfold ascii_text, chars. cbn [list_ascii_of_string].
  repeat (constructor; [vm_compute; reflexivity|]). constructor.
Defined.

Lemma remove_absent (term s : list ascii) :
  ~ occurs_in term s -> remove_from term 0 s = s.
Proof.
  induction s as [|c rest IH]; intros Habsent; [reflexivity|].
  cbn [remove_from].
  destruct (starts_with Ascii.eqb term (c :: rest)) eqn:E.
  - exfalso. apply Habsent.
    apply (starts_with_iff _ ascii_eqb_iff) in E. destruct E as [after E].
    exists [], after. exact E.
  - f_equal. apply IH. intros (before & after & ->).
    apply Habsent. exists (c :: before), after. reflexivity.
Qed.

Lemma remove_all_absent (term s : string) :
  ~ occurs_in (chars term) (chars s) -> remove_all term s = s.
Proof.
  intros H. unfold remove_all. rewrite (remove_absent _ _ H).
  apply string_of_list_ascii_of_string.
Qed.

(** X23.  For a stem whose lower-cased form contains neither "setup" nor
    "install", the suggested name is the stem in lower case, stripped of
    spaces, underscores and hyphens at both ends, and capitalized. *)
Theorem plain_stem_is_only_tidied (stem : string) :
  plain_stem stem ->
  suggested_app_name stem = capitalize (strip (lower stem)).
Proof.
  intros [Hsetup Hinstall]. unfold suggested_app_name. cbn [fold_left].
  rewrite (remove_all_absent "setup" (lower stem) Hsetup).
  rewrite lower_twice, (remove_all_absent "install" (lower stem) Hinstall).
  rewrite lower_twice, remove_all_absent; [reflexivity|].
  intros H. apply Hinstall.
  exact (DetectionLaws.occurs_in_prefix (chars "install") (chars "er") _ H).
Qed.

Lemma plain_stem_is_only_tidied_witness :
  suggested_app_name "_VLC-3.0 " = capitalize (strip (lower "_VLC-3.0 ")).
Proof.
  apply (plain_stem_is_only_tidied "_VLC-3.0 ").
  split; intros H; apply (contains_iff _ ascii_eqb_iff) in H;
    vm_compute in H; discriminate H.
Defined.

End NameLaws.
